(** * llm-builds-linux: the verification engine, the task model and the
    trace collector, embedded in Rocq.

    Three Python modules are embedded:
    - [src/linux/benchmark/src/task.py]: the enumerations, [VerificationStep],
      [Task] with [to_dict] and [from_dict], [TaskResult];
    - [src/linux/benchmark/src/runner.py]: [RunnerConfig] and, of
      [TaskRunner], [run_verification], the five [_verify_*] checks and
      [evaluate_task] (which always verifies against the "local" handle;
      [setup_environment] and [cleanup] are not called by it);
    - [src/linux/benchmark/artifacts/src/benchmark_runner.py]: [ToolCall],
      [AgentTrace] and, of [BenchmarkRunner], the two tool hooks,
      [_serialize_message], [_extract_final_output] and [run_task].

    Conventions of the embedding.
    - Python [str] is [string]; the text is taken to be ASCII, so that
      [str.lower] and slicing act character by character.
    - Python [int] is [Z].  A finite Python [float] is the rational [Q] it
      denotes, and an operation on floats yields the binary64 number nearest
      to the exact result ([round_double], ties to even): [a / b] on two
      ints, [n * x] on an int and a float, [x - y].  Where CPython raises
      [OverflowError] because the result is out of the range of a float, so
      does the model.  Comparisons between float and int are exact, as they
      are in CPython.
    - A [dict] used as a map is a [gmap string pyval]; a dict used as a
      struct with a fixed set of keys is a record with the same field names.
    - Effects (the file system, sub-processes, the clock, the dict that
      [run_verification] mutates) are threaded through a state and exception
      monad [M].  [print] is not modelled: nothing below reads standard
      output. *)

From Stdlib Require Import ZArith QArith Qround Qabs Qpower Lqa Ascii String.
From stdpp Require Import base option list strings gmap pretty.

Set Warnings "-register-all".
Local Open Scope Z_scope.

(* ================================================================== *)
(** * Python preliminaries *)
(* ================================================================== *)

(** ** Exceptions and the state-and-exception monad *)

(** An instance of [Exception]: [exc_type] is [type(e).__name__] and
    [exc_msg] is [str(e)]. *)
Record PyExc : Type := Exc { exc_type : string; exc_msg : string }.

Definition M (S A : Type) : Type := S → (PyExc + A) * S.

Definition ret {S A} (a : A) : M S A := λ s, (inr a, s).

Definition bind {S A B} (m : M S A) (k : A → M S B) : M S B :=
  λ s, match m s with
       | (inr a, s') => k a s'
       | (inl e, s') => (inl e, s')
       end.

Definition raise {S A} (e : PyExc) : M S A := λ s, (inl e, s).

(** [try: body except Exception as e: handler e] *)
Definition try_except {S A} (body : M S A) (handler : PyExc → M S A) : M S A :=
  λ s, match body s with
       | (inl e, s') => handler e s'
       | (inr a, s') => (inr a, s')
       end.

(** [try: body finally: fin] *)
Definition try_finally {S A} (body : M S A) (fin : M S unit) : M S A :=
  λ s, match body s with
       | (r, s') =>
           match fin s' with
           | (inr _, s'') => (r, s'')
           | (inl e, s'') => (inl e, s'')
           end
       end.

Definition gets {S A} (f : S → A) : M S A := λ s, (inr (f s), s).
Definition modify {S} (f : S → S) : M S unit := λ s, (inr tt, f s).

Declare Scope py_scope.
Delimit Scope py_scope with py.
Notation "x <- m ;; k" := (bind m (λ x, k))
  (at level 20, m at level 99, k at level 200, only parsing) : py_scope.
Notation "m ;;; k" := (bind m (λ _, k))
  (at level 100, k at level 200, only parsing, right associativity) : py_scope.

(** Exceptions without state: the result of a pure but fallible function. *)
Definition Res (A : Type) : Type := PyExc + A.

Definition rbind {A B} (r : Res A) (k : A → Res B) : Res B :=
  match r with inr a => k a | inl e => inl e end.

Notation "x <~ r ;; k" := (rbind r (λ x, k))
  (at level 20, r at level 99, k at level 200, only parsing) : py_scope.

(** A fallible pure computation inside [M]. *)
Definition lift_res {S A} (r : Res A) : M S A := λ s, (r, s).

(** ** Strings *)

Definition chars (s : string) : list ascii := list_ascii_of_string s.
Definition str_of (l : list ascii) : string := string_of_list_ascii l.

(** [s[:n]] for [0 <= n]. *)
Definition py_slice_to (n : nat) (s : string) : string := str_of (take n (chars s)).

(** [list.startswith]-style test on character lists. *)
Fixpoint is_prefix_b (p l : list ascii) : bool :=
  match p, l with
  | [], _ => true
  | _ :: _, [] => false
  | a :: p', b :: l' => if decide (a = b) then is_prefix_b p' l' else false
  end.

Fixpoint is_infix_b (p l : list ascii) : bool :=
  is_prefix_b p l ||
  match l with
  | [] => false
  | _ :: l' => is_infix_b p l'
  end.

(** [needle in haystack] on [str]. *)
Definition py_in (needle haystack : string) : bool :=
  is_infix_b (chars needle) (chars haystack).

(** [str.lower] on one ASCII character. *)
Definition lower_char (c : ascii) : ascii :=
  let n := N_of_ascii c in
  if ((65 <=? n) && (n <=? 90))%N then ascii_of_N (n + 32) else c.

Definition py_lower (s : string) : string := str_of (map lower_char (chars s)).

(** [str.isspace] on one ASCII character. *)
Definition py_isspace (c : ascii) : bool :=
  let n := N_of_ascii c in
  (((9 <=? n) && (n <=? 13)) || ((28 <=? n) && (n <=? 32)))%N.

Fixpoint drop_while (f : ascii → bool) (l : list ascii) : list ascii :=
  match l with
  | [] => []
  | c :: l' => if f c then drop_while f l' else l
  end.

Fixpoint take_while (f : ascii → bool) (l : list ascii) : list ascii :=
  match l with
  | [] => []
  | c :: l' => if f c then c :: take_while f l' else []
  end.

(** [s.strip()] *)
Definition py_strip (s : string) : string :=
  str_of (reverse (drop_while py_isspace (reverse (drop_while py_isspace (chars s))))).

(** [s.split()[0]]: the first whitespace-delimited word, [IndexError] when
    there is none. *)
Definition py_split_first (s : string) : Res string :=
  match take_while (λ c, negb (py_isspace c)) (drop_while py_isspace (chars s)) with
  | [] => inl (Exc "IndexError" "list index out of range")
  | w => inr (str_of w)
  end.

(** [str(n)] for an [int]. *)
Definition py_str_int (n : Z) : string := pretty n.

Definition squote : ascii := ascii_of_N 39.
Definition dquote : ascii := ascii_of_N 34.
Definition backslash : ascii := ascii_of_N 92.

Definition hex_digit (n : N) : ascii :=
  if (n <? 10)%N then ascii_of_N (48 + n) else ascii_of_N (87 + n).

(** One character of [repr(s)], [q] being the quote that encloses it. *)
Definition repr_char (q c : ascii) : list ascii :=
  let n := N_of_ascii c in
  if decide (c = backslash) then [backslash; backslash]
  else if decide (c = q) then [backslash; q]
  else if (n =? 10)%N then backslash :: chars "n"
  else if (n =? 13)%N then backslash :: chars "r"
  else if (n =? 9)%N then backslash :: chars "t"
  else if ((n <? 32) || (n =? 127))%N
       then backslash :: chars "x" ++ [hex_digit (n / 16); hex_digit (n mod 16)]
  else [c].

(** [repr(s)] for a [str]: single quotes, unless the text has a single
    quote and no double quote. *)
Definition py_repr_str (s : string) : string :=
  let l := chars s in
  let q := if bool_decide (squote ∈ l) && negb (bool_decide (dquote ∈ l))
           then dquote else squote in
  str_of (q :: concat (map (repr_char q) l) ++ [q]).

Fixpoint join (sep : string) (l : list string) : string :=
  match l with
  | [] => ""
  | [x] => x
  | x :: l' => x +:+ sep +:+ join sep l'
  end.

(** [repr(l)] for a list of [str]. *)
Definition py_repr_list (l : list string) : string :=
  "[" +:+ join ", " (map py_repr_str l) +:+ "]".

(** [int(s)] on a [str]: surrounding whitespace is dropped, then an
    optional sign and decimal digits are read.  (CPython also admits single
    underscores between digits; no output of [stat -c %s] has them.) *)
Definition digit_val (c : ascii) : option Z :=
  let n := N_of_ascii c in
  if ((48 <=? n) && (n <=? 57))%N then Some (Z.of_N n - 48) else None.

Fixpoint digits_val (acc : Z) (l : list ascii) : option Z :=
  match l with
  | [] => Some acc
  | c :: l' => match digit_val c with
               | Some d => digits_val (10 * acc + d) l'
               | None => None
               end
  end.

Definition py_int_of_str (s : string) : Res Z :=
  let bad := inl (Exc "ValueError"
                    ("invalid literal for int() with base 10: " +:+ py_repr_str s)) in
  let unsigned (l : list ascii) : option Z :=
    match l with [] => None | _ => digits_val 0 l end in
  match chars (py_strip s) with
  | c :: l' =>
      if decide (c = "-"%char) then from_option (λ n, inr (- n)) bad (unsigned l')
      else if decide (c = "+"%char) then from_option inr bad (unsigned l')
      else from_option inr bad (unsigned (c :: l'))
  | [] => bad
  end.

(** ** Floats: binary64 numbers as rationals *)

(** [int(x)] on a float: truncation toward zero. *)
Definition py_int_of_float (x : Q) : Z :=
  if Qle_bool 0 x then Qfloor x else Qceiling x.

Definition Qlt_bool (x y : Q) : bool := negb (Qle_bool y x).

(** [2 ** e] *)
Definition pow2 (e : Z) : Q := (2 ^ e)%Q.

(** [floor(log2(q))] for [0 < q]: the exponent of the binade of [q]. *)
Definition Qlog2 (q : Q) : Z :=
  let e := Z.log2 (Qnum q) - Z.log2 (Z.pos (Qden q)) in
  if Qle_bool (pow2 e) q then e else e - 1.

(** The integer nearest to [x], a tie going to the even one. *)
Definition round_half_even (x : Q) : Z :=
  let fl := Qfloor x in
  match (x - inject_Z fl ?= 1 # 2)%Q with
  | Lt => fl
  | Gt => fl + 1
  | Eq => if Z.even fl then fl else fl + 1
  end.

(** The unit in the last place of the floats of the binade of [q]: 53
    bits of precision, the exponent not below that of the subnormal
    numbers. *)
Definition ulp_of (q : Q) : Q := pow2 (Z.max (Qlog2 q) (-1022) - 52).

(** The binary64 number nearest to [q], ties to even, whatever the
    magnitude of [q] ([float_finite] tells whether it is in range). *)
Definition round_double_pos (q : Q) : Q :=
  Qred (inject_Z (round_half_even (q / ulp_of q)) * ulp_of q).

Definition round_double (q : Q) : Q :=
  match (q ?= 0)%Q with
  | Eq => 0%Q
  | Gt => round_double_pos q
  | Lt => (- round_double_pos (- q))%Q
  end.

(** Past the largest float the nearest "float" is [2 ** 1024] or more:
    infinity. *)
Definition float_finite (x : Q) : bool := Qlt_bool (Qabs x) (pow2 1024).

(** [a / b] on two ints: the quotient, correctly rounded. *)
Definition py_truediv (a b : Z) : Res Q :=
  if b =? 0 then inl (Exc "ZeroDivisionError" "division by zero")
  else
    let x := round_double (inject_Z a / inject_Z b) in
    if float_finite x then inr x
    else inl (Exc "OverflowError" "integer division result too large for a float").

(** [float(n)], as in [n * x] for an int [n] and a float [x]. *)
Definition float_of_int (n : Z) : Res Q :=
  let x := round_double (inject_Z n) in
  if float_finite x then inr x
  else inl (Exc "OverflowError" "int too large to convert to float").

(** [x - y] on two floats (clock readings: the difference is in range). *)
Definition float_sub (x y : Q) : Q := round_double (x - y).

(** Round half to even at [d] decimals, as a count of units of [10^-d]
    ([x >= 0]). *)
Definition round_half_even_units (d : Z) (x : Q) : Z :=
  let num := Qnum x * 10 ^ d in
  let den := Z.pos (Qden x) in
  let fl := num / den in
  let r := num mod den in
  if 2 * r <? den then fl
  else if den <? 2 * r then fl + 1
  else if Z.even fl then fl else fl + 1.

(** [format(x, ".1f")] *)
Definition py_format_1f (x : Q) : string :=
  let u := round_half_even_units 1 (Qabs x) in
  (if Qlt_bool x 0 then "-" else "") +:+
  py_str_int (u / 10) +:+ "." +:+ py_str_int (u mod 10).

(** [round(x, 2)]: the float nearest to [x] rounded at two decimals. *)
Definition py_round2 (x : Q) : Q :=
  let u := round_half_even_units 2 (Qabs x) in
  round_double (if Qlt_bool x 0 then Qmake (- u) 100 else Qmake u 100).

(** ** Dynamically typed values: what a JSON-like [dict] holds *)

Inductive pyval : Type :=
  | PNone
  | PBool (b : bool)
  | PInt (n : Z)
  | PFloat (x : Q)
  | PStr (s : string)
  | PList (l : list pyval)
  | PDict (d : gmap string pyval).

(** [d[k]] *)
Definition dict_getitem (d : gmap string pyval) (k : string) : Res pyval :=
  match d !! k with
  | Some v => inr v
  | None => inl (Exc "KeyError" (py_repr_str k))
  end.

(** [d.get(k, default)] *)
Definition dict_get (d : gmap string pyval) (k : string) (default : pyval) : pyval :=
  from_option id default (d !! k).


(** Decoders from [pyval] to the field types that the dataclasses declare.
    The dataclasses do not check types at run time; a value outside the
    declared type has no image in the typed records below and is reported
    as a [TypeError], which is where the typed embedding stops. *)
Definition ill_typed {A} (what : string) : Res A :=
  inl (Exc "TypeError" ("not of the declared type: " +:+ what)).

Definition as_str (v : pyval) : Res string :=
  match v with PStr s => inr s | _ => ill_typed "str" end.

Definition as_int (v : pyval) : Res Z :=
  match v with PInt n => inr n | _ => ill_typed "int" end.

Definition as_opt_str (v : pyval) : Res (option string) :=
  match v with PNone => inr None | PStr s => inr (Some s) | _ => ill_typed "Optional[str]" end.

Definition as_opt_int (v : pyval) : Res (option Z) :=
  match v with PNone => inr None | PInt n => inr (Some n) | _ => ill_typed "Optional[int]" end.

Fixpoint res_map {A B} (f : A → Res B) (l : list A) : Res (list B) :=
  match l with
  | [] => inr []
  | x :: l' => (y <~ f x ;; ys <~ res_map f l' ;; inr (y :: ys))%py
  end.

Definition as_str_list (v : pyval) : Res (list string) :=
  match v with PList l => res_map as_str l | _ => ill_typed "list[str]" end.

Definition as_dict (v : pyval) : Res (gmap string pyval) :=
  match v with PDict d => inr d | _ => ill_typed "dict" end.

Definition as_list (v : pyval) : Res (list pyval) :=
  match v with PList l => inr l | _ => ill_typed "list" end.

Definition of_opt_str (o : option string) : pyval := from_option PStr PNone o.
Definition of_opt_int (o : option Z) : pyval := from_option PInt PNone o.
Definition of_str_list (l : list string) : pyval := PList (map PStr l).

(* ================================================================== *)
(** * task.py *)
(* ================================================================== *)

Inductive Difficulty : Type := EASY | MEDIUM | HARD | EXTREME.

Inductive Category : Type :=
  FROM_SCRATCH | TOOL_ASSISTED | MODIFICATION | DEBUGGING | CONFIGURATION.

Inductive VerificationType : Type :=
  BOOT_TEST | FILE_CHECK | CHECKSUM | COMMAND_OUTPUT | SIZE_CHECK.

Module Difficulty_.
(** [d.value] *)
Definition value (d : Difficulty) : string :=
  match d with
  | EASY => "easy" | MEDIUM => "medium" | HARD => "hard" | EXTREME => "extreme"
  end.

(** [Difficulty(v)]: the member whose value is [v], else [ValueError]. *)
Definition of_value (v : string) : Res Difficulty :=
  if decide (v = "easy") then inr EASY
  else if decide (v = "medium") then inr MEDIUM
  else if decide (v = "hard") then inr HARD
  else if decide (v = "extreme") then inr EXTREME
  else inl (Exc "ValueError" (py_repr_str v +:+ " is not a valid Difficulty")).
End Difficulty_.

Module Category_.
Definition value (c : Category) : string :=
  match c with
  | FROM_SCRATCH => "from_scratch"
  | TOOL_ASSISTED => "tool_assisted"
  | MODIFICATION => "modification"
  | DEBUGGING => "debugging"
  | CONFIGURATION => "configuration"
  end.

Definition of_value (v : string) : Res Category :=
  if decide (v = "from_scratch") then inr FROM_SCRATCH
  else if decide (v = "tool_assisted") then inr TOOL_ASSISTED
  else if decide (v = "modification") then inr MODIFICATION
  else if decide (v = "debugging") then inr DEBUGGING
  else if decide (v = "configuration") then inr CONFIGURATION
  else inl (Exc "ValueError" (py_repr_str v +:+ " is not a valid Category")).
End Category_.

Module VerificationType_.
Definition value (t : VerificationType) : string :=
  match t with
  | BOOT_TEST => "boot_test"
  | FILE_CHECK => "file_check"
  | CHECKSUM => "checksum"
  | COMMAND_OUTPUT => "command_output"
  | SIZE_CHECK => "size_check"
  end.

Definition of_value (v : string) : Res VerificationType :=
  if decide (v = "boot_test") then inr BOOT_TEST
  else if decide (v = "file_check") then inr FILE_CHECK
  else if decide (v = "checksum") then inr CHECKSUM
  else if decide (v = "command_output") then inr COMMAND_OUTPUT
  else if decide (v = "size_check") then inr SIZE_CHECK
  else inl (Exc "ValueError" (py_repr_str v +:+ " is not a valid VerificationType")).
End VerificationType_.

Module VerificationStep.
Record t : Type := mk {
  type : VerificationType;
  description : string;
  command : option string;
  expected_output : option string;
  expected_files : list string;
  max_size_mb : option Z;
  min_size_mb : option Z;
  timeout_seconds : Z;
}.

(** The dict that [Task.to_dict] builds for one step. *)
Definition to_dict (v : t) : gmap string pyval :=
  <["type" := PStr (VerificationType_.value (type v))]>
  (<["description" := PStr (description v)]>
  (<["command" := of_opt_str (command v)]>
  (<["expected_output" := of_opt_str (expected_output v)]>
  (<["expected_files" := of_str_list (expected_files v)]>
  (<["max_size_mb" := of_opt_int (max_size_mb v)]>
  (<["min_size_mb" := of_opt_int (min_size_mb v)]>
  (<["timeout_seconds" := PInt (timeout_seconds v)]> ∅))))))).

(** The [VerificationStep(...)] call inside [Task.from_dict]. *)
Definition from_dict (v : gmap string pyval) : Res t :=
  (ty_v <~ dict_getitem v "type" ;;
   ty_s <~ as_str ty_v ;;
   ty <~ VerificationType_.of_value ty_s ;;
   descr_v <~ dict_getitem v "description" ;;
   descr <~ as_str descr_v ;;
   cmd <~ as_opt_str (dict_get v "command" PNone) ;;
   exp_out <~ as_opt_str (dict_get v "expected_output" PNone) ;;
   exp_files <~ as_str_list (dict_get v "expected_files" (PList [])) ;;
   max_mb <~ as_opt_int (dict_get v "max_size_mb" PNone) ;;
   min_mb <~ as_opt_int (dict_get v "min_size_mb" PNone) ;;
   tmo <~ as_int (dict_get v "timeout_seconds" (PInt 300)) ;;
   inr (mk ty descr cmd exp_out exp_files max_mb min_mb tmo))%py.

(** [dataclasses.replace(v, field=...)] for three of the fields. *)
Definition replace_expected_files (files : list string) (v : t) : t :=
  mk (type v) (description v) (command v) (expected_output v) files
     (max_size_mb v) (min_size_mb v) (timeout_seconds v).
Definition replace_max_size_mb (bound : option Z) (v : t) : t :=
  mk (type v) (description v) (command v) (expected_output v) (expected_files v)
     bound (min_size_mb v) (timeout_seconds v).
Definition replace_min_size_mb (bound : option Z) (v : t) : t :=
  mk (type v) (description v) (command v) (expected_output v) (expected_files v)
     (max_size_mb v) bound (timeout_seconds v).
End VerificationStep.

Module Task.
Record t : Type := mk {
  id : string;
  name : string;
  description : string;
  category : Category;
  difficulty : Difficulty;
  instructions : string;
  expected_steps : Z;
  prerequisites : list string;
  base_image : string;
  required_packages : list string;
  required_disk_gb : Z;
  required_ram_gb : Z;
  verification_steps : list VerificationStep.t;
  success_artifacts : list string;
  time_limit_minutes : Z;
  expected_build_minutes : Z;
  tags : list string;
  reference_docs : list string;
  common_failure_points : list string;
}.

Definition to_dict (self : t) : gmap string pyval :=
  <["id" := PStr (id self)]>
  (<["name" := PStr (name self)]>
  (<["description" := PStr (description self)]>
  (<["category" := PStr (Category_.value (category self))]>
  (<["difficulty" := PStr (Difficulty_.value (difficulty self))]>
  (<["instructions" := PStr (instructions self)]>
  (<["expected_steps" := PInt (expected_steps self)]>
  (<["prerequisites" := of_str_list (prerequisites self)]>
  (<["base_image" := PStr (base_image self)]>
  (<["required_packages" := of_str_list (required_packages self)]>
  (<["required_disk_gb" := PInt (required_disk_gb self)]>
  (<["required_ram_gb" := PInt (required_ram_gb self)]>
  (<["verification_steps" :=
       PList (map (λ v, PDict (VerificationStep.to_dict v)) (verification_steps self))]>
  (<["success_artifacts" := of_str_list (success_artifacts self)]>
  (<["time_limit_minutes" := PInt (time_limit_minutes self)]>
  (<["expected_build_minutes" := PInt (expected_build_minutes self)]>
  (<["tags" := of_str_list (tags self)]>
  (<["reference_docs" := of_str_list (reference_docs self)]>
  (<["common_failure_points" := of_str_list (common_failure_points self)]> ∅)))))))))))))))))).

Definition from_dict (data : gmap string pyval) : Res t :=
  (steps_l <~ as_list (dict_get data "verification_steps" (PList [])) ;;
   verification_steps <~
     res_map (λ v, d <~ as_dict v ;; VerificationStep.from_dict d) steps_l ;;
   id_v <~ dict_getitem data "id" ;;
   id_ <~ as_str id_v ;;
   name_v <~ dict_getitem data "name" ;;
   name_ <~ as_str name_v ;;
   descr_v <~ dict_getitem data "description" ;;
   descr <~ as_str descr_v ;;
   cat_v <~ dict_getitem data "category" ;;
   cat_s <~ as_str cat_v ;;
   cat <~ Category_.of_value cat_s ;;
   diff_v <~ dict_getitem data "difficulty" ;;
   diff_s <~ as_str diff_v ;;
   diff <~ Difficulty_.of_value diff_s ;;
   instr_v <~ dict_getitem data "instructions" ;;
   instr <~ as_str instr_v ;;
   steps_v <~ dict_getitem data "expected_steps" ;;
   steps <~ as_int steps_v ;;
   prereq <~ as_str_list (dict_get data "prerequisites" (PList [])) ;;
   image <~ as_str (dict_get data "base_image" (PStr "ubuntu:22.04")) ;;
   pkgs <~ as_str_list (dict_get data "required_packages" (PList [])) ;;
   disk <~ as_int (dict_get data "required_disk_gb" (PInt 20)) ;;
   ram <~ as_int (dict_get data "required_ram_gb" (PInt 4)) ;;
   artifacts <~ as_str_list (dict_get data "success_artifacts" (PList [])) ;;
   limit <~ as_int (dict_get data "time_limit_minutes" (PInt 120)) ;;
   build <~ as_int (dict_get data "expected_build_minutes" (PInt 30)) ;;
   tags_ <~ as_str_list (dict_get data "tags" (PList [])) ;;
   docs <~ as_str_list (dict_get data "reference_docs" (PList [])) ;;
   failures <~ as_str_list (dict_get data "common_failure_points" (PList [])) ;;
   inr (mk id_ name_ descr cat diff instr steps prereq image pkgs disk ram
           verification_steps artifacts limit build tags_ docs failures))%py.
End Task.

(** The dict that [TaskRunner.run_verification] allocates and returns, with
    its six fixed keys. *)
Module VResult.
Record t : Type := mk {
  type : string;
  description : string;
  passed : bool;
  details : string;
  error : option string;
  duration_seconds : Q;
}.

(** [result["passed"] = b] and the like. *)
Definition set_passed (b : bool) (r : t) : t :=
  mk (type r) (description r) b (details r) (error r) (duration_seconds r).
Definition set_details (d : string) (r : t) : t :=
  mk (type r) (description r) (passed r) d (error r) (duration_seconds r).
Definition set_error (e : option string) (r : t) : t :=
  mk (type r) (description r) (passed r) (details r) e (duration_seconds r).
Definition set_duration_seconds (x : Q) (r : t) : t :=
  mk (type r) (description r) (passed r) (details r) (error r) x.
End VResult.

Module TaskResult.
Record t : Type := mk {
  task_id : string;
  agent_id : string;
  model_name : string;
  success : bool;
  steps_completed : Z;
  total_steps_attempted : Z;
  start_time : string;
  end_time : string;
  duration_seconds : Q;
  verification_results : list VResult.t;
  artifacts_produced : list string;
  logs_path : option string;
  errors : list string;
  failure_point : option string;
  partial_score : Q;
}.
End TaskResult.


(* ================================================================== *)
(** * The operating system, as the two runners see it *)
(* ================================================================== *)

(** The first argument of [subprocess.run]: a shell command line
    ([shell=True]) or an argument vector. *)
Inductive Cmd : Type :=
  | Shell (command : string)
  | Argv (args : list string).

(** What a call of [subprocess.run] can do: return a [CompletedProcess],
    run into its [timeout], or fail otherwise (say, [FileNotFoundError] when
    the program is not installed). *)
Inductive SubprocessResult : Type :=
  | Completed (returncode : Z) (stdout stderr : string)
  | TimedOut
  | Failed (e : PyExc).

(** The state [W] of the machine and the calls that read or change it.
    Looking at a path is a read; running a process and reading the clock
    yield the next state. *)
Class OS (W : Type) : Type := {
  (** [Path(p).exists()], or the [OSError] it raises (a name that is too
      long, a directory that may not be searched) *)
  os_path_exists : string → W → Res bool;
  (** [Path(p).stat().st_size], or the [OSError] that [stat] raises *)
  os_stat_size : string → W → Res Z;
  (** [subprocess.run(cmd, timeout=t)] *)
  os_subprocess_run : Cmd → option Z → W → SubprocessResult * W;
  (** [time.time()] *)
  os_time : W → Q * W;
  (** [datetime.now().isoformat()] *)
  os_now_isoformat : W → string * W;
  (** [datetime.now().strftime(fmt)] *)
  os_now_strftime : string → W → string * W;
}.

Record CompletedProcess : Type := mkCompletedProcess {
  returncode : Z;
  stdout : string;
  stderr : string;
}.

(** [str(subprocess.TimeoutExpired(cmd, timeout))] *)
Definition TimeoutExpired (cmd : Cmd) (timeout : option Z) : PyExc :=
  Exc "TimeoutExpired"
      ("Command '" +:+
       match cmd with Shell c => c | Argv l => py_repr_list l end +:+
       "' timed out after " +:+
       from_option py_str_int "None" timeout +:+ " seconds").

Section os_calls.
Context {W : Type} `{!OS W}.

Definition path_exists (p : string) : M W bool := λ w, (os_path_exists p w, w).

Definition stat_st_size (p : string) : M W Z := λ w, (os_stat_size p w, w).

Definition subprocess_run (cmd : Cmd) (timeout : option Z) : M W CompletedProcess :=
  λ w, match os_subprocess_run cmd timeout w with
       | (Completed rc out err, w') => (inr (mkCompletedProcess rc out err), w')
       | (TimedOut, w') => (inl (TimeoutExpired cmd timeout), w')
       | (Failed e, w') => (inl e, w')
       end.

Definition time_time : M W Q := λ w, let '(t, w') := os_time w in (inr t, w').

Definition now_isoformat : M W string :=
  λ w, let '(t, w') := os_now_isoformat w in (inr t, w').

Definition now_strftime (fmt : string) : M W string :=
  λ w, let '(t, w') := os_now_strftime fmt w in (inr t, w').
End os_calls.

(* ================================================================== *)
(** * runner.py *)
(* ================================================================== *)

Record RunnerConfig : Type := mkRunnerConfig {
  docker_enabled : bool;
  qemu_enabled : bool;
  work_dir : string;
  timeout_multiplier : Q;
  verbose : bool;
  save_logs : bool;
  log_dir : string;
}.

(** [RunnerConfig()] *)
Definition default_config : RunnerConfig :=
  mkRunnerConfig true true "/tmp/llm-builds-linux" 1 true true "/tmp/llm-builds-linux/logs".

(** Truthiness of an [Optional[str]] and of an [Optional[int]]. *)
Definition truthy_str (o : option string) : bool :=
  match o with Some s => negb (bool_decide (s = "")) | None => false end.

Definition truthy_int (o : option Z) : bool :=
  match o with Some n => negb (n =? 0) | None => false end.

(** [bound and test(bound)] for an [Optional[int]] bound: the comparison is
    made only when the bound is truthy. *)
Definition bound_and (bound : option Z) (test : Z → bool) : bool :=
  match bound with
  | Some b => truthy_int bound && test b
  | None => false
  end.

(** [size_bytes / (1024 * 1024)] *)
Definition size_mb_of (size_bytes : Z) : Res Q := py_truediv size_bytes (1024 * 1024).

Module TaskRunner.
Section runner.
Context {W : Type} `{!OS W}.
(** [self.config] *)
Variable config : RunnerConfig.

(** A check runs against the machine and the [result] dict that
    [run_verification] allocated; every check returns that same dict, so
    the dict is a cell of the state. *)
Definition Check (A : Type) : Type := M (VResult.t * W) A.

Definition in_world {A} (m : M W A) : Check A :=
  λ '(r, w), let '(x, w') := m w in (x, (r, w')).

Definition set_result (f : VResult.t → VResult.t) : Check unit :=
  modify (λ '(r, w), (f r, w)).

Definition is_local (container_id : string) : bool :=
  bool_decide (container_id = "local").

(** *** [_verify_files] *)

Definition file_exists (container_id file_path : string) : M W bool :=
  (if is_local container_id then path_exists file_path
   else
     check_result <-
       subprocess_run (Argv ["docker"; "exec"; container_id; "test"; "-f"; file_path]) None ;;
     ret (returncode check_result =? 0))%py.

Fixpoint missing_among (container_id : string) (files missing_files : list string)
  : M W (list string) :=
  match files with
  | [] => ret missing_files
  | file_path :: rest =>
      (exists_ <- file_exists container_id file_path ;;
       missing_among container_id rest
         (if exists_ then missing_files else missing_files ++ [file_path]))%py
  end.

Definition _verify_files (step : VerificationStep.t) (container_id : string) : Check unit :=
  (missing_files <-
     in_world (missing_among container_id (VerificationStep.expected_files step) []) ;;
   set_result (VResult.set_passed (bool_decide (length missing_files = 0%nat))) ;;;
   match missing_files with
   | _ :: _ =>
       set_result (VResult.set_details ("Missing files: " +:+ py_repr_list missing_files))
   | [] =>
       set_result (VResult.set_details
         ("All " +:+ py_str_int (Z.of_nat (length (VerificationStep.expected_files step)))
          +:+ " files found"))
   end)%py.

(** *** [_verify_size] *)

(** The size probe of one file: [Some size_bytes], or [None] on the
    branch that reports "File not found" and returns. *)
Definition size_probe (container_id file_path : string) : M W (option Z) :=
  (if is_local container_id then
     size_bytes <- stat_st_size file_path ;; ret (Some size_bytes)
   else
     size_result <-
       subprocess_run
         (Argv ["docker"; "exec"; container_id; "stat"; "-c"; "%s"; file_path]) None ;;
     if negb (returncode size_result =? 0) then ret None
     else size_bytes <- lift_res (py_int_of_str (py_strip (stdout size_result))) ;;
          ret (Some size_bytes))%py.

Definition below_min (step : VerificationStep.t) (size_mb : Q) : bool :=
  bound_and (VerificationStep.min_size_mb step) (λ b, Qlt_bool size_mb (inject_Z b)).

Definition above_max (step : VerificationStep.t) (size_mb : Q) : bool :=
  bound_and (VerificationStep.max_size_mb step) (λ b, Qlt_bool (inject_Z b) size_mb).

Fixpoint verify_size_of (step : VerificationStep.t) (container_id : string)
    (files : list string) : Check unit :=
  match files with
  | [] =>
      (set_result (VResult.set_passed true) ;;;
       set_result (VResult.set_details "Size constraints satisfied"))%py
  | file_path :: rest =>
      (probe <- in_world (size_probe container_id file_path) ;;
       match probe with
       | None => set_result (VResult.set_details ("File not found: " +:+ file_path))
       | Some size_bytes =>
           size_mb <- lift_res (size_mb_of size_bytes) ;;
           if below_min step size_mb then
             set_result (VResult.set_details
               (file_path +:+ ": " +:+ py_format_1f size_mb +:+ "MB < min " +:+
                from_option py_str_int "None" (VerificationStep.min_size_mb step) +:+ "MB"))
           else if above_max step size_mb then
             set_result (VResult.set_details
               (file_path +:+ ": " +:+ py_format_1f size_mb +:+ "MB > max " +:+
                from_option py_str_int "None" (VerificationStep.max_size_mb step) +:+ "MB"))
           else verify_size_of step container_id rest
       end)%py
  end.

Definition _verify_size (step : VerificationStep.t) (container_id : string) : Check unit :=
  verify_size_of step container_id (VerificationStep.expected_files step).

(** *** [_verify_command] and [_verify_boot] *)

(** [int(step.timeout_seconds * self.config.timeout_multiplier)]: the int
    is converted to a float, the product is rounded, and [int] truncates
    it.  The conversion raises [OverflowError] on an int out of the range of
    a float, and so does [int] on a product that is infinite.  The
    multiplier of the configuration is a float: a rational that is not one
    stands for the float nearest to it, as a literal does. *)
Definition scaled_timeout (step : VerificationStep.t) : Res Z :=
  (seconds <~ float_of_int (VerificationStep.timeout_seconds step) ;;
   let product := round_double (seconds * round_double (timeout_multiplier config)) in
   if float_finite product then inr (py_int_of_float product)
   else inl (Exc "OverflowError" "cannot convert float infinity to integer"))%py.

(** [timeout = int(...)] followed by the [subprocess.run] call that both
    checks make; [timeout] is what the evaluation of [int(...)] gave.  With
    [step.command = None] the call raises [TypeError] before any process
    is started. *)
Definition run_step_command (step : VerificationStep.t) (container_id : string)
    (timeout : Res Z) : M W CompletedProcess :=
  (timeout <- lift_res timeout ;;
   if is_local container_id then
     match VerificationStep.command step with
     | Some command => subprocess_run (Shell command) (Some timeout)
     | None => raise (Exc "TypeError" "'NoneType' object is not iterable")
     end
   else
     match VerificationStep.command step with
     | Some command =>
         subprocess_run (Argv ["docker"; "exec"; container_id; "bash"; "-c"; command])
                        (Some timeout)
     | None =>
         raise (Exc "TypeError" "expected str, bytes or os.PathLike object, not NoneType")
     end)%py.

Definition _verify_command (step : VerificationStep.t) (container_id : string) : Check unit :=
  (let timeout := scaled_timeout step in
   cmd_result <- in_world (run_step_command step container_id timeout) ;;
   let output := stdout cmd_result +:+ stderr cmd_result in
   if truthy_str (VerificationStep.expected_output step) then
     let passed := py_in (default "" (VerificationStep.expected_output step)) output in
     set_result (VResult.set_passed passed) ;;;
     set_result (VResult.set_details
       ("Output " +:+ (if passed then "contains" else "missing") +:+ " expected string"))
   else
     set_result (VResult.set_passed (returncode cmd_result =? 0)) ;;;
     set_result (VResult.set_details
       ("Command returned " +:+ py_str_int (returncode cmd_result))))%py.

(** [try: body except subprocess.TimeoutExpired: handler] *)
Definition try_except_TimeoutExpired {S A} (body handler : M S A) : M S A :=
  λ s, match body s with
       | (inl e, s') =>
           if bool_decide (exc_type e = "TimeoutExpired") then handler s' else (inl e, s')
       | (inr a, s') => (inr a, s')
       end.

Definition _verify_boot (step : VerificationStep.t) (container_id : string) : Check unit :=
  (if negb (qemu_enabled config) then
     set_result (VResult.set_details "QEMU verification disabled") ;;;
     set_result (VResult.set_passed true)
   else
     timeout <- lift_res (scaled_timeout step) ;;
     try_except_TimeoutExpired
       (qemu_result <- in_world (run_step_command step container_id (inr timeout)) ;;
        let output := stdout qemu_result +:+ stderr qemu_result in
        if truthy_str (VerificationStep.expected_output step)
           && py_in (default "" (VerificationStep.expected_output step)) output
        then
          set_result (VResult.set_passed true) ;;;
          set_result (VResult.set_details
            ("Boot successful: found '" +:+
             default "" (VerificationStep.expected_output step) +:+ "'"))
        else
          set_result (VResult.set_passed false) ;;;
          set_result (VResult.set_details "Boot indicator not found in output"))
       (set_result (VResult.set_passed false) ;;;
        set_result (VResult.set_details
          ("Boot timed out after " +:+ py_str_int timeout +:+ "s"))))%py.

(** *** [_verify_checksum] *)

Fixpoint verify_checksum_of (step : VerificationStep.t) (container_id : string)
    (files : list string) : Check unit :=
  match files with
  | [] =>
      (set_result (VResult.set_passed true) ;;;
       set_result (VResult.set_details "Checksum verified"))%py
  | file_path :: rest =>
      (hash_result <-
         in_world (subprocess_run
           (if is_local container_id then Argv ["sha256sum"; file_path]
            else Argv ["docker"; "exec"; container_id; "sha256sum"; file_path]) None) ;;
       if negb (returncode hash_result =? 0) then
         set_result (VResult.set_details ("Failed to hash " +:+ file_path))
       else
         actual_hash <- lift_res (py_split_first (stdout hash_result)) ;;
         let expected := default "" (VerificationStep.expected_output step) in
         if truthy_str (VerificationStep.expected_output step)
            && negb (bool_decide (actual_hash = expected))
         then
           set_result (VResult.set_details
             ("Checksum mismatch: " +:+ py_slice_to 16 actual_hash +:+ "... != " +:+
              py_slice_to 16 expected +:+ "..."))
         else verify_checksum_of step container_id rest)%py
  end.

Definition _verify_checksum (step : VerificationStep.t) (container_id : string) : Check unit :=
  verify_checksum_of step container_id (VerificationStep.expected_files step).

(** *** [run_verification] *)

(** The dict literal that [run_verification] starts from. *)
Definition fresh_result (step : VerificationStep.t) : VResult.t :=
  VResult.mk (VerificationType_.value (VerificationStep.type step))
             (VerificationStep.description step) false "" None 0.

(** The [if]/[elif] chain inside the [try]. *)
Definition dispatch (step : VerificationStep.t) (container_id : string) : Check unit :=
  match VerificationStep.type step with
  | FILE_CHECK => _verify_files step container_id
  | SIZE_CHECK => _verify_size step container_id
  | COMMAND_OUTPUT => _verify_command step container_id
  | BOOT_TEST => _verify_boot step container_id
  | CHECKSUM => _verify_checksum step container_id
  end.

(** [run_verification] allocates [result], so to its caller it is a
    computation on the machine alone that yields the dict. *)
Definition run_verification (step : VerificationStep.t) (container_id : string)
  : M W VResult.t :=
  λ w,
    let body : Check VResult.t :=
      (start_time <- in_world time_time ;;
       try_except (dispatch step container_id)
         (λ e, set_result (VResult.set_error (Some (exc_msg e))) ;;;
               set_result (VResult.set_passed false)) ;;;
       now <- in_world time_time ;;
       set_result (VResult.set_duration_seconds (float_sub now start_time)) ;;;
       gets fst)%py in
    let '(x, (_, w')) := body (fresh_result step, w) in (x, w').

(** *** [evaluate_task] *)

(** The [for step in task.verification_steps] loop, on its three
    accumulators. *)
Fixpoint run_steps (steps : list VerificationStep.t)
    (verification_results : list VResult.t) (errors : list string) (success : bool)
  : M W (list VResult.t * list string * bool) :=
  match steps with
  | [] => ret (verification_results, errors, success)
  | step :: rest =>
      (result <- run_verification step "local" ;;
       let verification_results := verification_results ++ [result] in
       if negb (VResult.passed result) then
         run_steps rest verification_results
           (if truthy_str (VResult.error result)
            then errors ++ [default "" (VResult.error result)] else errors)
           false
       else run_steps rest verification_results errors success)%py
  end.

Fixpoint existing_among (paths : list string) : M W (list string) :=
  match paths with
  | [] => ret []
  | artifact :: rest =>
      (found <- path_exists artifact ;;
       others <- existing_among rest ;;
       ret (if found then artifact :: others else others))%py
  end.

(** [sum(1 for v in verification_results if v["passed"])] *)
Definition count_passed (verification_results : list VResult.t) : Z :=
  foldr Z.add 0 (map (λ _, 1) (List.filter VResult.passed verification_results)).

Definition evaluate_task (task : Task.t) (agent_id model_name : string)
  : M W TaskResult.t :=
  (start_time <- now_isoformat ;;
   start_ts <- time_time ;;
   looped <- run_steps (Task.verification_steps task) [] [] true ;;
   let '(verification_results, errors, success) := looped in
   end_time <- now_isoformat ;;
   now <- time_time ;;
   let duration := float_sub now start_ts in
   let passed_count := count_passed verification_results in
   let total_count := Z.of_nat (length verification_results) in
   partial_score <-
     lift_res (if 0 <? total_count then py_truediv passed_count total_count else inr 0%Q) ;;
   artifacts_produced <- existing_among (Task.success_artifacts task) ;;
   ret (TaskResult.mk (Task.id task) agent_id model_name success
          passed_count total_count start_time end_time duration
          verification_results artifacts_produced None errors None partial_score))%py.
End runner.
End TaskRunner.

(* ================================================================== *)
(** * benchmark_runner.py *)
(* ================================================================== *)

(** ** The records of the trace *)

Module ToolCall.
Record t : Type := mk {
  tool_name : string;
  tool_input : gmap string pyval;
  tool_output : option string;
  duration_seconds : Q;
  timestamp : string;
  success : bool;
  error : option string;
}.

(** [asdict(call)] *)
Definition to_dict (c : t) : gmap string pyval :=
  <["tool_name" := PStr (tool_name c)]>
  (<["tool_input" := PDict (tool_input c)]>
  (<["tool_output" := of_opt_str (tool_output c)]>
  (<["duration_seconds" := PFloat (duration_seconds c)]>
  (<["timestamp" := PStr (timestamp c)]>
  (<["success" := PBool (success c)]>
  (<["error" := of_opt_str (error c)]> ∅)))))).
End ToolCall.

(** The dict [{"type": ..., "message": ..., "timestamp": ...}] that
    [run_task] appends to [errors]. *)
Module TraceError.
Record t : Type := mk {
  type : string;
  message : string;
  timestamp : string;
}.

Definition to_dict (e : t) : gmap string pyval :=
  <["type" := PStr (type e)]>
  (<["message" := PStr (message e)]>
  (<["timestamp" := PStr (timestamp e)]> ∅)).
End TraceError.

Module AgentTrace.
Record t : Type := mk {
  trace_id : string;
  task_id : string;
  task_prompt : string;
  model : string;
  timestamp : string;
  success : bool;
  total_duration_seconds : Q;
  total_tool_calls : Z;
  total_tokens_in : Z;
  total_tokens_out : Z;
  tool_calls : list ToolCall.t;
  messages : list pyval;
  errors : list TraceError.t;
  final_output : string;
  artifacts_produced : list string;
}.

(** [AgentTrace(trace_id=..., task_id=..., task_prompt=..., model=...,
    timestamp=...)], the other fields at their defaults. *)
Definition new (trace_id task_id task_prompt model timestamp : string) : t :=
  mk trace_id task_id task_prompt model timestamp false 0 0 0 0 [] [] [] "" [].

Definition set_success (b : bool) (a : t) : t :=
  mk (trace_id a) (task_id a) (task_prompt a) (model a) (timestamp a) b
     (total_duration_seconds a) (total_tool_calls a) (total_tokens_in a)
     (total_tokens_out a) (tool_calls a) (messages a) (errors a) (final_output a)
     (artifacts_produced a).
Definition set_total_duration_seconds (x : Q) (a : t) : t :=
  mk (trace_id a) (task_id a) (task_prompt a) (model a) (timestamp a) (success a)
     x (total_tool_calls a) (total_tokens_in a)
     (total_tokens_out a) (tool_calls a) (messages a) (errors a) (final_output a)
     (artifacts_produced a).
Definition set_total_tool_calls (n : Z) (a : t) : t :=
  mk (trace_id a) (task_id a) (task_prompt a) (model a) (timestamp a) (success a)
     (total_duration_seconds a) n (total_tokens_in a)
     (total_tokens_out a) (tool_calls a) (messages a) (errors a) (final_output a)
     (artifacts_produced a).
Definition set_tool_calls (l : list ToolCall.t) (a : t) : t :=
  mk (trace_id a) (task_id a) (task_prompt a) (model a) (timestamp a) (success a)
     (total_duration_seconds a) (total_tool_calls a) (total_tokens_in a)
     (total_tokens_out a) l (messages a) (errors a) (final_output a)
     (artifacts_produced a).
Definition set_messages (l : list pyval) (a : t) : t :=
  mk (trace_id a) (task_id a) (task_prompt a) (model a) (timestamp a) (success a)
     (total_duration_seconds a) (total_tool_calls a) (total_tokens_in a)
     (total_tokens_out a) (tool_calls a) l (errors a) (final_output a)
     (artifacts_produced a).
Definition set_errors (l : list TraceError.t) (a : t) : t :=
  mk (trace_id a) (task_id a) (task_prompt a) (model a) (timestamp a) (success a)
     (total_duration_seconds a) (total_tool_calls a) (total_tokens_in a)
     (total_tokens_out a) (tool_calls a) (messages a) l (final_output a)
     (artifacts_produced a).
Definition set_final_output (s : string) (a : t) : t :=
  mk (trace_id a) (task_id a) (task_prompt a) (model a) (timestamp a) (success a)
     (total_duration_seconds a) (total_tool_calls a) (total_tokens_in a)
     (total_tokens_out a) (tool_calls a) (messages a) (errors a) s
     (artifacts_produced a).

(** [asdict(self)]: the document that [to_json] prints. *)
Definition to_dict (a : t) : gmap string pyval :=
  <["trace_id" := PStr (trace_id a)]>
  (<["task_id" := PStr (task_id a)]>
  (<["task_prompt" := PStr (task_prompt a)]>
  (<["model" := PStr (model a)]>
  (<["timestamp" := PStr (timestamp a)]>
  (<["success" := PBool (success a)]>
  (<["total_duration_seconds" := PFloat (total_duration_seconds a)]>
  (<["total_tool_calls" := PInt (total_tool_calls a)]>
  (<["total_tokens_in" := PInt (total_tokens_in a)]>
  (<["total_tokens_out" := PInt (total_tokens_out a)]>
  (<["tool_calls" := PList (map (λ c, PDict (ToolCall.to_dict c)) (tool_calls a))]>
  (<["messages" := PList (messages a)]>
  (<["errors" := PList (map (λ e, PDict (TraceError.to_dict e)) (errors a))]>
  (<["final_output" := PStr (final_output a)]>
  (<["artifacts_produced" := of_str_list (artifacts_produced a)]> ∅)))))))))))))).
End AgentTrace.

(** ** What the agent SDK hands to the runner *)

(** A content block of an [AssistantMessage]; [OtherBlock] stands for the
    block classes that [_serialize_message] does not look at. *)
Inductive ContentBlock : Type :=
  | TextBlock (text : string)
  | ToolUseBlock (name : string) (input : gmap string pyval)
  | OtherBlock.

(** A message of the stream.  Of a [UserMessage] only [str(message.content)]
    is used, of any other message only [str(message)]. *)
Inductive SdkMessage : Type :=
  | AssistantMessage (content : list ContentBlock)
  | UserMessage (content_str : string)
  | OtherMessage (message_str : string).

(** The [input_data] of a tool hook.  The hook looks at the response only
    through [str(tool_response)], which is what the field holds. *)
Record HookInput : Type := mkHookInput {
  hook_tool_name : string;
  hook_tool_input : gmap string pyval;
  hook_tool_response : string;
}.

(** What [query(prompt, options)] does while [run_task] iterates over it: it
    calls the registered hooks around each tool use, yields messages, and
    ends or raises. *)
Inductive AgentEvent : Type :=
  | PreToolUse (input_data : HookInput)
  | PostToolUse (input_data : HookInput)
  | Yield (message : SdkMessage).

Record AgentRun : Type := mkAgentRun {
  events : list AgentEvent;
  raises : option PyExc;
}.

(** ** [BenchmarkRunner] *)

Module BenchmarkRunner.
(** The attributes of [self]. *)
Record t : Type := mk {
  api_key : option string;
  model : string;
  working_dir : string;
  trace_dir : string;
  _current_trace : option AgentTrace.t;
  _tool_start_time : option Q;
}.

Definition set_current_trace (tr : option AgentTrace.t) (r : t) : t :=
  mk (api_key r) (model r) (working_dir r) (trace_dir r) tr (_tool_start_time r).
Definition set_tool_start_time (x : option Q) (r : t) : t :=
  mk (api_key r) (model r) (working_dir r) (trace_dir r) (_current_trace r) x.

(** The state that the methods act on: [self], the machine, the files
    under [trace_dir] (path to JSON document) and [os.environ]. *)
Record State (W : Type) : Type := mkState {
  self : t;
  world : W;
  trace_files : gmap string pyval;
  environ : gmap string string;
}.
Arguments mkState {W}.
Arguments self {W}.
Arguments world {W}.
Arguments trace_files {W}.
Arguments environ {W}.

(** [_serialize_message] *)
Definition serialize_block (block : ContentBlock) : list pyval :=
  match block with
  | TextBlock text => [PDict (<["type" := PStr "text"]> (<["text" := PStr text]> ∅))]
  | ToolUseBlock name input =>
      [PDict (<["type" := PStr "tool_use"]>
             (<["name" := PStr name]> (<["input" := PDict input]> ∅)))]
  | OtherBlock => []
  end.

Definition _serialize_message (message : SdkMessage) : pyval :=
  match message with
  | AssistantMessage content =>
      PDict (<["role" := PStr "assistant"]>
            (<["content" := PList (concat (map serialize_block content))]> ∅))
  | UserMessage content_str =>
      PDict (<["role" := PStr "user"]> (<["content" := PStr content_str]> ∅))
  | OtherMessage message_str =>
      PDict (<["role" := PStr "unknown"]> (<["content" := PStr message_str]> ∅))
  end.

(** [type(v).__name__] *)
Definition type_name (v : pyval) : string :=
  match v with
  | PNone => "NoneType" | PBool _ => "bool" | PInt _ => "int" | PFloat _ => "float"
  | PStr _ => "str" | PList _ => "list" | PDict _ => "dict"
  end.

Definition no_get {A} (v : pyval) : Res A :=
  inl (Exc "AttributeError" ("'" +:+ type_name v +:+ "' object has no attribute 'get'")).

(** [d.get(k) == s] for a [str] literal [s]: only a [str] compares
    equal to it. *)
Definition get_eq_str (d : gmap string pyval) (k s : string) : bool :=
  match d !! k with
  | Some (PStr s') => bool_decide (s' = s)
  | _ => false
  end.

(** The inner loop of [_extract_final_output]:
    [for block in blocks: if block.get("type") == "text": return ...].
    [Some s] when the loop returns [s], [None] when it runs to its end. *)
Fixpoint first_text (blocks : list pyval) : Res (option string) :=
  match blocks with
  | [] => inr None
  | PDict block :: rest =>
      if get_eq_str block "type" "text" then
        match dict_get block "text" (PStr "") with
        | PStr text => inr (Some (py_slice_to 2000 text))
        | (PNone | PBool _ | PInt _ | PFloat _ | PDict _) as v =>
            inl (Exc "TypeError" ("'" +:+ type_name v +:+ "' object is not subscriptable"))
        | PList _ => ill_typed "str"
        end
      else first_text rest
  | v :: _ => no_get v
  end.

(** [for block in content]: what iterating over [content] gives. *)
Definition blocks_of (content : pyval) : Res (list pyval) :=
  match content with
  | PList blocks => inr blocks
  | PStr s => inr (map (λ c, PStr (String c "")) (chars s))
  | PDict d => inr (map PStr (map fst (map_to_list d)))
  | (PNone | PBool _ | PInt _ | PFloat _) as v =>
      inl (Exc "TypeError" ("'" +:+ type_name v +:+ "' object is not iterable"))
  end.

(** The outer loop, on the messages from the most recent one back. *)
Fixpoint scan_messages (reversed_messages : list pyval) : Res string :=
  match reversed_messages with
  | [] => inr ""
  | PDict msg :: rest =>
      if get_eq_str msg "role" "assistant" then
        (blocks <~ blocks_of (dict_get msg "content" (PList [])) ;;
         found <~ first_text blocks ;;
         match found with
         | Some text => inr text
         | None => scan_messages rest
         end)%py
      else scan_messages rest
  | v :: _ => no_get v
  end.

Definition _extract_final_output (messages : list pyval) : Res string :=
  scan_messages (reverse messages).

Section methods.
Context {W : Type} `{!OS W}.

Definition Run (A : Type) : Type := M (State W) A.

Definition in_world {A} (m : M W A) : Run A :=
  λ st, let '(x, w') := m (world st) in
        (x, mkState (self st) w' (trace_files st) (environ st)).

Definition set_self (f : t → t) : Run unit :=
  modify (λ st, mkState (f (self st)) (world st) (trace_files st) (environ st)).

(** [self._current_trace.attr = ...]: [AttributeError] on [None]. *)
Definition update_trace (f : AgentTrace.t → AgentTrace.t) : Run unit :=
  (r <- gets self ;;
   match _current_trace r with
   | Some tr => set_self (set_current_trace (Some (f tr)))
   | None => raise (Exc "AttributeError" "'NoneType' object has no attribute")
   end)%py.

Definition _pre_tool_hook (input_data : HookInput) : Run unit :=
  (now <- in_world time_time ;;
   set_self (set_tool_start_time (Some now)))%py.

(** [x if self._tool_start_time else 0]: a start time of [0.0] is
    falsy, like [None]. *)
Definition elapsed_since_start : Run Q :=
  (r <- gets self ;;
   match _tool_start_time r with
   | Some start =>
       if Qeq_bool start 0 then ret 0%Q
       else now <- in_world time_time ;; ret (float_sub now start)
   | None => ret 0%Q
   end)%py.

Definition _post_tool_hook (input_data : HookInput) : Run unit :=
  (let tool_name := hook_tool_name input_data in
   let tool_input := hook_tool_input input_data in
   let tool_output := hook_tool_response input_data in
   duration <- elapsed_since_start ;;
   r <- gets self ;;
   match _current_trace r with
   | Some tr =>
       now <- in_world now_isoformat ;;
       let call :=
         ToolCall.mk tool_name tool_input
           (Some (py_slice_to 5000 tool_output))
           (py_round2 duration)
           now
           (negb (py_in "error" (py_lower tool_output)))
           None in
       update_trace (λ tr, AgentTrace.set_tool_calls (AgentTrace.tool_calls tr ++ [call]) tr) ;;;
       update_trace (λ tr, AgentTrace.set_total_tool_calls (AgentTrace.total_tool_calls tr + 1) tr)
   | None => ret tt
   end)%py.

(** [async for message in query(...)]: the hooks run as the SDK calls
    them, each yielded message is serialized and appended. *)
Fixpoint consume (evs : list AgentEvent) (messages : list pyval) : Run (list pyval) :=
  match evs with
  | [] => ret messages
  | PreToolUse input_data :: rest =>
      (_pre_tool_hook input_data ;;; consume rest messages)%py
  | PostToolUse input_data :: rest =>
      (_post_tool_hook input_data ;;; consume rest messages)%py
  | Yield message :: rest =>
      consume rest (messages ++ [_serialize_message message])
  end.

(** [trace_dir / name] for a normalised [trace_dir]. *)
Definition path_join (dir name : string) : string :=
  if is_prefix_b (chars "/") (chars name) then name else dir +:+ "/" +:+ name.

(** [with open(path, "w") as f: f.write(doc)]; the write is taken to
    succeed. *)
Definition write_text (path : string) (doc : pyval) : Run unit :=
  modify (λ st, mkState (self st) (world st) (<[path := doc]> (trace_files st)) (environ st)).

(** The body of the [try] in [run_task]. *)
Definition run_body (agent : AgentRun) : Run unit :=
  (r <- gets self ;;
   (if truthy_str (api_key r) then
      modify (λ st, mkState (self st) (world st) (trace_files st)
                      (<["ANTHROPIC_API_KEY" := default "" (api_key r)]> (environ st)))
    else ret tt) ;;;
   messages <- consume (events agent) [] ;;
   match raises agent with Some e => raise e | None => ret tt end ;;;
   update_trace (AgentTrace.set_messages messages) ;;;
   update_trace (AgentTrace.set_success true) ;;;
   final <- lift_res (_extract_final_output messages) ;;
   update_trace (AgentTrace.set_final_output final))%py.

(** The head of [run_task], up to the [try]: the trace id, the fresh
    trace, the start time. *)
Definition begin_trace (task_id prompt : string) : Run (string * Q) :=
  (stamp <- in_world (now_strftime "%Y%m%d-%H%M%S") ;;
   let trace_id := task_id +:+ "-" +:+ stamp in
   r <- gets self ;;
   timestamp <- in_world now_isoformat ;;
   set_self (set_current_trace
               (Some (AgentTrace.new trace_id task_id prompt (model r) timestamp))) ;;;
   start_time <- in_world time_time ;;
   ret (trace_id, start_time))%py.

(** The [except Exception as e] clause of [run_task]. *)
Definition on_exception (e : PyExc) : Run unit :=
  (update_trace (AgentTrace.set_success false) ;;;
   now <- in_world now_isoformat ;;
   update_trace (λ tr, AgentTrace.set_errors
      (AgentTrace.errors tr ++ [TraceError.mk (exc_type e) (exc_msg e) now]) tr))%py.

(** The [finally] clause of [run_task]. *)
Definition stamp_duration (start_time : Q) : Run unit :=
  (now <- in_world time_time ;;
   update_trace (AgentTrace.set_total_duration_seconds (py_round2 (float_sub now start_time))))%py.

(** [run_task]; [agent] is what the SDK does on this prompt. *)
Definition run_task (agent : AgentRun) (task_id prompt : string)
    (timeout_seconds max_turns : Z) : Run AgentTrace.t :=
  (begun <- begin_trace task_id prompt ;;
   let '(trace_id, start_time) := begun in
   try_finally (try_except (run_body agent) on_exception)
               (stamp_duration start_time) ;;;
   r <- gets self ;;
   let trace_path := path_join (trace_dir r) (trace_id +:+ ".json") in
   match _current_trace r with
   | Some tr =>
       write_text trace_path (PDict (AgentTrace.to_dict tr)) ;;;
       ret tr
   | None => raise (Exc "AttributeError" "'NoneType' object has no attribute 'to_json'")
   end)%py.
End methods.
End BenchmarkRunner.

(* ================================================================== *)
(** * A small concrete machine *)
(* ================================================================== *)

(** An instance of [OS] to run the programs on: files with their sizes,
    command lines with the seconds they take and what they return, and a
    clock in seconds that running a process advances.  Looking up a name
    that is too long raises [OSError]. *)
Record Machine : Type := mkMachine {
  m_files : gmap string Z;
  m_programs : gmap string (Z * CompletedProcess);
  m_clock : Z;
}.

Definition command_line (cmd : Cmd) : string :=
  match cmd with Shell c => c | Argv l => join " " l end.

Definition Machine_run (cmd : Cmd) (timeout : option Z) (m : Machine)
  : SubprocessResult * Machine :=
  match m_programs m !! command_line cmd with
  | Some (seconds, cp) =>
      match timeout with
      | Some t =>
          if t <? seconds
          then (TimedOut, mkMachine (m_files m) (m_programs m) (m_clock m + t))
          else (Completed (returncode cp) (stdout cp) (stderr cp),
                mkMachine (m_files m) (m_programs m) (m_clock m + seconds))
      | None =>
          (Completed (returncode cp) (stdout cp) (stderr cp),
           mkMachine (m_files m) (m_programs m) (m_clock m + seconds))
      end
  | None =>
      match cmd with
      | Shell c => (Completed 127 "" ("/bin/sh: 1: " +:+ c +:+ ": not found"), m)
      | Argv l =>
          (Failed (Exc "FileNotFoundError"
                     ("[Errno 2] No such file or directory: " +:+
                      py_repr_str (default "" (head l)))), m)
      end
  end.

(** Linux refuses a file name of more than 255 characters and a path of
    more than 4095 with ENAMETOOLONG; [Path.exists] and [Path.stat] then
    raise [OSError]. *)
Definition name_too_long (p : string) : bool :=
  (4095 <? String.length p)%nat
  || ((255 <? String.length p)%nat && negb (py_in "/" p)).

Definition file_name_too_long (p : string) : PyExc :=
  Exc "OSError" ("[Errno 36] File name too long: " +:+ py_repr_str p).

#[export] Instance Machine_OS : OS Machine := {|
  os_path_exists p m :=
    if name_too_long p then inl (file_name_too_long p)
    else inr (bool_decide (is_Some (m_files m !! p)));
  os_stat_size p m :=
    if name_too_long p then inl (file_name_too_long p)
    else
      match m_files m !! p with
      | Some size => inr size
      | None => inl (Exc "FileNotFoundError"
                       ("[Errno 2] No such file or directory: " +:+ py_repr_str p))
      end;
  os_subprocess_run := Machine_run;
  os_time m := (inject_Z (m_clock m), m);
  os_now_isoformat m := ("1970-01-01T00:00:00+" +:+ py_str_int (m_clock m), m);
  os_now_strftime fmt m := ("19700101-" +:+ py_str_int (m_clock m), m);
|}.

(** ** Example inputs *)

(** A machine with an 8 MB kernel image, an empty file, and two commands. *)
Definition example_machine : Machine :=
  mkMachine
    (<["out/bzImage" := 8388608]> (<["out/empty" := 0]> ∅))
    (<["sleep 10" := (10, mkCompletedProcess 0 "" "")]>
     (<["echo hi" := (0, mkCompletedProcess 0 "hi" "")]> ∅))
    100.

Definition example_step (type : VerificationType) (command : option string)
    (expected_files : list string) (max_size_mb min_size_mb : option Z)
    (timeout_seconds : Z) : VerificationStep.t :=
  VerificationStep.mk type "example" command None expected_files
    max_size_mb min_size_mb timeout_seconds.

(** A size check on the kernel image with both bounds set to [0]. *)
Definition zero_bounds_step : VerificationStep.t :=
  example_step SIZE_CHECK None ["out/bzImage"] (Some 0) (Some 0) 300.

(** A size check between 1 MB and 50 MB. *)
Definition bounded_size_step (files : list string) : VerificationStep.t :=
  example_step SIZE_CHECK None files (Some 50) (Some 1) 300.

(** A command that sleeps for ten seconds, given one second. *)
Definition sleep_step : VerificationStep.t :=
  example_step COMMAND_OUTPUT (Some "sleep 10") [] None None 1.

(** A runner that is collecting a trace, on the example machine. *)
Definition example_trace : AgentTrace.t :=
  AgentTrace.new "example-19700101-100" "example" "Build it." "claude" "1970-01-01T00:00:00+100".

Definition example_runner (current : option AgentTrace.t) : BenchmarkRunner.t :=
  BenchmarkRunner.mk None "claude" "/work" "traces" current None.

Definition example_state (current : option AgentTrace.t) : BenchmarkRunner.State Machine :=
  BenchmarkRunner.mkState (example_runner current) example_machine ∅ ∅.

(** An assistant message with two text blocks around a tool use. *)
Definition two_text_blocks : list pyval :=
  [BenchmarkRunner._serialize_message
     (AssistantMessage [TextBlock "Let me check the build.";
                        ToolUseBlock "Bash" ∅;
                        TextBlock "Done: the kernel boots."])].

(** An agent that uses a tool once and then raises. *)
Definition failing_agent : AgentRun :=
  mkAgentRun
    [Yield (AssistantMessage [TextBlock "Building."; ToolUseBlock "Bash" ∅]);
     PreToolUse (mkHookInput "Bash" ∅ "");
     PostToolUse (mkHookInput "Bash" ∅ "make: *** [all] Error 2")]
    (Some (Exc "ProcessError" "agent process exited with code 1")).

Definition example_task (steps : list VerificationStep.t) : Task.t :=
  Task.mk "example" "Example" "An example task" TOOL_ASSISTED EASY "Build it." 3 []
    "ubuntu:22.04" ["gcc"] 20 4 steps ["out/bzImage"] 120 30 [] [] [].

(** A task whose one artifact has a name of 300 characters. *)
Definition long_artifact_task : Task.t :=
  Task.mk "example" "Example" "An example task" TOOL_ASSISTED EASY "Build it." 3 []
    "ubuntu:22.04" ["gcc"] 20 4 [] [str_of (replicate 300 "a"%char)] 120 30 [] [] [].

(* ================================================================== *)
(** * Vocabulary of the statements *)
(* ================================================================== *)

(** [steps_run config steps w results w']: every step of [steps] went
    through [run_verification] against the local machine, in list order,
    each in the state its predecessor left; [results] are the dicts
    returned, one per step. *)
Inductive steps_run {W : Type} `{!OS W} (config : RunnerConfig)
  : list VerificationStep.t → W → list VResult.t → W → Prop :=
  | steps_run_nil (w : W) : steps_run config [] w [] w
  | steps_run_cons (step : VerificationStep.t) (rest : list VerificationStep.t)
      (w w1 w2 : W) (r : VResult.t) (rs : list VResult.t) :
      TaskRunner.run_verification config step "local" w = (inr r, w1) →
      steps_run config rest w1 rs w2 →
      steps_run config (step :: rest) w (r :: rs) w2.

(** [sizes_within P container_id files w w_end]: probing the files in list
    order from state [w], every one has a size, the size satisfies [P], and
    the last probe leaves the machine in [w_end]. *)
Fixpoint sizes_within {W : Type} `{!OS W} (P : Z → Prop) (container_id : string)
    (files : list string) (w w_end : W) : Prop :=
  match files with
  | [] => w_end = w
  | file_path :: rest =>
      ∃ (size_bytes : Z) (w1 : W),
        TaskRunner.size_probe container_id file_path w = (inr (Some size_bytes), w1)
        ∧ P size_bytes
        ∧ sizes_within P container_id rest w1 w_end
  end.

(** The size in megabytes of [size_bytes] bytes, as a number. *)
Definition exact_mb (size_bytes : Z) : Q := inject_Z size_bytes / inject_Z (1024 * 1024).

(** A size of [size_bytes] bytes lies in [[min_mb, max_mb]] megabytes, ends
    included. *)
Definition within_bounds (min_mb max_mb size_bytes : Z) : Prop :=
  (inject_Z min_mb <= exact_mb size_bytes)%Q ∧ (exact_mb size_bytes <= inject_Z max_mb)%Q.

(** The same of the size that the code computes: [size_bytes / (1024 *
    1024)] is a float, and that float lies in [[min_mb, max_mb]]. *)
Definition float_within_bounds (min_mb max_mb size_bytes : Z) : Prop :=
  ∃ size_mb : Q,
    size_mb_of size_bytes = inr size_mb
    ∧ (inject_Z min_mb <= size_mb)%Q ∧ (size_mb <= inject_Z max_mb)%Q.

(** Looking up the paths of [paths] does not raise, whatever the state of
    the machine. *)
Definition probes_return {W : Type} `{!OS W} (paths : list string) : Prop :=
  ∀ w : W, Forall (λ p, ∃ found : bool, os_path_exists p w = inr found) paths.

(** [Path(p).exists()] returned [True]. *)
Definition found_at {W : Type} `{!OS W} (w : W) (p : string) : bool :=
  match os_path_exists p w with inr true => true | _ => false end.

(** What looking up the paths of [paths] one after the other gives on the
    machine [w]: the paths that exist, or the error of the first lookup
    that raises. *)
Fixpoint probe_all {W : Type} `{!OS W} (w : W) (paths : list string) : Res (list string) :=
  match paths with
  | [] => inr []
  | p :: rest =>
      (found <~ os_path_exists p w ;;
       others <~ probe_all w rest ;;
       inr (if found then p :: others else others))%py
  end.

(** The score for [k] outcomes passed out of [n]: the float [k / n], [0.0]
    when there is no outcome. *)
Definition score_of (k n : nat) : Q :=
  match n with
  | O => 0%Q
  | S _ => round_double (inject_Z (Z.of_nat k) / inject_Z (Z.of_nat n))
  end.

(** [str.upper] on one ASCII character. *)
Definition upper_char (c : ascii) : ascii :=
  let n := N_of_ascii c in
  if ((97 <=? n) && (n <=? 122))%N then ascii_of_N (n - 32) else c.

(** Two characters that are equal up to the case of a letter. *)
Definition same_letter (c d : ascii) : Prop :=
  c = d ∨ c = upper_char d ∨ d = upper_char c.

#[export] Instance same_letter_dec (c d : ascii) : Decision (same_letter c d).
Proof. unfold same_letter. apply _. Defined.

(** The 256 characters. *)
Definition all_ascii : list ascii := map ascii_of_nat (seq 0 256).

(** [word] occurs in [text] when case is ignored: some stretch of [text]
    matches [word] letter by letter. *)
Definition occurs_ignoring_case (word text : string) : Prop :=
  ∃ (before stretch after : list ascii),
    chars text = before ++ stretch ++ after
    ∧ Forall2 same_letter stretch (chars word).

(** The texts of all the text blocks of the assistant messages, oldest
    first, in the serialized form of the messages. *)
Definition text_of_block (block : pyval) : list string :=
  match block with
  | PDict b =>
      if BenchmarkRunner.get_eq_str b "type" "text" then
        match b !! "text" with Some (PStr text) => [text] | _ => [] end
      else []
  | _ => []
  end.

Definition assistant_texts (msg : pyval) : list string :=
  match msg with
  | PDict m =>
      if BenchmarkRunner.get_eq_str m "role" "assistant" then
        match m !! "content" with
        | Some (PList blocks) => concat (map text_of_block blocks)
        | _ => []
        end
      else []
  | _ => []
  end.

(** The final output in the words of the specification: the most recent
    assistant text block of the message sequence (truncated), the empty
    string when there is none. *)
Definition most_recent_assistant_text (messages : list pyval) : string :=
  py_slice_to 2000 (default "" (last (concat (map assistant_texts messages)))).

(** What [_extract_final_output] computes, read off the SDK messages: the
    first text block of the most recent assistant message that has a text
    block. *)
Fixpoint first_text_block (content : list ContentBlock) : option string :=
  match content with
  | [] => None
  | TextBlock text :: _ => Some text
  | _ :: rest => first_text_block rest
  end.

Fixpoint first_text_of_latest (reversed_messages : list SdkMessage) : string :=
  match reversed_messages with
  | [] => ""
  | AssistantMessage content :: rest =>
      match first_text_block content with
      | Some text => py_slice_to 2000 text
      | None => first_text_of_latest rest
      end
  | _ :: rest => first_text_of_latest rest
  end.

(** What the body of the [try] in [run_task] leaves alone: the files
    already written, [trace_dir], and the identity and the error list of
    the trace being collected. *)
Definition kept {W : Type} (st st' : BenchmarkRunner.State W) : Prop :=
  BenchmarkRunner.trace_files st' = BenchmarkRunner.trace_files st
  ∧ BenchmarkRunner.trace_dir (BenchmarkRunner.self st') =
    BenchmarkRunner.trace_dir (BenchmarkRunner.self st)
  ∧ ∀ tr, BenchmarkRunner._current_trace (BenchmarkRunner.self st) = Some tr →
      ∃ tr', BenchmarkRunner._current_trace (BenchmarkRunner.self st') = Some tr'
             ∧ AgentTrace.trace_id tr' = AgentTrace.trace_id tr
             ∧ AgentTrace.errors tr' = AgentTrace.errors tr.

Definition keeps {W : Type} {A : Type} (m : M (BenchmarkRunner.State W) A) : Prop :=
  ∀ st x st', m st = (x, st') → kept st st'.

(** The number of outcomes that passed, counted on the list itself. *)
Definition passed_outcomes (results : list VResult.t) : nat :=
  length (filter (λ r, VResult.passed r = true) results).

(* ================================================================== *)
(** * More of runner.py: the environment and the registry *)
(* ================================================================== *)

(** ** Vocabulary for the checks *)

(** A check that leaves the [type], [description] and [error] entries of
    the result dict as they were. *)
Definition header_kept {W A : Type} (m : M (VResult.t * W) A) : Prop :=
  ∀ (r r' : VResult.t) (w w' : W) (x : PyExc + A),
    m (r, w) = (x, (r', w')) →
    VResult.type r' = VResult.type r
    ∧ VResult.description r' = VResult.description r
    ∧ VResult.error r' = VResult.error r.

(** The files of [files] that the machine reports as not existing, in list
    order. *)
Definition missing_files_of {W : Type} `{!OS W} (files : list string) (w : W) : list string :=
  List.filter (λ f, match os_path_exists f w with inr false => true | _ => false end) files.

(** The size in megabytes [size_mb] respects the bounds of [step] that are
    in force: a bound that is [None] or [0] asks for nothing. *)
Definition mb_in_bounds (step : VerificationStep.t) (size_mb : Q) : Prop :=
  (∀ min_mb, VerificationStep.min_size_mb step = Some min_mb → min_mb ≠ 0 →
     (inject_Z min_mb <= size_mb)%Q)
  ∧ (∀ max_mb, VerificationStep.max_size_mb step = Some max_mb → max_mb ≠ 0 →
       (size_mb <= inject_Z max_mb)%Q).

(** The size [size_bytes] is accepted by [step]: [size_bytes / (1024 *
    1024)] is a float, and that float respects the bounds in force. *)
Definition in_size_bounds (step : VerificationStep.t) (size_bytes : Z) : Prop :=
  ∃ size_mb : Q, size_mb_of size_bytes = inr size_mb ∧ mb_in_bounds step size_mb.

(** The command that [_verify_checksum] runs on one file. *)
Definition sha256sum_of (container_id file_path : string) : Cmd :=
  if TaskRunner.is_local container_id then Argv ["sha256sum"; file_path]
  else Argv ["docker"; "exec"; container_id; "sha256sum"; file_path].

(** [hashes_within P container_id files w w_end]: hashing the files in list
    order from state [w], every run of [sha256sum] exits with 0, the first
    word it prints satisfies [P], and the last run leaves the machine in
    [w_end]. *)
Fixpoint hashes_within {W : Type} `{!OS W} (P : string → Prop) (container_id : string)
    (files : list string) (w w_end : W) : Prop :=
  match files with
  | [] => w_end = w
  | file_path :: rest =>
      ∃ (out err actual_hash : string) (w1 : W),
        os_subprocess_run (sha256sum_of container_id file_path) None w
          = (Completed 0 out err, w1)
        ∧ py_split_first out = inr actual_hash
        ∧ P actual_hash
        ∧ hashes_within P container_id rest w1 w_end
  end.

(** The digest [actual_hash] agrees with the [expected_output] of [step],
    when there is a non-empty one. *)
Definition checksum_ok (step : VerificationStep.t) (actual_hash : string) : Prop :=
  ∀ expected, VerificationStep.expected_output step = Some expected →
              expected ≠ "" → actual_hash = expected.

(** The message that [evaluate_task] collects from one outcome: the
    [error] of an outcome that did not pass, when it is not empty. *)
Definition failure_message (r : VResult.t) : option string :=
  if VResult.passed r then None
  else match VResult.error r with
       | Some message => if decide (message = "") then None else Some message
       | None => None
       end.

(** The example machine with [sha256sum] installed. *)
Definition checksum_machine : Machine :=
  mkMachine (m_files example_machine)
    (<["sha256sum out/bzImage" :=
         (0, mkCompletedProcess 0 "9f86d081884c7d65  out/bzImage" "")]>
       (m_programs example_machine))
    (m_clock example_machine).

(** ** [get_task_by_id] *)

(** A second example task, with an id of its own. *)
Definition second_task : Task.t :=
  Task.mk "second" "Second" "Another example task" DEBUGGING HARD "Fix it." 5 []
    "ubuntu:22.04" [] 20 4 [] [] 120 30 [] [] [].


(** [get_task_by_id]; [all_tasks] is what [list_all_tasks()] returns, the
    [ALL_TASKS] of the [tasks] package. *)
Fixpoint get_task_by_id (all_tasks : list Task.t) (task_id : string) : option Task.t :=
  match all_tasks with
  | [] => None
  | task :: rest =>
      if bool_decide (Task.id task = task_id) then Some task
      else get_task_by_id rest task_id
  end.

(** ** [setup_environment] and [cleanup] *)

(** Two more calls of the operating system, used to provision a
    container: writing a text file and running a process in a directory. *)
Class OSProvision (W : Type) : Type := {
  (** [Path(p).write_text(content)], or the [OSError] it raises *)
  os_write_text : string → string → W → Res Z * W;
  (** [subprocess.run(cmd, cwd=dir, capture_output=True, text=True)] *)
  os_subprocess_run_in : string → Cmd → W → SubprocessResult * W;
}.

Definition newline : string := String (ascii_of_N 10) "".

Section provisioning.
Context {W : Type} `{!OS W} `{!OSProvision W}.
Variable config : RunnerConfig.

Definition write_text (path content : string) : M W Z :=
  λ w, os_write_text path content w.

Definition subprocess_run_in (cwd : string) (cmd : Cmd) : M W CompletedProcess :=
  λ w, match os_subprocess_run_in cwd cmd w with
       | (Completed rc out err, w') => (inr (mkCompletedProcess rc out err), w')
       | (TimedOut, w') => (inl (TimeoutExpired cmd None), w')
       | (Failed e, w') => (inl e, w')
       end.

(** The text of the Dockerfile that [setup_environment] writes. *)
Definition dockerfile_content (task : Task.t) : string :=
  let packages := join " " (Task.required_packages task) in
  newline +:+ "FROM " +:+ Task.base_image task +:+ newline +:+
  newline +:+ "ENV DEBIAN_FRONTEND=noninteractive" +:+ newline +:+
  newline +:+ "RUN apt-get update && apt-get install -y " +:+ packages +:+
    " && rm -rf /var/lib/apt/lists/*" +:+ newline +:+
  newline +:+ "WORKDIR /workspace" +:+ newline.

Definition image_name_of (task : Task.t) : string :=
  "llm-builds-linux-" +:+ Task.id task +:+ ":latest".

Definition dockerfile_path_of (task : Task.t) : string :=
  BenchmarkRunner.path_join (work_dir config) ("Dockerfile." +:+ Task.id task).

Definition docker_build_cmd (task : Task.t) : Cmd :=
  Argv ["docker"; "build"; "-t"; image_name_of task; "-f"; dockerfile_path_of task; "."].

Definition docker_run_cmd (task : Task.t) (now : Q) : Cmd :=
  Argv ["docker"; "run"; "-d";
        "--name"; "llm-builds-" +:+ Task.id task +:+ "-" +:+ py_str_int (py_int_of_float now);
        "-v"; work_dir config +:+ ":/workspace";
        image_name_of task;
        "sleep"; "infinity"].

(** [TaskRunner.setup_environment] *)
Definition setup_environment (task : Task.t) : M W string :=
  if negb (docker_enabled config) then ret "local"
  else
    (write_text (dockerfile_path_of task) (dockerfile_content task) ;;;
     result <- subprocess_run_in (work_dir config) (docker_build_cmd task) ;;
     if negb (returncode result =? 0) then
       raise (Exc "RuntimeError" ("Failed to build Docker image: " +:+ stderr result))
     else
       now <- time_time ;;
       result <- subprocess_run (docker_run_cmd task now) None ;;
       if negb (returncode result =? 0) then
         raise (Exc "RuntimeError" ("Failed to start container: " +:+ stderr result))
       else ret (py_strip (stdout result)))%py.

(** [TaskRunner.cleanup] *)
Definition cleanup (container_id : string) : M W unit :=
  if negb (TaskRunner.is_local container_id) && docker_enabled config then
    (subprocess_run (Argv ["docker"; "rm"; "-f"; container_id]) None ;;; ret tt)%py
  else ret tt.
End provisioning.

(** The example machine can write files; a build in a directory is a
    process like any other. *)
#[export] Instance Machine_OSProvision : OSProvision Machine := {|
  os_write_text path content m :=
    (inr (Z.of_nat (String.length content)),
     mkMachine (<[path := Z.of_nat (String.length content)]> (m_files m))
               (m_programs m) (m_clock m));
  os_subprocess_run_in cwd cmd m := Machine_run cmd None m;
|}.

(** A machine whose [docker build] fails. *)
Definition no_daemon_machine : Machine :=
  mkMachine ∅
    (<["docker build -t llm-builds-linux-example:latest -f /tmp/llm-builds-linux/Dockerfile.example ."
       := (1, mkCompletedProcess 1 "" "Cannot connect to the Docker daemon")]> ∅)
    100.

(* ================================================================== *)
(** * More of task.py: vocabulary *)
(* ================================================================== *)

(** The keys that [Task.from_dict] reads with [data[key]]. *)
Definition required_keys : list string :=
  ["id"; "name"; "description"; "category"; "difficulty"; "instructions";
   "expected_steps"].

(** The keys of [Task.to_dict] whose values are scalars or lists of
    strings: all of them but "verification_steps". *)
Definition flat_keys : list string :=
  required_keys ++
  ["prerequisites"; "base_image"; "required_packages"; "required_disk_gb";
   "required_ram_gb"; "success_artifacts"; "time_limit_minutes";
   "expected_build_minutes"; "tags"; "reference_docs"; "common_failure_points"].

(** A dict with the required keys only. *)
Definition minimal_task_dict : gmap string pyval :=
  <["id" := PStr "t1"]>
  (<["name" := PStr "T1"]>
  (<["description" := PStr "A task"]>
  (<["category" := PStr "debugging"]>
  (<["difficulty" := PStr "hard"]>
  (<["instructions" := PStr "Fix it."]>
  (<["expected_steps" := PInt 7]> ∅)))))).

(* ================================================================== *)
(** * More of benchmark_runner.py: vocabulary *)
(* ================================================================== *)

(** The messages that a run yields, and the inputs of its [PostToolUse]
    hooks, in order. *)
Fixpoint yielded (evs : list AgentEvent) : list SdkMessage :=
  match evs with
  | [] => []
  | Yield message :: rest => message :: yielded rest
  | _ :: rest => yielded rest
  end.

Fixpoint post_tool_inputs (evs : list AgentEvent) : list HookInput :=
  match evs with
  | [] => []
  | PostToolUse input_data :: rest => input_data :: post_tool_inputs rest
  | _ :: rest => post_tool_inputs rest
  end.

(** The trace [tr] after [calls] more tool calls have been recorded. *)
Definition with_calls (calls : list ToolCall.t) (tr : AgentTrace.t) : AgentTrace.t :=
  AgentTrace.set_total_tool_calls
    (AgentTrace.total_tool_calls tr + Z.of_nat (length calls))
    (AgentTrace.set_tool_calls (AgentTrace.tool_calls tr ++ calls) tr).

(** [call] is the record of the tool use that [input_data] reports. *)
Definition recorded (call : ToolCall.t) (input_data : HookInput) : Prop :=
  ToolCall.tool_name call = hook_tool_name input_data
  ∧ ToolCall.tool_input call = hook_tool_input input_data
  ∧ ToolCall.tool_output call = Some (py_slice_to 5000 (hook_tool_response input_data))
  ∧ ToolCall.success call = negb (py_in "error" (py_lower (hook_tool_response input_data)))
  ∧ ToolCall.error call = None.

(** An agent that uses a tool once and ends normally. *)
Definition finishing_agent : AgentRun :=
  mkAgentRun
    [Yield (AssistantMessage [TextBlock "Building."; ToolUseBlock "Bash" ∅]);
     PreToolUse (mkHookInput "Bash" ∅ "");
     PostToolUse (mkHookInput "Bash" ∅ "vmlinuz initramfs");
     Yield (UserMessage "tool result");
     Yield (AssistantMessage [TextBlock "Done."])]
    None.

(** The trace that [run_task] hands back, from the fresh trace [tr0], the
    recorded calls, the way the run ended and the stamped duration. *)
Definition final_trace_of (agent : AgentRun) (tr0 : AgentTrace.t)
    (calls : list ToolCall.t) (now : string) (d : Q) : AgentTrace.t :=
  AgentTrace.set_total_duration_seconds d
    match raises agent with
    | Some e =>
        AgentTrace.set_errors
          (AgentTrace.errors (with_calls calls tr0)
           ++ [TraceError.mk (exc_type e) (exc_msg e) now])
          (AgentTrace.set_success false (with_calls calls tr0))
    | None =>
        AgentTrace.set_final_output
          (first_text_of_latest (reverse (yielded (events agent))))
          (AgentTrace.set_success true
             (AgentTrace.set_messages
                (map BenchmarkRunner._serialize_message (yielded (events agent)))
                (with_calls calls tr0)))
    end.


(** ** [_summarize_input] *)

(** [BenchmarkRunner._summarize_input(tool_name, tool_input)]; [input_str]
    is [str(tool_input)].  The values that the summary reads are strings
    for the tools of the SDK; any other value is reported as ill-typed. *)
Definition _summarize_input (tool_name : string) (tool_input : gmap string pyval)
    (input_str : string) : Res string :=
  if bool_decide (tool_name = "Bash") then
    (cmd <~ as_str (dict_get tool_input "command" (PStr "")) ;;
     inr (if bool_decide (80 < length (chars cmd))%nat
          then py_slice_to 80 cmd +:+ "..."
          else cmd))%py
  else if bool_decide (tool_name = "Read") then
    as_str (dict_get tool_input "file_path" (PStr ""))
  else if bool_decide (tool_name = "Write") then
    (file_path <~ as_str (dict_get tool_input "file_path" (PStr "")) ;;
     content <~ as_str (dict_get tool_input "content" (PStr "")) ;;
     inr (file_path +:+ " (" +:+ py_str_int (Z.of_nat (length (chars content)))
          +:+ " chars)"))%py
  else if bool_decide (tool_name = "Edit") then
    as_str (dict_get tool_input "file_path" (PStr ""))
  else inr (py_slice_to 60 input_str).

(** A command of a hundred characters. *)
Definition long_command : string :=
  str_of (replicate 100 (ascii_of_N 120)).

(** ** [run_benchmark] and [run_all_benchmarks] *)

(** What creating a [BenchmarkRunner] asks of the operating system. *)
Class OSProcess (W : Type) : Type := {
  (** [os.getcwd()], or the [OSError] it raises *)
  os_getcwd : W → Res string;
  (** [Path(p).mkdir(exist_ok=True)], or the [OSError] it raises *)
  os_mkdir : string → W → Res unit * W;
}.

(** The state of the Python process outside any runner: the machine, the
    trace documents written so far, [os.environ]. *)
Record Process (W : Type) : Type := mkProcess {
  p_world : W;
  p_trace_files : gmap string pyval;
  p_environ : gmap string string;
}.
Arguments mkProcess {W}.
Arguments p_world {W}.
Arguments p_trace_files {W}.
Arguments p_environ {W}.

(** [name in registry] and [registry[name]] on a dict that is kept as the
    list of its items, in insertion order. *)
Fixpoint registry_get {A : Type} (name : string) (registry : list (string * A)) : option A :=
  match registry with
  | [] => None
  | (key, value) :: rest =>
      if bool_decide (key = name) then Some value else registry_get name rest
  end.

(** The default of the [model] parameter of [BenchmarkRunner.__init__]. *)
Definition default_model : string := "claude-sonnet-4-20250514".

(** An entry of [BENCHMARK_TASKS] that holds a string under "id" and under
    "prompt", and an integer under "timeout" when it has that key. *)
Definition benchmark_entry (task : gmap string pyval) (task_id prompt : string) : Prop :=
  task !! "id" = Some (PStr task_id)
  ∧ task !! "prompt" = Some (PStr prompt)
  ∧ ∃ timeout : Z, dict_get task "timeout" (PInt 600) = PInt timeout.

Section benchmarks.
Context {W : Type} `{!OS W} `{!OSProcess W}.
(** The dict [BENCHMARK_TASKS], as the list of its items. *)
Variable BENCHMARK_TASKS : list (string * gmap string pyval).
(** What [query(prompt, options)] does for a prompt, on the machine that
    [run_task] is entered on. *)
Variable query : string → W → AgentRun.

Definition in_process {A} (m : M W A) : M (Process W) A :=
  λ p, let '(x, w') := m (p_world p) in
       (x, mkProcess w' (p_trace_files p) (p_environ p)).

(** A method call on the runner [r]; the runner object is dropped
    afterwards. *)
Definition with_runner {A} (r : BenchmarkRunner.t) (m : BenchmarkRunner.Run A) :
    M (Process W) A :=
  λ p, let '(x, st) := m (BenchmarkRunner.mkState r (p_world p) (p_trace_files p)
                            (p_environ p)) in
       (x, mkProcess (BenchmarkRunner.world st) (BenchmarkRunner.trace_files st)
             (BenchmarkRunner.environ st)).

(** [BenchmarkRunner(api_key, model, working_dir, trace_dir)] *)
Definition BenchmarkRunner__init__ (api_key : option string) (model : string)
    (working_dir : option string) (trace_dir : string) : M (Process W) BenchmarkRunner.t :=
  (env <- gets p_environ ;;
   let api_key := if truthy_str api_key then api_key else env !! "ANTHROPIC_API_KEY" in
   working_dir <- (if truthy_str working_dir then ret (default "" working_dir)
                   else in_process (λ w, (os_getcwd w, w))) ;;
   in_process (os_mkdir trace_dir) ;;;
   ret (BenchmarkRunner.mk api_key model working_dir trace_dir None None))%py.

(** [run_benchmark(task_name, api_key, working_dir)] *)
Definition run_benchmark (task_name : string) (api_key working_dir : option string) :
    M (Process W) AgentTrace.t :=
  match registry_get task_name BENCHMARK_TASKS with
  | None =>
      raise (Exc "ValueError"
               ("Unknown task: " +:+ task_name +:+ ". Available: " +:+
                py_repr_list (map fst BENCHMARK_TASKS)))
  | Some task =>
      (runner <- BenchmarkRunner__init__ api_key default_model working_dir "traces" ;;
       task_id <- lift_res (v <~ dict_getitem task "id" ;; as_str v) ;;
       prompt <- lift_res (v <~ dict_getitem task "prompt" ;; as_str v) ;;
       timeout <- lift_res (as_int (dict_get task "timeout" (PInt 600))) ;;
       w <- gets p_world ;;
       with_runner runner
         (BenchmarkRunner.run_task (query prompt w) task_id prompt timeout 50))%py
  end.

(** The loop of [run_all_benchmarks], [results] being the list so far. *)
Fixpoint run_each (names : list string) (api_key working_dir : option string)
    (results : list AgentTrace.t) : M (Process W) (list AgentTrace.t) :=
  match names with
  | [] => ret results
  | task_name :: rest =>
      (trace <- run_benchmark task_name api_key working_dir ;;
       run_each rest api_key working_dir (results ++ [trace]))%py
  end.

(** [run_all_benchmarks(api_key, working_dir)] *)
Definition run_all_benchmarks (api_key working_dir : option string) :
    M (Process W) (list AgentTrace.t) :=
  run_each (map fst BENCHMARK_TASKS) api_key working_dir [].
End benchmarks.

(** On the example machine the working directory is [/work] and a
    directory can always be created. *)
#[export] Instance Machine_OSProcess : OSProcess Machine := {|
  os_getcwd m := inr "/work";
  os_mkdir path m := (inr tt, m);
|}.

(** A registry of two tasks, and an agent that finishes the first and fails
    on every other prompt. *)
Definition example_registry : list (string * gmap string pyval) :=
  [("alpine", <["id" := PStr "alpine"]>
              (<["prompt" := PStr "Build it."]> (<["timeout" := PInt 300]> ∅)));
   ("boot", <["id" := PStr "boot"]> (<["prompt" := PStr "Boot it."]> ∅))].

Definition example_query (prompt : string) (w : Machine) : AgentRun :=
  if bool_decide (prompt = "Build it.") then finishing_agent else failing_agent.

Definition example_process : Process Machine := mkProcess example_machine ∅ ∅.

(** ** [print_task_summary]: the grouping *)

(** [if cat not in d: d[cat] = []] followed by [d[cat].append(task)], on
    a dict kept as the list of its items in insertion order. *)
Fixpoint dict_append {A : Type} (cat : string) (task : A) (d : list (string * list A)) :
    list (string * list A) :=
  match d with
  | [] => [(cat, [task])]
  | (key, tasks) :: rest =>
      if bool_decide (key = cat) then (key, tasks ++ [task]) :: rest
      else (key, tasks) :: dict_append cat task rest
  end.

(** The dict [by_category] that [print_task_summary] builds before it
    prints one heading per key and the tasks under it. *)
Definition by_category (tasks : list Task.t) : list (string * list Task.t) :=
  foldl (λ d task, dict_append (Category_.value (Task.category task)) task d) [] tasks.

(** The tasks in the order in which the summary lists them. *)
Definition listed (tasks : list Task.t) : list Task.t :=
  concat (map snd (by_category tasks)).

Definition in_category (cat : string) (task : Task.t) : Prop :=
  Category_.value (Task.category task) = cat.

#[export] Instance in_category_dec (cat : string) (task : Task.t) :
  Decision (in_category cat task).
Proof. unfold in_category. apply _. Defined.

(* ================================================================== *)
(** * Theorems *)
(* ================================================================== *)

Lemma bind_eq {S A B} (m : M S A) (k : A → M S B) (s : S) :
  bind m k s = match m s with
               | (inr a, s') => k a s'
               | (inl e, s') => (inl e, s')
               end.
Proof. reflexivity. Qed.

(** ** Floats: rounding to the nearest binary64 number *)

Lemma Qlt_bool_iff (x y : Q) : Qlt_bool x y = true ↔ (x < y)%Q.
Proof.
  unfold Qlt_bool. rewrite negb_true_iff. split.
  - intros Hle. apply Qnot_le_lt. intros Habs. apply Qle_bool_iff in Habs. congruence.
  - intros Hlt. destruct (Qle_bool y x) eqn:Hle; [|reflexivity].
    apply Qle_bool_iff in Hle. exfalso. exact (Qlt_not_le _ _ Hlt Hle).
Qed.

Lemma pow2_pos (e : Z) : (0 < pow2 e)%Q.
Proof. apply Qpower_0_lt. reflexivity. Qed.

Lemma pow2_add (a b : Z) : (pow2 (a + b) == pow2 a * pow2 b)%Q.
Proof. apply Qpower_plus. discriminate. Qed.

Lemma pow2_le (a b : Z) : a ≤ b → (pow2 a <= pow2 b)%Q.
Proof. intros Hab. apply Qpower_le_compat_l; [exact Hab | discriminate]. Qed.

Lemma pow2_lt (a b : Z) : a < b → (pow2 a < pow2 b)%Q.
Proof. intros Hab. apply Qpower_lt_compat_l; [exact Hab | reflexivity]. Qed.

Lemma pow2_lt_inv (a b : Z) : (pow2 a < pow2 b)%Q → a < b.
Proof. intros Hab. eapply Qpower_lt_compat_l_inv; [exact Hab | reflexivity]. Qed.

Lemma pow2_inject (n : Z) : 0 ≤ n → (pow2 n == inject_Z (2 ^ n))%Q.
Proof. intros Hn. unfold pow2. by rewrite Zpower_Qpower. Qed.

Lemma pow2_succ (e : Z) : (pow2 (e + 1) == 2 * pow2 e)%Q.
Proof. rewrite pow2_add. unfold pow2 at 2. rewrite Qpower_1_r. ring. Qed.

(** [Qlog2 q] is the exponent of the binade of [q]. *)
Lemma Qlog2_spec (q : Q) :
  (0 < q)%Q → (pow2 (Qlog2 q) <= q)%Q ∧ (q < pow2 (Qlog2 q + 1))%Q.
Proof.
  intros Hq. destruct q as [n d]. unfold Qlog2. cbn [Qnum Qden].
  assert (Hn : 0 < n) by (unfold Qlt in Hq; cbn in Hq; lia).
  set (ln := Z.log2 n). set (ld := Z.log2 (Z.pos d)).
  destruct (Z.log2_spec n Hn) as [Hn1 Hn2].
  destruct (Z.log2_spec (Z.pos d) eq_refl) as [Hd1 Hd2].
  fold ln in Hn1, Hn2. fold ld in Hd1, Hd2.
  assert (Hln : 0 ≤ ln) by apply Z.log2_nonneg.
  assert (Hld : 0 ≤ ld) by apply Z.log2_nonneg.
  assert (Hq_eq : (n # d == inject_Z n / inject_Z (Z.pos d))%Q) by apply Qmake_Qdiv.
  assert (Hdpos : (0 < inject_Z (Z.pos d))%Q) by reflexivity.
  assert (Hupper : (n # d < pow2 (ln - ld + 1))%Q).
  { rewrite Hq_eq. apply Qlt_shift_div_r; [exact Hdpos|].
    apply Qlt_le_trans with (pow2 (ln + 1)).
    - rewrite pow2_inject by lia. rewrite <- Zlt_Qlt. replace (ln + 1) with (Z.succ ln) by lia.
      exact Hn2.
    - replace (ln + 1) with ((ln - ld + 1) + ld) by lia. rewrite pow2_add.
      apply Qmult_le_l; [apply pow2_pos|].
      rewrite pow2_inject by lia. rewrite <- Zle_Qle. exact Hd1. }
  assert (Hlower : (pow2 (ln - ld - 1) <= n # d)%Q).
  { rewrite Hq_eq. apply Qle_shift_div_l; [exact Hdpos|].
    apply Qle_trans with (pow2 ln).
    - replace ln with ((ln - ld - 1) + (ld + 1)) at 2 by lia. rewrite pow2_add.
      apply Qmult_le_l; [apply pow2_pos|].
      rewrite pow2_inject by lia. rewrite <- Zle_Qle.
      replace (ld + 1) with (Z.succ ld) by lia. lia.
    - rewrite pow2_inject by lia. rewrite <- Zle_Qle. exact Hn1. }
  destruct (Qle_bool (pow2 (ln - ld)) (n # d)) eqn:Hcmp.
  - apply Qle_bool_iff in Hcmp. split; [exact Hcmp | exact Hupper].
  - split; [exact Hlower|]. replace (ln - ld - 1 + 1) with (ln - ld) by lia.
    apply Qnot_le_lt. intros Habs. apply Qle_bool_iff in Habs. congruence.
Qed.

(** [round_half_even]: within one half, and on the right side of every
    integer. *)
Lemma round_half_even_spec (x : Q) :
  (inject_Z (round_half_even x) - (1 # 2) <= x)%Q
  ∧ (x <= inject_Z (round_half_even x) + (1 # 2))%Q
  ∧ (∀ n : Z, (x <= inject_Z n)%Q → round_half_even x ≤ n)
  ∧ (∀ n : Z, (inject_Z n <= x)%Q → n ≤ round_half_even x).
Proof.
  unfold round_half_even.
  pose proof (Qfloor_le x) as Hfl. pose proof (Qlt_floor x) as Hfl'.
  set (fl := Qfloor x) in *.
  assert (Hinj : (inject_Z (fl + 1) == inject_Z fl + 1)%Q) by (by rewrite inject_Z_plus).
  assert (Hup : ∀ n : Z, (x <= inject_Z n)%Q → fl ≤ n).
  { intros n Hn. rewrite Zle_Qle. by apply Qle_trans with x. }
  assert (Hdown : ∀ n : Z, (inject_Z n <= x)%Q → n ≤ fl).
  { intros n Hn. assert (n < fl + 1); [|lia].
    rewrite Zlt_Qlt. by apply Qle_lt_trans with x. }
  rewrite Hinj in Hfl'.
  assert (Hstrict : ∀ n : Z, (inject_Z fl < x)%Q → (x <= inject_Z n)%Q → fl + 1 ≤ n).
  { intros n Hlt Hn. assert (fl < n); [|lia]. rewrite Zlt_Qlt. by apply Qlt_le_trans with x. }
  destruct (x - inject_Z fl ?= 1 # 2)%Q eqn:Hcmp.
  - apply Qeq_alt in Hcmp.
    destruct (Z.even fl).
    + split; [lra|]. split; [lra|]. split; [exact Hup | exact Hdown].
    + rewrite Hinj. split; [lra|]. split; [lra|]. split.
      * intros n Hn. apply Hstrict; [lra | exact Hn].
      * intros n Hn. specialize (Hdown n Hn). lia.
  - apply Qlt_alt in Hcmp. split; [lra|]. split; [lra|]. split; [exact Hup | exact Hdown].
  - apply Qgt_alt in Hcmp. rewrite Hinj. split; [lra|]. split; [lra|]. split.
    + intros n Hn. apply Hstrict; [lra | exact Hn].
    + intros n Hn. specialize (Hdown n Hn). lia.
Qed.

Lemma round_half_even_integer (x : Q) (n : Z) :
  (x == inject_Z n)%Q → round_half_even x = n.
Proof.
  intros Hx. destruct (round_half_even_spec x) as (_ & _ & Hup & Hdown).
  apply Z.le_antisymm; [apply Hup | apply Hdown]; rewrite Hx; apply Qle_refl.
Qed.

Lemma round_double_pos_eq (q : Q) :
  (round_double_pos q == inject_Z (round_half_even (q / ulp_of q)) * ulp_of q)%Q.
Proof. unfold round_double_pos. apply Qred_correct. Qed.

Lemma round_double_pos_nonneg (q : Q) : (0 < q)%Q → (0 <= round_double_pos q)%Q.
Proof.
  intros Hq. rewrite round_double_pos_eq.
  pose proof (pow2_pos (Z.max (Qlog2 q) (-1022) - 52)) as Hulp. fold (ulp_of q) in Hulp.
  apply Qmult_le_0_compat; [|by apply Qlt_le_weak].
  change 0%Q with (inject_Z 0). rewrite <- Zle_Qle.
  apply (round_half_even_spec (q / ulp_of q)). change (inject_Z 0) with 0%Q.
  apply Qle_shift_div_l; [exact Hulp|]. rewrite Qmult_0_l. by apply Qlt_le_weak.
Qed.

(** Rounding does not cross a multiple of the unit in the last place. *)
Lemma round_double_pos_le (q : Q) (n : Z) :
  (0 < q)%Q → (q <= inject_Z n * ulp_of q)%Q → (round_double_pos q <= inject_Z n * ulp_of q)%Q.
Proof.
  intros Hq Hle. rewrite round_double_pos_eq.
  pose proof (pow2_pos (Z.max (Qlog2 q) (-1022) - 52)) as Hulp. fold (ulp_of q) in Hulp.
  apply Qmult_le_compat_r; [|by apply Qlt_le_weak].
  rewrite <- Zle_Qle. apply (round_half_even_spec (q / ulp_of q)).
  apply Qle_shift_div_r; [exact Hulp | exact Hle].
Qed.

Lemma round_double_pos_error (q : Q) :
  (0 < q)%Q →
  (round_double_pos q - q <= (1 # 2) * ulp_of q)%Q
  ∧ (q - round_double_pos q <= (1 # 2) * ulp_of q)%Q.
Proof.
  intros Hq.
  pose proof (pow2_pos (Z.max (Qlog2 q) (-1022) - 52)) as Hulp. fold (ulp_of q) in Hulp.
  destruct (round_half_even_spec (q / ulp_of q)) as (Hlo & Hhi & _).
  set (m := inject_Z (round_half_even (q / ulp_of q))) in *.
  assert (Hq_eq : (q == q / ulp_of q * ulp_of q)%Q).
  { field. intros Habs. rewrite Habs in Hulp. by apply Qlt_irrefl in Hulp. }
  rewrite round_double_pos_eq. fold m.
  set (x := (q / ulp_of q)%Q) in *. set (u := ulp_of q) in *.
  clearbody m x u. clear Hq.
  split.
  - rewrite Hq_eq. nra.
  - rewrite Hq_eq. nra.
Qed.

(** For [0 < q <= 1] the binade is at most that of 1. *)
Lemma ulp_of_le_1 (q : Q) (b : Z) :
  (0 < q)%Q → (q < pow2 b)%Q → -1022 < b → (ulp_of q <= pow2 (b - 53))%Q.
Proof.
  intros Hq Hb Hrange. unfold ulp_of. apply pow2_le.
  destruct (Qlog2_spec q Hq) as [Hlo _].
  assert (Qlog2 q < b); [|lia].
  apply pow2_lt_inv. by apply Qle_lt_trans with q.
Qed.

Lemma pow2_le_inv (a b : Z) : (pow2 a <= pow2 b)%Q → a ≤ b.
Proof. intros Hab. eapply Qpower_le_compat_l_inv; [exact Hab | reflexivity]. Qed.

Lemma pow2_split (a b : Z) : b ≤ a → (pow2 a == inject_Z (2 ^ (a - b)) * pow2 b)%Q.
Proof.
  intros Hab. rewrite <- pow2_inject by lia. rewrite <- pow2_add.
  by replace (a - b + b) with a by lia.
Qed.

(** Rounding does not go past a power of two. *)
Lemma round_double_pos_le_pow2 (q : Q) (b : Z) :
  (0 < q)%Q → (q <= pow2 b)%Q → -1074 ≤ b → (round_double_pos q <= pow2 b)%Q.
Proof.
  intros Hq Hle Hb.
  destruct (Qlog2_spec q Hq) as [Hlo _].
  assert (He : Qlog2 q ≤ b) by (apply pow2_le_inv; by apply Qle_trans with q).
  assert (Hsplit : (pow2 b == inject_Z (2 ^ (b - (Z.max (Qlog2 q) (-1022) - 52))) * ulp_of q)%Q).
  { unfold ulp_of. apply pow2_split. lia. }
  rewrite Hsplit. apply round_double_pos_le; [exact Hq|]. by rewrite <- Hsplit.
Qed.

(** Below 1 by at least [2 ** -53], rounding stays below 1. *)
Lemma round_double_pos_lt_1 (q : Q) :
  (0 < q)%Q → (q <= 1 - pow2 (-53))%Q → (round_double_pos q < 1)%Q.
Proof.
  intros Hq Hle.
  pose proof (pow2_pos (-53)) as H53.
  destruct (Qlog2_spec q Hq) as [Hlo _].
  assert (He : Qlog2 q < 0).
  { apply pow2_lt_inv. apply Qle_lt_trans with q; [exact Hlo|].
    change (pow2 0) with 1%Q. lra. }
  set (t := Z.max (Qlog2 q) (-1022) - 52).
  assert (Ht : t ≤ -53) by lia.
  assert (Hone : (1 == inject_Z (2 ^ (0 - t)) * ulp_of q)%Q).
  { change 1%Q with (pow2 0). unfold ulp_of. fold t. apply pow2_split. lia. }
  pose proof (pow2_pos t) as Hulp. pose proof (pow2_le t (-53) Ht) as Hule.
  change (pow2 t) with (ulp_of q) in Hulp, Hule.
  assert (Hbelow : (inject_Z (2 ^ (0 - t) + -1) * ulp_of q == 1 - ulp_of q)%Q).
  { rewrite inject_Z_plus, Qmult_plus_distr_l, <- Hone.
    change (inject_Z (-1)) with (-1)%Q. ring. }
  apply Qle_lt_trans with (inject_Z (2 ^ (0 - t) + -1) * ulp_of q)%Q.
  - apply round_double_pos_le; [exact Hq|]. rewrite Hbelow. lra.
  - rewrite Hbelow. lra.
Qed.

(** A number with at most 53 significant bits is its own rounding. *)
Lemma round_double_pos_exact (q : Q) (m s : Z) :
  0 < m < 2 ^ 53 → -1074 ≤ s → (q == inject_Z m * pow2 s)%Q → (round_double_pos q == q)%Q.
Proof.
  intros [Hm0 Hm] Hs Hq.
  pose proof (pow2_pos s) as Hps.
  assert (Hpos : (0 < q)%Q).
  { rewrite Hq. apply Qmult_lt_0_compat; [|exact Hps].
    change 0%Q with (inject_Z 0). by rewrite <- Zlt_Qlt. }
  destruct (Qlog2_spec q Hpos) as [Hlo _].
  assert (He : Qlog2 q < 53 + s).
  { apply pow2_lt_inv. apply Qle_lt_trans with q; [exact Hlo|].
    rewrite Hq, pow2_add. apply Qmult_lt_r; [exact Hps|].
    rewrite pow2_inject by lia. by rewrite <- Zlt_Qlt. }
  set (t := Z.max (Qlog2 q) (-1022) - 52).
  assert (Ht : t ≤ s) by lia.
  pose proof (pow2_pos t) as Hulp.
  assert (Hsplit : (pow2 s == inject_Z (2 ^ (s - t)) * pow2 t)%Q) by (by apply pow2_split).
  assert (Hx : (q / ulp_of q == inject_Z (m * 2 ^ (s - t)))%Q).
  { unfold ulp_of. fold t. rewrite Hq, Hsplit, inject_Z_mult. field.
    intros Habs. rewrite Habs in Hulp. by apply Qlt_irrefl in Hulp. }
  rewrite round_double_pos_eq, (round_half_even_integer _ _ Hx).
  unfold ulp_of. fold t. rewrite Hq, Hsplit, inject_Z_mult. ring.
Qed.

(** ** The laws of [round_double] that the statements use *)

Lemma round_double_0 (q : Q) : (q == 0)%Q → round_double q = 0%Q.
Proof. intros Hq. unfold round_double. apply Qeq_alt in Hq. by rewrite Hq. Qed.

Lemma round_double_positive (q : Q) : (0 < q)%Q → round_double q = round_double_pos q.
Proof. intros Hq. unfold round_double. apply Qgt_alt in Hq. by rewrite Hq. Qed.

Lemma round_double_unit (q : Q) :
  (0 <= q)%Q → (q <= 1)%Q → (0 <= round_double q)%Q ∧ (round_double q <= 1)%Q.
Proof.
  intros Hq0 Hq1. destruct (Qle_lt_or_eq _ _ Hq0) as [Hpos|Hzero].
  - rewrite round_double_positive by exact Hpos. split.
    + by apply round_double_pos_nonneg.
    + change 1%Q with (pow2 0). apply round_double_pos_le_pow2; [exact Hpos | exact Hq1 | lia].
  - rewrite round_double_0 by (by symmetry). split; [apply Qle_refl | discriminate].
Qed.

Lemma round_double_lt_1 (q : Q) :
  (0 <= q)%Q → (q <= 1 - pow2 (-53))%Q → (round_double q < 1)%Q.
Proof.
  intros Hq0 Hq1. destruct (Qle_lt_or_eq _ _ Hq0) as [Hpos|Hzero].
  - rewrite round_double_positive by exact Hpos. by apply round_double_pos_lt_1.
  - rewrite round_double_0 by (by symmetry). reflexivity.
Qed.

Lemma round_double_exact (q : Q) (m s : Z) :
  0 ≤ m < 2 ^ 53 → -1074 ≤ s → (q == inject_Z m * pow2 s)%Q → (round_double q == q)%Q.
Proof.
  intros [Hm0 Hm] Hs Hq. destruct (Z.eq_dec m 0) as [->|Hne].
  - assert (Hzero : (q == 0)%Q) by (rewrite Hq; ring).
    rewrite (round_double_0 q Hzero). by symmetry.
  - assert (Hpos : (0 < q)%Q).
    { rewrite Hq. apply Qmult_lt_0_compat; [|apply pow2_pos].
      change 0%Q with (inject_Z 0). rewrite <- Zlt_Qlt. lia. }
    rewrite round_double_positive by exact Hpos.
    apply (round_double_pos_exact q m s); [lia | exact Hs | exact Hq].
Qed.

(** On [[0, 1]] rounding moves a number by at most [2 ** -54]. *)
Lemma round_double_unit_error (q : Q) :
  (0 <= q)%Q → (q <= 1)%Q → (Qabs (round_double q - q) <= pow2 (-54))%Q.
Proof.
  intros Hq0 Hq1. pose proof (pow2_pos (-54)) as H54.
  destruct (Qle_lt_or_eq _ _ Hq1) as [Hlt|Hone].
  - destruct (Qle_lt_or_eq _ _ Hq0) as [Hpos|Hzero].
    + rewrite round_double_positive by exact Hpos.
      destruct (round_double_pos_error q Hpos) as [Hup Hdown].
      assert (Hulp : (ulp_of q <= pow2 (0 - 53))%Q).
      { apply ulp_of_le_1; [exact Hpos | exact Hlt | lia]. }
      assert (Hhalf : ((1 # 2) * pow2 (0 - 53) == pow2 (-54))%Q).
      { change (0 - 53) with (-54 + 1). rewrite pow2_succ. field. }
      apply Qabs_Qle_condition. split; lra.
    + rewrite round_double_0 by (by symmetry).
      apply Qabs_Qle_condition. split; lra.
  - assert (Hex : (round_double q == q)%Q).
    { apply (round_double_exact q 1 0); [lia | lia |]. rewrite Hone. reflexivity. }
    apply Qabs_Qle_condition. split; lra.
Qed.

(** ** task.py: the dictionary form of a task *)

Lemma as_str_list_of_str_list (l : list string) :
  as_str_list (of_str_list l) = inr l.
Proof.
  unfold as_str_list, of_str_list.
  induction l as [|x l IH]; simpl; [reflexivity|].
  rewrite IH. reflexivity.
Qed.

Lemma as_opt_str_of_opt_str (o : option string) : as_opt_str (of_opt_str o) = inr o.
Proof. destruct o; reflexivity. Qed.

Lemma as_opt_int_of_opt_int (o : option Z) : as_opt_int (of_opt_int o) = inr o.
Proof. destruct o; reflexivity. Qed.

Lemma VerificationType_of_value_value (ty : VerificationType) :
  VerificationType_.of_value (VerificationType_.value ty) = inr ty.
Proof. destruct ty; reflexivity. Qed.

Lemma Category_of_value_value (c : Category) :
  Category_.of_value (Category_.value c) = inr c.
Proof. destruct c; reflexivity. Qed.

Lemma Difficulty_of_value_value (d : Difficulty) :
  Difficulty_.of_value (Difficulty_.value d) = inr d.
Proof. destruct d; reflexivity. Qed.

(** Looking a literal key up in a dict built from literal keys is a
    computation, whatever the values are. *)
Ltac eval_lookup d k :=
  let H := fresh "Hlk" in
  eassert (H : d !! k = Some _) by reflexivity;
  rewrite H; clear H.

Ltac eval_lookups :=
  repeat match goal with
         | |- context [ ?d !! ?k ] => eval_lookup d k
         end.

Lemma VerificationStep_from_dict_to_dict (v : VerificationStep.t) :
  VerificationStep.from_dict (VerificationStep.to_dict v) = inr v.
Proof.
  destruct v as [ty descr cmd out files mx mn tmo].
  unfold VerificationStep.from_dict, dict_getitem, dict_get.
  eval_lookups. cbn [from_option id as_str as_int rbind].
  rewrite VerificationType_of_value_value, !as_opt_str_of_opt_str,
    as_str_list_of_str_list, !as_opt_int_of_opt_int.
  reflexivity.
Qed.

Lemma res_map_steps (l : list VerificationStep.t) :
  res_map (λ v, d <~ as_dict v ;; VerificationStep.from_dict d)%py
          (map (λ v, PDict (VerificationStep.to_dict v)) l) = inr l.
Proof.
  induction l as [|v l IH]; [reflexivity|].
  cbn [map res_map as_dict rbind].
  rewrite VerificationStep_from_dict_to_dict, IH. reflexivity.
Qed.

(** C9.  Rebuilding a task from its own dictionary form gives the task
    back, field by field: [Task.from_dict (task.to_dict ()) = task],
    verification steps included. *)
Theorem Task_from_dict_to_dict (task : Task.t) :
  Task.from_dict (Task.to_dict task) = inr task.
Proof.
  destruct task as [tid tname tdescr cat diff instr steps prereq image pkgs disk ram
                      vsteps artifacts limit build tgs docs failures].
  unfold Task.from_dict, dict_getitem, dict_get.
  eval_lookups. cbn [from_option id as_str as_int as_list rbind].
  rewrite res_map_steps, Category_of_value_value, Difficulty_of_value_value,
    !as_str_list_of_str_list.
  reflexivity.
Qed.

(** ** runner.py: one verification step *)

Section runner_facts.
Context {W : Type} `{!OS W}.
Variable config : RunnerConfig.

(** [run_verification], step by step: the clock, the check with its
    handler, the clock again. *)
Lemma run_verification_eq (step : VerificationStep.t) (container_id : string) (w : W) :
  TaskRunner.run_verification config step container_id w =
  let '(t0, w1) := os_time w in
  let '(outcome, (r1, w2)) :=
    TaskRunner.dispatch config step container_id (TaskRunner.fresh_result step, w1) in
  let r2 := match outcome with
            | inl e => VResult.set_passed false (VResult.set_error (Some (exc_msg e)) r1)
            | inr _ => r1
            end in
  let '(t1, w3) := os_time w2 in
  (inr (VResult.set_duration_seconds (float_sub t1 t0) r2), w3).
Proof.
  unfold TaskRunner.run_verification, bind, TaskRunner.in_world, time_time, try_except,
    TaskRunner.set_result, modify, gets.
  destruct (os_time w) as [t0 w1].
  destruct (TaskRunner.dispatch config step container_id (TaskRunner.fresh_result step, w1))
    as [[e|[]] [r1 w2]]; cbn; destruct (os_time w2) as [t1 w3]; reflexivity.
Qed.

Lemma run_verification_returns (step : VerificationStep.t) (container_id : string) (w : W) :
  ∃ r w', TaskRunner.run_verification config step container_id w = (inr r, w').
Proof.
  rewrite run_verification_eq.
  destruct (os_time w) as [t0 w1].
  destruct (TaskRunner.dispatch _ _ _ _) as [outcome [r1 w2]].
  destruct (os_time w2) as [t1 w3]. eauto.
Qed.

(** ** runner.py: the evaluation of a task *)

Lemma run_steps_spec (steps : list VerificationStep.t) :
  ∀ (acc : list VResult.t) (errors : list string) (success : bool) (w : W),
  ∃ (rs : list VResult.t) (errors' : list string) (w' : W),
    TaskRunner.run_steps config steps acc errors success w =
      (inr (acc ++ rs, errors', success && forallb VResult.passed rs), w')
    ∧ steps_run config steps w rs w'.
Proof.
  induction steps as [|step rest IH]; intros acc errors success w.
  - exists [], errors, w. cbn. rewrite app_nil_r, andb_true_r.
    split; [reflexivity | constructor].
  - destruct (run_verification_returns step "local" w) as (r & w1 & Hr).
    cbn [TaskRunner.run_steps]. unfold bind at 1. rewrite Hr.
    destruct (VResult.passed r) eqn:Hp; cbn [negb].
    + destruct (IH (acc ++ [r]) errors success w1) as (rs & errors' & w' & Hrun & Hsteps).
      exists (r :: rs), errors', w'. rewrite Hrun.
      cbn [forallb]. rewrite Hp, <- app_assoc. cbn.
      split; [reflexivity | econstructor; eassumption].
    + match goal with
      | |- context [ TaskRunner.run_steps _ _ _ ?e false w1 ] =>
          destruct (IH (acc ++ [r]) e false w1) as (rs & errors' & w' & Hrun & Hsteps)
      end.
      exists (r :: rs), errors', w'. rewrite Hrun.
      cbn [forallb]. rewrite Hp, <- app_assoc. cbn. rewrite andb_false_r.
      split; [reflexivity | econstructor; eassumption].
Qed.

(** The artifacts loop only reads the machine. *)
Lemma existing_among_eq (paths : list string) (w : W) :
  TaskRunner.existing_among paths w = (probe_all w paths, w).
Proof.
  induction paths as [|a rest IH]; [reflexivity|].
  cbn [TaskRunner.existing_among probe_all]. rewrite bind_eq. unfold path_exists.
  destruct (os_path_exists a w) as [e|found]; [reflexivity|].
  rewrite bind_eq, IH. cbn [rbind].
  destruct (probe_all w rest) as [e|others]; reflexivity.
Qed.

Lemma probe_all_returns (paths : list string) (w : W) :
  Forall (λ p, ∃ found : bool, os_path_exists p w = inr found) paths →
  probe_all w paths = inr (List.filter (found_at w) paths).
Proof.
  induction 1 as [|p rest [found Hp] _ IH]; [reflexivity|].
  cbn [probe_all List.filter]. unfold found_at at 1. rewrite Hp, IH. cbn [rbind].
  destruct found; reflexivity.
Qed.

Lemma probe_all_raises (paths : list string) (w : W) (e : PyExc) :
  probe_all w paths = inl e → ∃ p, p ∈ paths ∧ os_path_exists p w = inl e.
Proof.
  induction paths as [|p rest IH]; [discriminate|].
  cbn [probe_all]. destruct (os_path_exists p w) as [e'|found] eqn:Hp.
  - intros [= ->]. exists p. split; [apply list_elem_of_here | exact Hp].
  - cbn [rbind]. destruct (probe_all w rest) as [e'|others]; [|discriminate].
    intros [= ->]. destruct (IH eq_refl) as (p' & Hin & Hp').
    exists p'. split; [by apply list_elem_of_further | exact Hp'].
Qed.

Lemma count_passed_passed_outcomes (results : list VResult.t) :
  TaskRunner.count_passed results = Z.of_nat (passed_outcomes results).
Proof.
  unfold TaskRunner.count_passed, passed_outcomes.
  induction results as [|r rs IH]; [reflexivity|].
  cbn [List.filter]. rewrite filter_cons.
  destruct (VResult.passed r) eqn:Hp.
  - rewrite decide_True by reflexivity. cbn [map foldr length]. lia.
  - rewrite decide_False by discriminate. exact IH.
Qed.

Lemma passed_outcomes_le (results : list VResult.t) :
  (passed_outcomes results ≤ length results)%nat.
Proof. apply length_filter. Qed.

Lemma steps_run_length (steps : list VerificationStep.t) (w w' : W)
    (results : list VResult.t) :
  steps_run config steps w results w' → length results = length steps.
Proof. induction 1; cbn; congruence. Qed.

Lemma truthy_error_message (r : VResult.t) :
  VResult.passed r = false →
  (if truthy_str (VResult.error r) then [default "" (VResult.error r)] else [])
  = option_list (failure_message r).
Proof.
  intros Hp. unfold failure_message. rewrite Hp.
  destruct (VResult.error r) as [m|]; cbn; [|reflexivity].
  destruct (decide (m = "")) as [->|Hne]; [reflexivity|].
  rewrite bool_decide_eq_false_2 by exact Hne. reflexivity.
Qed.

Lemma omap_failure_cons (r : VResult.t) (rs : list VResult.t) :
  omap failure_message (r :: rs) = option_list (failure_message r) ++ omap failure_message rs.
Proof. cbn. destruct (failure_message r); reflexivity. Qed.

(** The loop over the steps never raises: it collects one outcome per
    step, and the messages of the outcomes that failed. *)
Lemma run_steps_errors (steps : list VerificationStep.t) :
  ∀ (acc : list VResult.t) (errors : list string) (success : bool) (w : W),
  ∃ (rs : list VResult.t) (w' : W),
    TaskRunner.run_steps config steps acc errors success w =
      (inr (acc ++ rs, errors ++ omap failure_message rs,
            success && forallb VResult.passed rs), w')
    ∧ steps_run config steps w rs w'.
Proof.
  induction steps as [|step rest IH]; intros acc errors success w.
  - exists [], w. cbn. rewrite !app_nil_r, andb_true_r.
    split; [reflexivity | constructor].
  - destruct (run_verification_returns step "local" w) as (r & w1 & Hr).
    cbn [TaskRunner.run_steps]. rewrite bind_eq, Hr.
    destruct (VResult.passed r) eqn:Hp; cbn [negb].
    + destruct (IH (acc ++ [r]) errors success w1) as (rs & w' & Hrun & Hsteps).
      exists (r :: rs), w'. rewrite Hrun, omap_failure_cons.
      assert (failure_message r = None) as ->
        by (unfold failure_message; rewrite Hp; reflexivity).
      cbn [forallb option_list app]. rewrite Hp, <- app_assoc. cbn [app andb].
      split; [reflexivity | econstructor; eassumption].
    + replace (if truthy_str (VResult.error r)
               then errors ++ [default "" (VResult.error r)] else errors)
        with (errors ++ option_list (failure_message r)).
      2: { rewrite <- (truthy_error_message r Hp).
           destruct (truthy_str (VResult.error r)); [reflexivity | apply app_nil_r]. }
      destruct (IH (acc ++ [r]) (errors ++ option_list (failure_message r)) false w1)
        as (rs & w' & Hrun & Hsteps).
      exists (r :: rs), w'. rewrite Hrun, omap_failure_cons.
      cbn [forallb]. rewrite Hp, <- !app_assoc. cbn [app andb]. rewrite andb_false_r.
      split; [reflexivity | econstructor; eassumption].
Qed.

(** The fraction of [k] out of [n]. *)
Lemma fraction_unit (k n : nat) :
  (k ≤ n)%nat → (0 < n)%nat →
  (0 <= inject_Z (Z.of_nat k) / inject_Z (Z.of_nat n))%Q
  ∧ (inject_Z (Z.of_nat k) / inject_Z (Z.of_nat n) <= 1)%Q.
Proof.
  intros Hkn Hn.
  assert (Hpos : (0 < inject_Z (Z.of_nat n))%Q).
  { change 0%Q with (inject_Z 0). rewrite <- Zlt_Qlt. lia. }
  split.
  - apply Qle_shift_div_l; [exact Hpos|]. rewrite Qmult_0_l.
    change 0%Q with (inject_Z 0). rewrite <- Zle_Qle. lia.
  - apply Qle_shift_div_r; [exact Hpos|]. rewrite Qmult_1_l, <- Zle_Qle. lia.
Qed.

Lemma float_finite_unit (x : Q) : (0 <= x)%Q → (x <= 1)%Q → float_finite x = true.
Proof.
  intros Hx0 Hx1. unfold float_finite. apply Qlt_bool_iff.
  rewrite Qabs_pos by exact Hx0. apply Qle_lt_trans with 1%Q; [exact Hx1|].
  change 1%Q with (pow2 0). apply pow2_lt. lia.
Qed.

(** [passed_count / total_count if total_count > 0 else 0.0] does not
    raise. *)
Lemma partial_score_eq (rs : list VResult.t) :
  (if 0 <? Z.of_nat (length rs)
   then py_truediv (TaskRunner.count_passed rs) (Z.of_nat (length rs))
   else inr 0%Q)
  = inr (score_of (passed_outcomes rs) (length rs)).
Proof.
  rewrite count_passed_passed_outcomes. pose proof (passed_outcomes_le rs) as Hle.
  destruct (length rs) as [|n] eqn:Hlen; [reflexivity|].
  assert ((0 <? Z.of_nat (S n)) = true) as -> by (apply Z.ltb_lt; lia).
  unfold py_truediv, score_of.
  assert ((Z.of_nat (S n) =? 0) = false) as -> by (apply Z.eqb_neq; lia).
  destruct (fraction_unit (passed_outcomes rs) (S n)) as [H0 H1]; [exact Hle | lia |].
  destruct (round_double_unit _ H0 H1) as [Hr0 Hr1].
  cbv zeta. by rewrite (float_finite_unit _ Hr0 Hr1).
Qed.

(** The whole of [evaluate_task]: the steps are run, none of them can stop
    the evaluation, and the result is made of their outcomes as follows;
    only the lookup of an artifact can make [evaluate_task] raise. *)
Lemma evaluate_task_eq (task : Task.t) (agent_id model_name : string) (w : W) :
  ∃ (rs : list VResult.t) (w_start w_end w' : W) (start_time end_time : string)
    (duration : Q),
    steps_run config (Task.verification_steps task) w_start rs w_end
    ∧ TaskRunner.evaluate_task config task agent_id model_name w =
      (match probe_all w' (Task.success_artifacts task) with
       | inl e => inl e
       | inr found =>
           inr (TaskResult.mk (Task.id task) agent_id model_name
                  (forallb VResult.passed rs)
                  (TaskRunner.count_passed rs) (Z.of_nat (length rs))
                  start_time end_time duration rs found None
                  (omap failure_message rs) None
                  (score_of (passed_outcomes rs) (length rs)))
       end, w').
Proof.
  unfold TaskRunner.evaluate_task. rewrite bind_eq. unfold now_isoformat at 1.
  destruct (os_now_isoformat w) as [start_time w1]. rewrite bind_eq.
  unfold time_time at 1. destruct (os_time w1) as [start_ts w2].
  destruct (run_steps_errors (Task.verification_steps task) [] [] true w2)
    as (rs & w3 & Hrun & Hsteps).
  rewrite bind_eq, Hrun. cbn [app andb]. rewrite bind_eq. unfold now_isoformat.
  destruct (os_now_isoformat w3) as [end_time w4]. rewrite bind_eq. unfold time_time.
  destruct (os_time w4) as [now w5].
  exists rs, w2, w3, w5, start_time, end_time, (float_sub now start_ts).
  split; [exact Hsteps|].
  rewrite bind_eq, partial_score_eq. unfold lift_res at 1.
  rewrite bind_eq, existing_among_eq.
  destruct (probe_all w5 (Task.success_artifacts task)); reflexivity.
Qed.

(** On a machine where the lookup of the artifacts does not raise,
    [evaluate_task] returns. *)
Lemma evaluate_task_returns (task : Task.t) (agent_id model_name : string) (w : W) :
  probes_return (W := W) (Task.success_artifacts task) →
  ∃ (rs : list VResult.t) (w_start w_end w' : W) (start_time end_time : string)
    (duration : Q),
    steps_run config (Task.verification_steps task) w_start rs w_end
    ∧ TaskRunner.evaluate_task config task agent_id model_name w =
      (inr (TaskResult.mk (Task.id task) agent_id model_name
              (forallb VResult.passed rs)
              (TaskRunner.count_passed rs) (Z.of_nat (length rs))
              start_time end_time duration rs
              (List.filter (found_at w') (Task.success_artifacts task)) None
              (omap failure_message rs) None
              (score_of (passed_outcomes rs) (length rs))), w').
Proof.
  intros Hprobes.
  destruct (evaluate_task_eq task agent_id model_name w)
    as (rs & w1 & w2 & w' & start_time & end_time & duration & Hsteps & Heval).
  exists rs, w1, w2, w', start_time, end_time, duration. split; [exact Hsteps|].
  rewrite Heval, (probe_all_returns _ _ (Hprobes w')). reflexivity.
Qed.
End runner_facts.




(** C4.  [run_verification] always returns a dict, whatever the step, the
    container and the state of the machine; when the check it dispatches to
    raises [e], the dict has [passed = False] and [error = str(e)]; and the
    loop of [evaluate_task] over the steps never raises: it puts every step
    through [run_verification], in order, whatever the earlier steps did,
    and collects one outcome per step. *)
Theorem run_verification_catches {W : Type} `{!OS W} (config : RunnerConfig)
    (step : VerificationStep.t) (container_id : string) (w : W) :
  (∃ (r : VResult.t) (w' : W),
     TaskRunner.run_verification config step container_id w = (inr r, w'))
  ∧ (∀ (e : PyExc) (st : VResult.t * W),
       TaskRunner.dispatch config step container_id
         (TaskRunner.fresh_result step, snd (os_time w)) = (inl e, st) →
       ∃ (r : VResult.t) (w' : W),
         TaskRunner.run_verification config step container_id w = (inr r, w')
         ∧ VResult.passed r = false
         ∧ VResult.error r = Some (exc_msg e))
  ∧ (∀ (steps : list VerificationStep.t),
       ∃ (results : list VResult.t) (errors : list string) (w' : W),
         TaskRunner.run_steps config steps [] [] true w =
           (inr (results, errors, forallb VResult.passed results), w')
         ∧ steps_run config steps w results w'
         ∧ length results = length steps).
Proof.
  split; [apply run_verification_returns|]. split.
  - intros e [r1 w2] Hraise. rewrite run_verification_eq.
    destruct (os_time w) as [t0 w1]. cbn [snd] in Hraise. rewrite Hraise.
    destruct (os_time w2) as [t1 w3]. eexists _, _. split; [reflexivity|].
    split; reflexivity.
  - intros steps.
    destruct (run_steps_spec config steps [] [] true w) as (rs & errors & w' & Hrun & Hsteps).
    exists rs, errors, w'. split; [exact Hrun|]. split; [exact Hsteps|].
    eapply steps_run_length; eassumption.
Qed.

Lemma run_verification_catches_witness :
  ∃ (r : VResult.t) (w' : Machine),
    TaskRunner.run_verification default_config
      (example_step SIZE_CHECK None ["out/missing"] (Some 500) (Some 5) 300)
      "local" example_machine = (inr r, w')
    ∧ VResult.passed r = false
    ∧ VResult.error r = Some "[Errno 2] No such file or directory: 'out/missing'".
Proof.
  pose proof (run_verification_catches default_config
                (example_step SIZE_CHECK None ["out/missing"] (Some 500) (Some 5) 300)
                "local" example_machine) as (_ & Hcatch & _).
  apply (Hcatch (Exc "FileNotFoundError" "[Errno 2] No such file or directory: 'out/missing'")
                (TaskRunner.fresh_result
                   (example_step SIZE_CHECK None ["out/missing"] (Some 500) (Some 5) 300),
                 example_machine)).
  vm_compute. reflexivity.
Defined.




(** ** runner.py: size checks *)

Section size_check.
Context {W : Type} `{!OS W}.
Variable config : RunnerConfig.

Lemma Qlt_bool_false (x y : Q) : Qlt_bool x y = false ↔ (y <= x)%Q.
Proof.
  unfold Qlt_bool. rewrite negb_false_iff. apply Qle_bool_iff.
Qed.

Lemma truthy_int_nonzero (n : Z) : n ≠ 0 → truthy_int (Some n) = true.
Proof. intros Hn. cbn. apply negb_true_iff, Z.eqb_neq, Hn. Qed.

(** With both bounds set and non-zero, the two tests of the loop fail
    exactly on the sizes inside the interval. *)
Lemma no_violation_iff (step : VerificationStep.t) (min_mb max_mb : Z) (size_mb : Q) :
  VerificationStep.min_size_mb step = Some min_mb →
  VerificationStep.max_size_mb step = Some max_mb →
  min_mb ≠ 0 → max_mb ≠ 0 →
  TaskRunner.below_min step size_mb = false ∧ TaskRunner.above_max step size_mb = false
  ↔ (inject_Z min_mb <= size_mb)%Q ∧ (size_mb <= inject_Z max_mb)%Q.
Proof.
  intros Hmin Hmax Hmin0 Hmax0.
  unfold TaskRunner.below_min, TaskRunner.above_max, bound_and.
  rewrite Hmin, Hmax, !truthy_int_nonzero by assumption.
  cbn [andb]. rewrite !Qlt_bool_false. reflexivity.
Qed.

Lemma in_world_size_probe (container_id file_path : string) (r : VResult.t) (w : W) :
  TaskRunner.in_world (TaskRunner.size_probe container_id file_path) (r, w) =
  (fst (TaskRunner.size_probe container_id file_path w),
   (r, snd (TaskRunner.size_probe container_id file_path w))).
Proof.
  unfold TaskRunner.in_world. destruct (TaskRunner.size_probe _ _ _); reflexivity.
Qed.

(** One turn of the loop of [_verify_size], once the file has a size. *)
Lemma verify_size_of_cons (step : VerificationStep.t) (container_id : string)
    (f : string) (rest : list string) (size_bytes : Z) (r : VResult.t) (w w1 : W) :
  TaskRunner.size_probe container_id f w = (inr (Some size_bytes), w1) →
  TaskRunner.verify_size_of step container_id (f :: rest) (r, w) =
  match size_mb_of size_bytes with
  | inl e => (inl e, (r, w1))
  | inr size_mb =>
      if TaskRunner.below_min step size_mb then
        (inr tt,
         (VResult.set_details
            (f +:+ ": " +:+ py_format_1f size_mb +:+ "MB < min " +:+
             from_option py_str_int "None" (VerificationStep.min_size_mb step) +:+ "MB") r,
          w1))
      else if TaskRunner.above_max step size_mb then
        (inr tt,
         (VResult.set_details
            (f +:+ ": " +:+ py_format_1f size_mb +:+ "MB > max " +:+
             from_option py_str_int "None" (VerificationStep.max_size_mb step) +:+ "MB") r,
          w1))
      else TaskRunner.verify_size_of step container_id rest (r, w1)
  end.
Proof.
  intros Hprobe. cbn [TaskRunner.verify_size_of].
  rewrite bind_eq, in_world_size_probe, Hprobe. cbn [fst snd].
  rewrite bind_eq. unfold lift_res at 1.
  destruct (size_mb_of size_bytes) as [e|size_mb]; [reflexivity|].
  destruct (TaskRunner.below_min step size_mb); [reflexivity|].
  destruct (TaskRunner.above_max step size_mb); reflexivity.
Qed.

(** The loop sets [passed] only after the last file. *)
Lemma verify_size_of_passed (step : VerificationStep.t) (container_id : string)
    (P : Z → Prop) :
  (∀ size_bytes size_mb,
     size_mb_of size_bytes = inr size_mb →
     TaskRunner.below_min step size_mb = false →
     TaskRunner.above_max step size_mb = false → P size_bytes) →
  ∀ (files : list string) (r0 r : VResult.t) (w w' : W),
    VResult.passed r0 = false →
    TaskRunner.verify_size_of step container_id files (r0, w) = (inr tt, (r, w')) →
    VResult.passed r = true →
    sizes_within P container_id files w w'.
Proof.
  intros HP. induction files as [|f rest IH]; intros r0 r w w' Hr0 Hrun Hpassed.
  - cbn in Hrun. injection Hrun as _ Hw. cbn. congruence.
  - destruct (TaskRunner.size_probe container_id f w) as [[e|[size_bytes|]] w1] eqn:Hprobe.
    + cbn [TaskRunner.verify_size_of] in Hrun.
      rewrite bind_eq, in_world_size_probe, Hprobe in Hrun. discriminate Hrun.
    + rewrite (verify_size_of_cons _ _ _ _ _ _ _ _ Hprobe) in Hrun.
      destruct (size_mb_of size_bytes) as [e|size_mb] eqn:Hmb; [discriminate Hrun|].
      destruct (TaskRunner.below_min step size_mb) eqn:Hlo.
      { injection Hrun as <- _. cbn in Hpassed. congruence. }
      destruct (TaskRunner.above_max step size_mb) eqn:Hhi.
      { injection Hrun as <- _. cbn in Hpassed. congruence. }
      cbn [sizes_within]. exists size_bytes, w1.
      split; [exact Hprobe|]. split; [by apply (HP _ size_mb)|].
      eapply IH; eassumption.
    + cbn [TaskRunner.verify_size_of] in Hrun.
      rewrite bind_eq, in_world_size_probe, Hprobe in Hrun. cbn [fst snd] in Hrun.
      injection Hrun as <- _. cbn in Hpassed. congruence.
Qed.

(** Once a file is not accepted the loop stops: what follows the file in
    the list plays no part, and [passed] is not set. *)
Lemma verify_size_of_stops (step : VerificationStep.t) (container_id : string)
    (P : Z → Prop) :
  (∀ size_bytes, P size_bytes →
     ∃ size_mb, size_mb_of size_bytes = inr size_mb
                ∧ TaskRunner.below_min step size_mb = false
                ∧ TaskRunner.above_max step size_mb = false) →
  ∀ (pre : list string) (f : string) (size_bytes : Z) (r0 : VResult.t) (w w1 w2 : W),
    sizes_within P container_id pre w w1 →
    TaskRunner.size_probe container_id f w1 = (inr (Some size_bytes), w2) →
    (∀ size_mb, size_mb_of size_bytes = inr size_mb →
                TaskRunner.below_min step size_mb = false →
                TaskRunner.above_max step size_mb = true) →
    ∃ (outcome : PyExc + unit) (r1 : VResult.t),
      VResult.passed r1 = VResult.passed r0
      ∧ ∀ (rest : list string),
          TaskRunner.verify_size_of step container_id (pre ++ f :: rest) (r0, w) =
          (outcome, (r1, w2)).
Proof.
  intros HP. induction pre as [|p pre IH]; intros f size_bytes r0 w w1 w2 Hpre Hprobe Hbad.
  - cbn in Hpre. subst w1. cbn [app].
    destruct (size_mb_of size_bytes) as [e|size_mb] eqn:Hmb.
    + exists (inl e), r0. split; [reflexivity|]. intros rest.
      rewrite (verify_size_of_cons _ _ _ _ _ _ _ _ Hprobe), Hmb. reflexivity.
    + destruct (TaskRunner.below_min step size_mb) eqn:Hlo.
      * eexists (inr tt), _. split; [|intros rest;
          rewrite (verify_size_of_cons _ _ _ _ _ _ _ _ Hprobe), Hmb, Hlo; reflexivity].
        reflexivity.
      * specialize (Hbad size_mb eq_refl Hlo).
        eexists (inr tt), _. split; [|intros rest;
          rewrite (verify_size_of_cons _ _ _ _ _ _ _ _ Hprobe), Hmb, Hlo, Hbad; reflexivity].
        reflexivity.
  - cbn [sizes_within] in Hpre. destruct Hpre as (sz & w' & Hp & HPsz & Hpre).
    destruct (HP sz HPsz) as (size_mb & Hmb & Hlo & Hhi).
    destruct (IH f size_bytes r0 w' w1 w2 Hpre Hprobe Hbad) as (outcome & r1 & Hr1 & Hrest).
    exists outcome, r1. split; [exact Hr1|]. intros rest. cbn [app].
    rewrite (verify_size_of_cons _ _ _ _ _ _ _ _ Hp), Hmb, Hlo, Hhi. apply Hrest.
Qed.

(** The loop reads the step through its two bounds only. *)
Lemma verify_size_of_ext (s1 s2 : VerificationStep.t) (container_id : string) :
  (∀ q, TaskRunner.below_min s1 q = TaskRunner.below_min s2 q) →
  (∀ q, TaskRunner.above_max s1 q = TaskRunner.above_max s2 q) →
  (∀ q, TaskRunner.below_min s1 q = true →
        VerificationStep.min_size_mb s1 = VerificationStep.min_size_mb s2) →
  (∀ q, TaskRunner.above_max s1 q = true →
        VerificationStep.max_size_mb s1 = VerificationStep.max_size_mb s2) →
  ∀ (files : list string) (st : VResult.t * W),
    TaskRunner.verify_size_of s1 container_id files st =
    TaskRunner.verify_size_of s2 container_id files st.
Proof.
  intros Hlo Hhi Hmin Hmax. induction files as [|f rest IH]; intros [r w]; [reflexivity|].
  destruct (TaskRunner.size_probe container_id f w) as [[e|[size_bytes|]] w1] eqn:Hprobe.
  - cbn [TaskRunner.verify_size_of]. rewrite !bind_eq, in_world_size_probe, Hprobe.
    reflexivity.
  - rewrite !(verify_size_of_cons _ _ _ _ _ _ _ _ Hprobe).
    destruct (size_mb_of size_bytes) as [e|size_mb]; [reflexivity|].
    rewrite <- Hlo, <- Hhi.
    destruct (TaskRunner.below_min s1 size_mb) eqn:Elo.
    { rewrite (Hmin _ Elo). reflexivity. }
    destruct (TaskRunner.above_max s1 size_mb) eqn:Ehi.
    { rewrite (Hmax _ Ehi). reflexivity. }
    apply IH.
  - cbn [TaskRunner.verify_size_of]. rewrite !bind_eq, in_world_size_probe, Hprobe.
    reflexivity.
Qed.

Lemma verify_size_replace_expected_files (step : VerificationStep.t)
    (container_id : string) (files : list string) (st : VResult.t * W) :
  TaskRunner._verify_size (VerificationStep.replace_expected_files files step)
    container_id st =
  TaskRunner.verify_size_of step container_id files st.
Proof.
  unfold TaskRunner._verify_size. cbn [VerificationStep.replace_expected_files
    VerificationStep.expected_files].
  apply verify_size_of_ext; reflexivity.
Qed.

(** Below [2 ** 53] bytes the size in megabytes is computed exactly. *)
Lemma size_mb_of_exact (size_bytes : Z) :
  0 ≤ size_bytes < 2 ^ 53 →
  ∃ size_mb : Q, size_mb_of size_bytes = inr size_mb ∧ (size_mb == exact_mb size_bytes)%Q.
Proof.
  intros Hsize. unfold size_mb_of, py_truediv.
  change (1024 * 1024 =? 0) with false. cbv iota zeta. fold (exact_mb size_bytes).
  assert (Hexact : (round_double (exact_mb size_bytes) == exact_mb size_bytes)%Q).
  { apply (round_double_exact _ size_bytes (-20)); [exact Hsize | lia |].
    unfold exact_mb. reflexivity. }
  assert (Hfinite : float_finite (round_double (exact_mb size_bytes)) = true).
  { unfold float_finite. apply Qlt_bool_iff. rewrite Hexact.
    assert (H0 : (0 <= exact_mb size_bytes)%Q).
    { unfold exact_mb. apply Qle_shift_div_l; [reflexivity|]. rewrite Qmult_0_l.
      change 0%Q with (inject_Z 0). rewrite <- Zle_Qle. lia. }
    rewrite Qabs_pos by exact H0.
    apply Qlt_le_trans with (pow2 33); [|apply pow2_le; lia].
    unfold exact_mb. apply Qlt_shift_div_r; [reflexivity|].
    change (pow2 33 * inject_Z (1024 * 1024))%Q with (inject_Z (2 ^ 53)).
    rewrite <- Zlt_Qlt. lia. }
  rewrite Hfinite. eexists. split; [reflexivity | exact Hexact].
Qed.

(** The value of [timeout], when [int(...)] gives one. *)
Lemma run_step_command_timeout (step : VerificationStep.t) (container_id : string)
    (timeout : Z) (w : W) :
  TaskRunner.run_step_command step container_id (inr timeout) w =
  (if TaskRunner.is_local container_id then
     match VerificationStep.command step with
     | Some command => subprocess_run (Shell command) (Some timeout)
     | None => raise (Exc "TypeError" "'NoneType' object is not iterable")
     end
   else
     match VerificationStep.command step with
     | Some command =>
         subprocess_run (Argv ["docker"; "exec"; container_id; "bash"; "-c"; command])
                        (Some timeout)
     | None =>
         raise (Exc "TypeError" "expected str, bytes or os.PathLike object, not NoneType")
     end) w.
Proof. unfold TaskRunner.run_step_command. rewrite bind_eq. reflexivity. Qed.

(** A command that runs into its timeout, seen from [run_verification]:
    [_verify_command] has no handler of its own, the exception reaches the
    general one, and [details] keeps its initial value. *)
Lemma command_timeout_outcome (step : VerificationStep.t) (command : string)
    (timeout : Z) (w w2 : W) :
  VerificationStep.type step = COMMAND_OUTPUT →
  VerificationStep.command step = Some command →
  TaskRunner.scaled_timeout config step = inr timeout →
  os_subprocess_run (Shell command) (Some timeout) (snd (os_time w)) = (TimedOut, w2) →
  ∃ (r : VResult.t) (w' : W),
    TaskRunner.run_verification config step "local" w = (inr r, w')
    ∧ VResult.passed r = false
    ∧ VResult.details r = ""
    ∧ VResult.error r =
        Some ("Command '" +:+ command +:+ "' timed out after " +:+
              py_str_int timeout +:+ " seconds").
Proof.
  intros Hty Hcmd Htimeout Hrun. rewrite run_verification_eq.
  destruct (os_time w) as [t0 w1]. cbn [snd] in Hrun.
  assert (Hcall :
    TaskRunner.run_step_command step "local" (TaskRunner.scaled_timeout config step) w1 =
    (inl (TimeoutExpired (Shell command) (Some timeout)), w2)).
  { rewrite Htimeout, run_step_command_timeout.
    change (TaskRunner.is_local "local") with true. cbv iota.
    rewrite Hcmd. unfold subprocess_run. rewrite Hrun. reflexivity. }
  unfold TaskRunner.dispatch. rewrite Hty.
  unfold TaskRunner._verify_command. rewrite bind_eq.
  unfold TaskRunner.in_world. rewrite Hcall.
  destruct (os_time w2) as [t1 w3]. eexists _, _. split; [reflexivity|].
  cbn. auto.
Qed.
End size_check.

(** C2 (the code at the failing input).  On the example machine, the
    COMMAND_OUTPUT step that runs [sleep 10] with a timeout of one second
    comes back with [passed = False] and no exception, but its [details] is
    the empty string: the timeout value is in [error] only. *)
Theorem command_timeout_details_empty :
  TaskRunner.run_verification default_config sleep_step "local" example_machine =
  (inr (VResult.mk "command_output" "example" false ""
          (Some "Command 'sleep 10' timed out after 1 seconds") 1),
   mkMachine (m_files example_machine) (m_programs example_machine) 101).
Proof. vm_compute. reflexivity. Qed.

(** C3 (as amended).  For a SIZE_CHECK step whose two bounds are set and
    are not zero: the outcome has [passed = True] only if every file of
    [expected_files], probed in list order, has a size whose value in
    megabytes, the float [size_bytes / (1024 * 1024)], lies inside
    [[min_size_mb, max_size_mb]], ends included; when a file does not, the
    outcome is a failure that is the same whatever files follow it in the
    list, the machine being left as the probe of that file left it; and for
    a file of less than [2 ** 53] bytes the float is the size itself, so
    that the test is the one on the size. *)
Theorem size_check_bounds_and_short_circuit {W : Type} `{!OS W} (config : RunnerConfig)
    (step : VerificationStep.t) (container_id : string) (min_mb max_mb : Z) :
  VerificationStep.type step = SIZE_CHECK →
  VerificationStep.min_size_mb step = Some min_mb →
  VerificationStep.max_size_mb step = Some max_mb →
  min_mb ≠ 0 → max_mb ≠ 0 →
  (∀ (w w' : W) (r : VResult.t),
     TaskRunner.run_verification config step container_id w = (inr r, w') →
     VResult.passed r = true →
     ∃ w_end,
       sizes_within (float_within_bounds min_mb max_mb) container_id
         (VerificationStep.expected_files step) (snd (os_time w)) w_end)
  ∧ (∀ (pre : list string) (f : string) (size_bytes : Z) (w w1 w2 : W),
       sizes_within (float_within_bounds min_mb max_mb) container_id pre
         (snd (os_time w)) w1 →
       TaskRunner.size_probe container_id f w1 = (inr (Some size_bytes), w2) →
       ¬ float_within_bounds min_mb max_mb size_bytes →
       ∃ (r : VResult.t),
         VResult.passed r = false
         ∧ ∀ (rest : list string),
             TaskRunner.run_verification config
               (VerificationStep.replace_expected_files (pre ++ f :: rest) step)
               container_id w = (inr r, snd (os_time w2)))
  ∧ (∀ (size_bytes : Z),
       0 ≤ size_bytes < 2 ^ 53 →
       float_within_bounds min_mb max_mb size_bytes ↔ within_bounds min_mb max_mb size_bytes).
Proof.
  intros Hty Hmin Hmax Hmin0 Hmax0. split; [|split].
  - intros w w' r Hrun Hpassed. rewrite run_verification_eq in Hrun.
    destruct (os_time w) as [t0 w1]. cbn [snd].
    unfold TaskRunner.dispatch in Hrun. rewrite Hty in Hrun.
    destruct (TaskRunner._verify_size step container_id (TaskRunner.fresh_result step, w1))
      as [[e|[]] [r1 w2]] eqn:Hcheck;
      destruct (os_time w2) as [t1 w3]; injection Hrun as <- _.
    + cbn in Hpassed. discriminate Hpassed.
    + exists w2.
      eapply (verify_size_of_passed step container_id); [| |exact Hcheck|exact Hpassed].
      * intros sz size_mb Hmb Hlo Hhi. exists size_mb. split; [exact Hmb|].
        apply (no_violation_iff step min_mb max_mb size_mb); auto.
      * reflexivity.
  - intros pre f size_bytes w w1 w2 Hpre Hprobe Hout.
    destruct (verify_size_of_stops step container_id (float_within_bounds min_mb max_mb))
      with (pre := pre) (f := f) (size_bytes := size_bytes)
           (r0 := TaskRunner.fresh_result step) (w := snd (os_time w)) (w1 := w1) (w2 := w2)
      as (outcome & r1 & Hr1 & Hstop); [| assumption | assumption | |].
    + intros sz (size_mb & Hmb & Hin). exists size_mb. split; [exact Hmb|].
      apply (no_violation_iff step min_mb max_mb size_mb); auto.
    + intros size_mb Hmb Hlo.
      destruct (TaskRunner.above_max step size_mb) eqn:Hhi; [reflexivity|].
      exfalso. apply Hout. exists size_mb. split; [exact Hmb|].
      apply (no_violation_iff step min_mb max_mb size_mb); auto.
    + destruct (os_time w) as [t0 w0] eqn:Ht0. destruct (os_time w2) as [t1 w3] eqn:Ht1.
      cbn [snd] in *.
      exists (VResult.set_duration_seconds (float_sub t1 t0)
                match outcome with
                | inl e => VResult.set_passed false (VResult.set_error (Some (exc_msg e)) r1)
                | inr _ => r1
                end).
      split; [destruct outcome; [reflexivity | exact Hr1]|]. intros rest.
      rewrite run_verification_eq, Ht0.
      unfold TaskRunner.dispatch.
      cbn [VerificationStep.replace_expected_files VerificationStep.type]. rewrite Hty.
      change (TaskRunner.fresh_result _) with (TaskRunner.fresh_result step).
      rewrite verify_size_replace_expected_files, Hstop, Ht1. reflexivity.
  - intros size_bytes Hsize.
    destruct (size_mb_of_exact size_bytes Hsize) as (size_mb & Hmb & Hexact).
    unfold float_within_bounds, within_bounds. rewrite <- Hexact. split.
    + intros (q & Hq & Hin). rewrite Hmb in Hq. by injection Hq as <-.
    + intros Hin. by exists size_mb.
Qed.

Lemma size_check_bounds_and_short_circuit_witness :
  (∃ w_end : Machine,
     sizes_within (float_within_bounds 1 50) "local" ["out/bzImage"] example_machine w_end)
  ∧ (∃ r : VResult.t,
       VResult.passed r = false
       ∧ ∀ rest : list string,
           TaskRunner.run_verification default_config
             (VerificationStep.replace_expected_files
                ("out/empty" :: rest) (bounded_size_step []))
             "local" example_machine = (inr r, example_machine)).
Proof.
  split.
  - destruct (size_check_bounds_and_short_circuit default_config
                (bounded_size_step ["out/bzImage"]) "local" 1 50)
      as [Hpassed _]; [reflexivity | reflexivity | reflexivity | lia | lia |].
    eapply (Hpassed example_machine); [vm_compute; reflexivity | reflexivity].
  - destruct (size_check_bounds_and_short_circuit default_config
                (bounded_size_step []) "local" 1 50)
      as (_ & Hstop & _); [reflexivity | reflexivity | reflexivity | lia | lia |].
    apply (Hstop [] "out/empty" 0 example_machine example_machine example_machine).
    + reflexivity.
    + vm_compute. reflexivity.
    + intros (size_mb & Hmb & Hlow & _). vm_compute in Hmb. injection Hmb as <-.
      vm_compute in Hlow. apply Hlow. reflexivity.
Defined.

(** C3 as stated fails when a bound is set to zero: with
    [min_size_mb = 0] and [max_size_mb = 0] the 8 MB image passes the size
    check, and 8 MB is not inside [[0, 0]]. *)
Lemma size_check_zero_bounds_counterexample :
  ∃ (r : VResult.t) (w' : Machine),
    VerificationStep.type zero_bounds_step = SIZE_CHECK
    ∧ VerificationStep.min_size_mb zero_bounds_step = Some 0
    ∧ VerificationStep.max_size_mb zero_bounds_step = Some 0
    ∧ VerificationStep.expected_files zero_bounds_step = ["out/bzImage"]
    ∧ TaskRunner.run_verification default_config zero_bounds_step "local" example_machine
        = (inr r, w')
    ∧ VResult.passed r = true
    ∧ TaskRunner.size_probe "local" "out/bzImage" example_machine
        = (inr (Some 8388608), example_machine)
    ∧ ¬ within_bounds 0 0 8388608.
Proof.
  eexists _, _. do 4 (split; [reflexivity|]).
  split; [vm_compute; reflexivity|]. split; [reflexivity|].
  split; [vm_compute; reflexivity|].
  intros [_ Hhigh]. vm_compute in Hhigh. apply Hhigh. reflexivity.
Qed.

(** C10.  In [_verify_size] a bound of [0] is as good as no bound: neither
    comparison ever fires on a zero bound, whatever the size of the file
    (an empty file against [min_size_mb = 0] included), and the check with
    [min_size_mb = 0] (with [max_size_mb = 0]) runs exactly as the check
    with that bound left at [None]. *)
Theorem zero_bound_is_no_bound {W : Type} `{!OS W}
    (step : VerificationStep.t) (container_id : string) (st : VResult.t * W) :
  (∀ size_mb : Q,
     TaskRunner.below_min (VerificationStep.replace_min_size_mb (Some 0) step) size_mb
       = false)
  ∧ (∀ size_mb : Q,
       TaskRunner.above_max (VerificationStep.replace_max_size_mb (Some 0) step) size_mb
         = false)
  ∧ TaskRunner._verify_size (VerificationStep.replace_min_size_mb (Some 0) step)
      container_id st
    = TaskRunner._verify_size (VerificationStep.replace_min_size_mb None step)
        container_id st
  ∧ TaskRunner._verify_size (VerificationStep.replace_max_size_mb (Some 0) step)
      container_id st
    = TaskRunner._verify_size (VerificationStep.replace_max_size_mb None step)
        container_id st.
Proof.
  split; [reflexivity|]. split; [reflexivity|]. split.
  - unfold TaskRunner._verify_size.
    cbn [VerificationStep.replace_min_size_mb VerificationStep.expected_files].
    apply verify_size_of_ext; try reflexivity; intros q Hq; discriminate Hq.
  - unfold TaskRunner._verify_size.
    cbn [VerificationStep.replace_max_size_mb VerificationStep.expected_files].
    apply verify_size_of_ext; try reflexivity; intros q Hq; discriminate Hq.
Qed.

(** ** benchmark_runner.py: strings *)

Lemma chars_str_of (l : list ascii) : chars (str_of l) = l.
Proof. apply list_ascii_of_string_of_list_ascii. Qed.

Lemma str_of_chars (s : string) : str_of (chars s) = s.
Proof. apply string_of_list_ascii_of_string. Qed.

Lemma is_prefix_b_spec (p l : list ascii) :
  is_prefix_b p l = true ↔ ∃ post, l = p ++ post.
Proof.
  revert l. induction p as [|a p IH]; intros l; cbn.
  - split; [eauto | reflexivity].
  - destruct l as [|b l].
    + split; [discriminate | intros [post Hpost]; discriminate Hpost].
    + destruct (decide (a = b)) as [->|Hab].
      * rewrite IH. split; intros [post Hpost]; exists post; congruence.
      * split; [discriminate | intros [post Hpost]; congruence].
Qed.

Lemma is_infix_b_spec (p l : list ascii) :
  is_infix_b p l = true ↔ ∃ pre post, l = pre ++ p ++ post.
Proof.
  induction l as [|b l IH].
  - cbn [is_infix_b]. rewrite orb_false_r, is_prefix_b_spec. split.
    + intros [post Hpost]. exists [], post. exact Hpost.
    + intros (pre & post & Hl). destruct pre; [|discriminate Hl]. eauto.
  - cbn [is_infix_b]. rewrite orb_true_iff, is_prefix_b_spec, IH. split.
    + intros [[post Hpost] | (pre & post & Hl)].
      * exists [], post. exact Hpost.
      * exists (b :: pre), post. cbn. congruence.
    + intros (pre & post & Hl). destruct pre as [|b' pre].
      * left. eauto.
      * right. exists pre, post. cbn in Hl. congruence.
Qed.

Lemma in_all_ascii (c : ascii) : In c all_ascii.
Proof.
  rewrite <- (ascii_nat_embedding c). apply in_map, in_seq.
  pose proof (nat_ascii_bounded c). lia.
Qed.

(** [str.lower] identifies exactly the characters that are the same
    letter: checked on all pairs of characters. *)
Lemma lower_char_same_letter (c d : ascii) :
  lower_char c = lower_char d ↔ same_letter c d.
Proof.
  assert (Hall : forallb (λ c, forallb (λ d,
            bool_decide (lower_char c = lower_char d ↔ same_letter c d))
            all_ascii) all_ascii = true) by (vm_compute; reflexivity).
  rewrite forallb_forall in Hall. specialize (Hall c (in_all_ascii c)).
  rewrite forallb_forall in Hall. specialize (Hall d (in_all_ascii d)).
  apply bool_decide_eq_true in Hall. exact Hall.
Qed.

Lemma map_lower_char_same_letter (word stretch : list ascii) :
  map lower_char word = word →
  map lower_char stretch = word ↔ Forall2 same_letter stretch word.
Proof.
  revert stretch. induction word as [|d word IH]; intros stretch Hword.
  - destruct stretch; cbn; split; intros H; try constructor; try discriminate;
      inversion H.
  - cbn in Hword. injection Hword as Hd Hword.
    destruct stretch as [|c stretch]; cbn.
    + split; intros H; [discriminate | inversion H].
    + split.
      * intros H. injection H as Hc Hrest. constructor.
        { apply lower_char_same_letter. congruence. }
        { apply IH; assumption. }
      * intros H. inversion H as [|? ? ? ? Hcd Hrest]; subst. f_equal.
        { apply lower_char_same_letter in Hcd. congruence. }
        { apply IH; assumption. }
Qed.

(** [word in text.lower()], for a lower-case [word], is the occurrence of
    [word] in [text] when case is ignored. *)
Lemma py_in_lower_spec (word text : string) :
  map lower_char (chars word) = chars word →
  py_in word (py_lower text) = true ↔ occurs_ignoring_case word text.
Proof.
  intros Hword. unfold py_in, py_lower, occurs_ignoring_case.
  rewrite chars_str_of, is_infix_b_spec. split.
  - intros (pre & post & Hmap).
    apply map_eq_app in Hmap as (before & rest & Htext & _ & Hrest).
    apply map_eq_app in Hrest as (stretch & after & Hrest & Hstretch & _).
    exists before, stretch, after. split; [congruence|].
    apply map_lower_char_same_letter; assumption.
  - intros (before & stretch & after & Htext & Hmatch).
    apply map_lower_char_same_letter in Hmatch; [|assumption].
    exists (map lower_char before), (map lower_char after).
    rewrite Htext, !map_app, Hmatch. reflexivity.
Qed.

Lemma py_slice_to_spec (n : nat) (s : string) :
  (length (chars (py_slice_to n s)) ≤ n)%nat
  ∧ chars (py_slice_to n s) `prefix_of` chars s
  ∧ ((length (chars s) ≤ n)%nat → py_slice_to n s = s).
Proof.
  unfold py_slice_to. rewrite chars_str_of. split; [|split].
  - rewrite length_take. lia.
  - apply prefix_take.
  - intros Hlen. rewrite take_ge by exact Hlen. apply str_of_chars.
Qed.

(** ** benchmark_runner.py: the hooks *)

Section bench_facts.
Context {W : Type} `{!OS W}.

Lemma elapsed_since_start_returns (r : BenchmarkRunner.t) (w : W)
    (files : gmap string pyval) (env : gmap string string) :
  ∃ (d : Q) (w' : W),
    BenchmarkRunner.elapsed_since_start (BenchmarkRunner.mkState r w files env) =
    (inr d, BenchmarkRunner.mkState r w' files env).
Proof.
  unfold BenchmarkRunner.elapsed_since_start. rewrite bind_eq. cbn [gets BenchmarkRunner.self].
  destruct (BenchmarkRunner._tool_start_time r) as [start|]; [|by eexists _, _].
  destruct (Qeq_bool start 0); [by eexists _, _|].
  rewrite bind_eq. unfold BenchmarkRunner.in_world, time_time. cbn [BenchmarkRunner.world].
  destruct (os_time w) as [now w']. by eexists _, _.
Qed.

(** What [_post_tool_hook] does to a runner that is collecting a trace. *)
Lemma post_tool_hook_eq (input_data : HookInput) (r : BenchmarkRunner.t) (w : W)
    (files : gmap string pyval) (env : gmap string string) (tr : AgentTrace.t) :
  BenchmarkRunner._current_trace r = Some tr →
  ∃ (d : Q) (now : string) (w' : W),
    BenchmarkRunner._post_tool_hook input_data (BenchmarkRunner.mkState r w files env) =
    (inr tt,
     BenchmarkRunner.mkState
       (BenchmarkRunner.set_current_trace
          (Some (AgentTrace.set_total_tool_calls (AgentTrace.total_tool_calls tr + 1)
                   (AgentTrace.set_tool_calls
                      (AgentTrace.tool_calls tr ++
                       [ToolCall.mk (hook_tool_name input_data) (hook_tool_input input_data)
                          (Some (py_slice_to 5000 (hook_tool_response input_data)))
                          (py_round2 d) now
                          (negb (py_in "error" (py_lower (hook_tool_response input_data))))
                          None])
                      tr)))
          r)
       w' files env).
Proof.
  intros Hcur. unfold BenchmarkRunner._post_tool_hook. rewrite bind_eq.
  destruct (elapsed_since_start_returns r w files env) as (d & w1 & ->).
  rewrite bind_eq. cbn [gets BenchmarkRunner.self]. rewrite Hcur.
  rewrite bind_eq. unfold BenchmarkRunner.in_world at 1, now_isoformat.
  cbn [BenchmarkRunner.world].
  destruct (os_now_isoformat w1) as [now w2].
  exists d, now, w2.
  unfold BenchmarkRunner.update_trace, BenchmarkRunner.set_self.
  rewrite !bind_eq. cbn. rewrite Hcur. cbn. reflexivity.
Qed.
End bench_facts.



(** ** benchmark_runner.py: the final output *)

Lemma first_text_serialized (content : list ContentBlock) :
  BenchmarkRunner.first_text (concat (map BenchmarkRunner.serialize_block content)) =
  inr (py_slice_to 2000 <$> first_text_block content).
Proof.
  induction content as [|[text|name input|] rest IH]; [reflexivity|reflexivity| |exact IH].
  cbn [map concat BenchmarkRunner.serialize_block app BenchmarkRunner.first_text
       first_text_block].
  replace (BenchmarkRunner.get_eq_str _ "type" "text") with false by reflexivity.
  exact IH.
Qed.

Lemma scan_messages_serialized (reversed_messages : list SdkMessage) :
  BenchmarkRunner.scan_messages (map BenchmarkRunner._serialize_message reversed_messages) =
  inr (first_text_of_latest reversed_messages).
Proof.
  induction reversed_messages as [|[content|text|text] rest IH]; [reflexivity| | |].
  - cbn [map BenchmarkRunner._serialize_message BenchmarkRunner.scan_messages
         first_text_of_latest].
    replace (BenchmarkRunner.get_eq_str _ "role" "assistant") with true by reflexivity.
    replace (dict_get _ "content" (PList []))
      with (PList (concat (map BenchmarkRunner.serialize_block content))) by reflexivity.
    cbn [BenchmarkRunner.blocks_of rbind]. rewrite first_text_serialized.
    destruct (first_text_block content); [reflexivity | exact IH].
  - cbn [map BenchmarkRunner._serialize_message BenchmarkRunner.scan_messages
         first_text_of_latest].
    replace (BenchmarkRunner.get_eq_str _ "role" "assistant") with false by reflexivity.
    exact IH.
  - cbn [map BenchmarkRunner._serialize_message BenchmarkRunner.scan_messages
         first_text_of_latest].
    replace (BenchmarkRunner.get_eq_str _ "role" "assistant") with false by reflexivity.
    exact IH.
Qed.

Lemma map_reverse_list {A B : Type} (f : A → B) (l : list A) :
  map f (reverse l) = reverse (map f l).
Proof.
  induction l as [|x l IH]; [reflexivity|].
  cbn [map]. rewrite !reverse_cons, map_app, IH. reflexivity.
Qed.

(** On the messages that [run_task] has serialized, [_extract_final_output]
    does not raise, and returns the first text block of the most recent
    assistant message that has one. *)
Lemma extract_final_output_serialized (messages : list SdkMessage) :
  BenchmarkRunner._extract_final_output (map BenchmarkRunner._serialize_message messages) =
  inr (first_text_of_latest (reverse messages)).
Proof.
  unfold BenchmarkRunner._extract_final_output.
  rewrite <- map_reverse_list. apply scan_messages_serialized.
Qed.

(** C8 (the code at the failing input).  For an assistant message with
    two text blocks, [_extract_final_output] returns the first block of the
    message, while the most recent assistant text block is the second. *)
Theorem extract_final_output_first_block_wins :
  BenchmarkRunner._extract_final_output two_text_blocks = inr "Let me check the build."
  ∧ most_recent_assistant_text two_text_blocks = "Done: the kernel boots.".
Proof. split; vm_compute; reflexivity. Qed.

(** ** benchmark_runner.py: a run that raises *)

Section run_task_facts.
Context {W : Type} `{!OS W}.

Local Abbreviation State := (BenchmarkRunner.State W).

Lemma kept_refl (st : State) : kept st st.
Proof. repeat split. eauto. Qed.

Lemma kept_trans (st1 st2 st3 : State) : kept st1 st2 → kept st2 st3 → kept st1 st3.
Proof.
  intros (Hf1 & Hd1 & Ht1) (Hf2 & Hd2 & Ht2). split; [congruence|]. split; [congruence|].
  intros tr Htr. destruct (Ht1 tr Htr) as (tr' & Htr' & Hid & Herr).
  destruct (Ht2 tr' Htr') as (tr'' & Htr'' & Hid' & Herr').
  exists tr''. repeat split; congruence.
Qed.

Lemma keeps_ret {A} (a : A) : keeps (W := W) (ret a).
Proof. intros st x st' [= <- <-]. apply kept_refl. Qed.

Lemma keeps_raise {A} (e : PyExc) : keeps (W := W) (A := A) (raise e).
Proof. intros st x st' [= <- <-]. apply kept_refl. Qed.

Lemma keeps_gets {A} (f : State → A) : keeps (gets f).
Proof. intros st x st' [= <- <-]. apply kept_refl. Qed.

Lemma keeps_lift_res {A} (r : Res A) : keeps (W := W) (lift_res r).
Proof. intros st x st' [= <- <-]. apply kept_refl. Qed.

Lemma keeps_bind {A B} (m : M State A) (k : A → M State B) :
  keeps m → (∀ a, keeps (k a)) → keeps (bind m k).
Proof.
  intros Hm Hk st x st' Hrun. rewrite bind_eq in Hrun.
  destruct (m st) as [[e|a] st1] eqn:Hmst.
  - injection Hrun as <- <-. eapply Hm, Hmst.
  - eapply kept_trans; [eapply Hm, Hmst | eapply Hk, Hrun].
Qed.

Lemma keeps_in_world {A} (m : M W A) : keeps (BenchmarkRunner.in_world m).
Proof.
  intros [r w files env] x st'. unfold BenchmarkRunner.in_world.
  cbn [BenchmarkRunner.world BenchmarkRunner.self BenchmarkRunner.trace_files
       BenchmarkRunner.environ].
  destruct (m w) as [y w']. intros [= <- <-]. repeat split. eauto.
Qed.

Lemma keeps_set_tool_start_time (x : option Q) :
  keeps (W := W) (BenchmarkRunner.set_self (BenchmarkRunner.set_tool_start_time x)).
Proof. intros [r w files env] y st' [= <- <-]. repeat split. cbn. eauto. Qed.

Lemma keeps_update_trace (f : AgentTrace.t → AgentTrace.t) :
  (∀ tr, AgentTrace.trace_id (f tr) = AgentTrace.trace_id tr) →
  (∀ tr, AgentTrace.errors (f tr) = AgentTrace.errors tr) →
  keeps (W := W) (BenchmarkRunner.update_trace f).
Proof.
  intros Hid Herr [r w files env] y st'. unfold BenchmarkRunner.update_trace.
  rewrite bind_eq. cbn [gets BenchmarkRunner.self].
  destruct (BenchmarkRunner._current_trace r) as [tr|] eqn:Hcur.
  - intros [= <- <-]. repeat split. cbn. intros tr0 Htr0.
    rewrite Hcur in Htr0. injection Htr0 as <-. eauto.
  - intros [= <- <-]. apply kept_refl.
Qed.

Lemma keeps_set_environ (k v : string) :
  keeps (W := W)
    (modify (λ st, BenchmarkRunner.mkState (BenchmarkRunner.self st)
                     (BenchmarkRunner.world st) (BenchmarkRunner.trace_files st)
                     (<[k := v]> (BenchmarkRunner.environ st)))).
Proof. intros [r w files env] y st' [= <- <-]. repeat split. cbn. eauto. Qed.

Lemma keeps_pre_tool_hook (input_data : HookInput) :
  keeps (W := W) (BenchmarkRunner._pre_tool_hook input_data).
Proof.
  apply keeps_bind; [apply keeps_in_world|]. intros now. apply keeps_set_tool_start_time.
Qed.

Lemma keeps_elapsed_since_start : keeps (W := W) BenchmarkRunner.elapsed_since_start.
Proof.
  apply keeps_bind; [apply keeps_gets|]. intros r.
  destruct (BenchmarkRunner._tool_start_time r) as [start|]; [|apply keeps_ret].
  destruct (Qeq_bool start 0); [apply keeps_ret|].
  apply keeps_bind; [apply keeps_in_world|]. intros now. apply keeps_ret.
Qed.

Lemma keeps_post_tool_hook (input_data : HookInput) :
  keeps (W := W) (BenchmarkRunner._post_tool_hook input_data).
Proof.
  apply keeps_bind; [apply keeps_elapsed_since_start|]. intros d.
  apply keeps_bind; [apply keeps_gets|]. intros r.
  destruct (BenchmarkRunner._current_trace r) as [tr|]; [|apply keeps_ret].
  apply keeps_bind; [apply keeps_in_world|]. intros now.
  apply keeps_bind; [|intros _]; apply keeps_update_trace; reflexivity.
Qed.

Lemma keeps_consume (evs : list AgentEvent) :
  ∀ messages, keeps (W := W) (BenchmarkRunner.consume evs messages).
Proof.
  induction evs as [|[input_data|input_data|message] rest IH]; intros messages;
    cbn [BenchmarkRunner.consume].
  - apply keeps_ret.
  - apply keeps_bind; [apply keeps_pre_tool_hook | intros _; apply IH].
  - apply keeps_bind; [apply keeps_post_tool_hook | intros _; apply IH].
  - apply IH.
Qed.

Lemma keeps_run_body (agent : AgentRun) : keeps (W := W) (BenchmarkRunner.run_body agent).
Proof.
  apply keeps_bind; [apply keeps_gets|]. intros r.
  apply keeps_bind.
  { destruct (truthy_str (BenchmarkRunner.api_key r));
      [apply keeps_set_environ | apply keeps_ret]. }
  intros _. apply keeps_bind; [apply keeps_consume|]. intros messages.
  apply keeps_bind.
  { destruct (raises agent); [apply keeps_raise | apply keeps_ret]. }
  intros _. apply keeps_bind; [apply keeps_update_trace; reflexivity|]. intros _.
  apply keeps_bind; [apply keeps_update_trace; reflexivity|]. intros _.
  apply keeps_bind; [apply keeps_lift_res|]. intros final.
  apply keeps_update_trace; reflexivity.
Qed.

(** The head of [run_task] returns, with a fresh trace in place. *)
Lemma begin_trace_eq (task_id prompt : string) (st : State) :
  ∃ (stamp timestamp : string) (start_time : Q) (w' : W),
    BenchmarkRunner.begin_trace task_id prompt st =
    (inr (task_id +:+ "-" +:+ stamp, start_time),
     BenchmarkRunner.mkState
       (BenchmarkRunner.set_current_trace
          (Some (AgentTrace.new (task_id +:+ "-" +:+ stamp) task_id prompt
                   (BenchmarkRunner.model (BenchmarkRunner.self st)) timestamp))
          (BenchmarkRunner.self st))
       w' (BenchmarkRunner.trace_files st) (BenchmarkRunner.environ st)).
Proof.
  destruct st as [r w files env].
  unfold BenchmarkRunner.begin_trace, BenchmarkRunner.in_world, now_strftime,
    now_isoformat, time_time, BenchmarkRunner.set_self.
  rewrite bind_eq. cbn [BenchmarkRunner.world BenchmarkRunner.self
    BenchmarkRunner.trace_files BenchmarkRunner.environ].
  destruct (os_now_strftime "%Y%m%d-%H%M%S" w) as [stamp w1].
  rewrite bind_eq. cbn [gets BenchmarkRunner.self]. rewrite bind_eq.
  cbn [BenchmarkRunner.world BenchmarkRunner.self
    BenchmarkRunner.trace_files BenchmarkRunner.environ].
  destruct (os_now_isoformat w1) as [timestamp w2].
  rewrite bind_eq. cbn [modify]. rewrite bind_eq.
  cbn [BenchmarkRunner.world BenchmarkRunner.self
    BenchmarkRunner.trace_files BenchmarkRunner.environ].
  destruct (os_time w2) as [start_time w3].
  exists stamp, timestamp, start_time, w3. reflexivity.
Qed.

Lemma update_trace_eq (f : AgentTrace.t → AgentTrace.t) (r : BenchmarkRunner.t) (w : W)
    (files : gmap string pyval) (env : gmap string string) (tr : AgentTrace.t) :
  BenchmarkRunner._current_trace r = Some tr →
  BenchmarkRunner.update_trace f (BenchmarkRunner.mkState r w files env) =
  (inr tt,
   BenchmarkRunner.mkState (BenchmarkRunner.set_current_trace (Some (f tr)) r) w files env).
Proof.
  intros Hcur. unfold BenchmarkRunner.update_trace. rewrite bind_eq.
  cbn [gets BenchmarkRunner.self]. rewrite Hcur. reflexivity.
Qed.

Lemma in_world_eq {A} (m : M W A) (r : BenchmarkRunner.t) (w : W)
    (files : gmap string pyval) (env : gmap string string) :
  BenchmarkRunner.in_world m (BenchmarkRunner.mkState r w files env) =
  (fst (m w), BenchmarkRunner.mkState r (snd (m w)) files env).
Proof.
  unfold BenchmarkRunner.in_world.
  cbn [BenchmarkRunner.self BenchmarkRunner.world BenchmarkRunner.trace_files
       BenchmarkRunner.environ].
  destruct (m w); reflexivity.
Qed.

(** The [except] clause, on a runner that is collecting a trace. *)
Lemma on_exception_eq (e : PyExc) (r : BenchmarkRunner.t) (w : W)
    (files : gmap string pyval) (env : gmap string string) (tr : AgentTrace.t) :
  BenchmarkRunner._current_trace r = Some tr →
  ∃ (now : string) (w' : W),
    BenchmarkRunner.on_exception e (BenchmarkRunner.mkState r w files env) =
    (inr tt,
     BenchmarkRunner.mkState
       (BenchmarkRunner.set_current_trace
          (Some (AgentTrace.set_errors
                   (AgentTrace.errors tr ++ [TraceError.mk (exc_type e) (exc_msg e) now])
                   (AgentTrace.set_success false tr)))
          r)
       w' files env).
Proof.
  intros Hcur. unfold BenchmarkRunner.on_exception.
  rewrite bind_eq, (update_trace_eq _ _ _ _ _ tr Hcur).
  rewrite bind_eq, in_world_eq. unfold now_isoformat.
  destruct (os_now_isoformat w) as [now w']. cbn [fst snd].
  exists now, w'.
  rewrite (update_trace_eq _ _ _ _ _ (AgentTrace.set_success false tr)) by reflexivity.
  reflexivity.
Qed.

(** The [finally] clause, on a runner that is collecting a trace. *)
Lemma stamp_duration_eq (start_time : Q) (r : BenchmarkRunner.t) (w : W)
    (files : gmap string pyval) (env : gmap string string) (tr : AgentTrace.t) :
  BenchmarkRunner._current_trace r = Some tr →
  ∃ (d : Q) (w' : W),
    BenchmarkRunner.stamp_duration start_time (BenchmarkRunner.mkState r w files env) =
    (inr tt,
     BenchmarkRunner.mkState
       (BenchmarkRunner.set_current_trace
          (Some (AgentTrace.set_total_duration_seconds d tr)) r)
       w' files env).
Proof.
  intros Hcur. unfold BenchmarkRunner.stamp_duration.
  rewrite bind_eq, in_world_eq. unfold time_time.
  destruct (os_time w) as [now w']. cbn [fst snd].
  eexists _, w'. rewrite (update_trace_eq _ _ _ _ _ tr Hcur). reflexivity.
Qed.
End run_task_facts.



(* ================================================================== *)
(** * Further properties *)
(* ================================================================== *)

(** ** runner.py: what the checks keep *)

Section check_invariants.
Context {W : Type} `{!OS W}.
Variable config : RunnerConfig.

Lemma header_kept_ret {A} (a : A) : header_kept (W := W) (ret a).
Proof. intros r r' w w' x [= <- <- <-]. auto. Qed.

Lemma header_kept_raise {A} (e : PyExc) : header_kept (W := W) (A := A) (raise e).
Proof. intros r r' w w' x [= <- <- <-]. auto. Qed.

Lemma header_kept_lift_res {A} (res : Res A) : header_kept (W := W) (lift_res res).
Proof. intros r r' w w' x [= <- <- <-]. auto. Qed.

Lemma header_kept_in_world {A} (m : M W A) : header_kept (TaskRunner.in_world m).
Proof.
  intros r r' w w' x. unfold TaskRunner.in_world.
  destruct (m w) as [y w1]. intros [= <- <- <-]. auto.
Qed.

Lemma header_kept_set_passed (b : bool) :
  header_kept (W := W) (TaskRunner.set_result (VResult.set_passed b)).
Proof. intros r r' w w' x [= <- <- <-]. auto. Qed.

Lemma header_kept_set_details (d : string) :
  header_kept (W := W) (TaskRunner.set_result (VResult.set_details d)).
Proof. intros r r' w w' x [= <- <- <-]. auto. Qed.

Lemma header_kept_bind {A B} (m : M (VResult.t * W) A) (k : A → M (VResult.t * W) B) :
  header_kept m → (∀ a, header_kept (k a)) → header_kept (bind m k).
Proof.
  intros Hm Hk r r' w w' x Hrun. rewrite bind_eq in Hrun.
  destruct (m (r, w)) as [[e|a] [r1 w1]] eqn:Hmst.
  - injection Hrun as <- <- <-. eapply Hm, Hmst.
  - destruct (Hm _ _ _ _ _ Hmst) as (Ht & Hd & He).
    destruct (Hk a _ _ _ _ _ Hrun) as (Ht' & Hd' & He').
    repeat split; congruence.
Qed.

Lemma header_kept_try_timeout {A} (body handler : M (VResult.t * W) A) :
  header_kept body → header_kept handler →
  header_kept (TaskRunner.try_except_TimeoutExpired body handler).
Proof.
  intros Hb Hh r r' w w' x. unfold TaskRunner.try_except_TimeoutExpired.
  destruct (body (r, w)) as [[e|a] [r1 w1]] eqn:Hbody.
  - destruct (bool_decide (exc_type e = "TimeoutExpired")).
    + intros Hrun. destruct (Hb _ _ _ _ _ Hbody) as (Ht & Hd & He).
      destruct (Hh _ _ _ _ _ Hrun) as (Ht' & Hd' & He'). repeat split; congruence.
    + intros [= <- <- <-]. eapply Hb, Hbody.
  - intros [= <- <- <-]. eapply Hb, Hbody.
Qed.

Ltac header_step :=
  first
    [ apply header_kept_ret | apply header_kept_raise | apply header_kept_lift_res
    | apply header_kept_in_world | apply header_kept_set_passed
    | apply header_kept_set_details
    | apply header_kept_bind; [|intros ?]
    | apply header_kept_try_timeout ].

Lemma header_kept_verify_files (step : VerificationStep.t) (container_id : string) :
  header_kept (W := W) (TaskRunner._verify_files step container_id).
Proof.
  unfold TaskRunner._verify_files. repeat header_step.
  destruct a; repeat header_step.
Qed.

Lemma header_kept_verify_size (step : VerificationStep.t) (container_id : string) :
  header_kept (W := W) (TaskRunner._verify_size step container_id).
Proof.
  unfold TaskRunner._verify_size.
  induction (VerificationStep.expected_files step) as [|f rest IH];
    cbn [TaskRunner.verify_size_of]; repeat header_step.
  destruct a as [size_bytes|]; [|repeat header_step].
  repeat header_step.
  destruct (TaskRunner.below_min _ _); [repeat header_step|].
  destruct (TaskRunner.above_max _ _); [repeat header_step|exact IH].
Qed.

Lemma header_kept_verify_command (step : VerificationStep.t) (container_id : string) :
  header_kept (W := W) (TaskRunner._verify_command config step container_id).
Proof.
  unfold TaskRunner._verify_command. repeat header_step.
  destruct (truthy_str _); repeat header_step.
Qed.

Lemma header_kept_verify_boot (step : VerificationStep.t) (container_id : string) :
  header_kept (W := W) (TaskRunner._verify_boot config step container_id).
Proof.
  unfold TaskRunner._verify_boot.
  destruct (negb (qemu_enabled config)); repeat header_step.
  destruct (_ && _); repeat header_step.
Qed.

Lemma header_kept_verify_checksum (step : VerificationStep.t) (container_id : string) :
  header_kept (W := W) (TaskRunner._verify_checksum step container_id).
Proof.
  unfold TaskRunner._verify_checksum.
  induction (VerificationStep.expected_files step) as [|f rest IH];
    cbn [TaskRunner.verify_checksum_of]; repeat header_step.
  destruct (negb _); repeat header_step.
  destruct (_ && _); [repeat header_step|exact IH].
Qed.

Lemma header_kept_dispatch (step : VerificationStep.t) (container_id : string) :
  header_kept (W := W) (TaskRunner.dispatch config step container_id).
Proof.
  unfold TaskRunner.dispatch. destruct (VerificationStep.type step).
  - apply header_kept_verify_boot.
  - apply header_kept_verify_files.
  - apply header_kept_verify_checksum.
  - apply header_kept_verify_command.
  - apply header_kept_verify_size.
Qed.
End check_invariants.

(** X1.  Whatever the step, the container and the machine, the dict that
    [run_verification] returns carries the step's type value and
    description; its [error] is [None] exactly when the check returned
    without raising, and a dict with an [error] never has
    [passed = True]. *)
Theorem run_verification_header {W : Type} `{!OS W} (config : RunnerConfig)
    (step : VerificationStep.t) (container_id : string) (w : W) :
  ∃ (r : VResult.t) (w' : W),
    TaskRunner.run_verification config step container_id w = (inr r, w')
    ∧ VResult.type r = VerificationType_.value (VerificationStep.type step)
    ∧ VResult.description r = VerificationStep.description step
    ∧ (VResult.error r = None ↔
       ∃ st, TaskRunner.dispatch config step container_id
               (TaskRunner.fresh_result step, snd (os_time w)) = (inr tt, st))
    ∧ (VResult.passed r = true → VResult.error r = None).
Proof.
  rewrite run_verification_eq. destruct (os_time w) as [t0 w1]. cbn [snd].
  destruct (TaskRunner.dispatch config step container_id (TaskRunner.fresh_result step, w1))
    as [[e|[]] [r1 w2]] eqn:Hcheck;
    destruct (header_kept_dispatch config step container_id _ _ _ _ _ Hcheck)
      as (Hty & Hdescr & Herr);
    destruct (os_time w2) as [t1 w3]; eexists _, _; (split; [reflexivity|]); cbn.
  - repeat split; try assumption; try discriminate.
    intros [st Hst]. discriminate Hst.
  - repeat split; try assumption; eauto.
Qed.

(** ** runner.py: the file check *)

Section file_check.
Context {W : Type} `{!OS W}.

Lemma missing_among_local (files : list string) :
  ∀ (missing : list string) (w : W),
    Forall (λ f, ∃ found : bool, os_path_exists f w = inr found) files →
    TaskRunner.missing_among "local" files missing w =
    (inr (missing ++ missing_files_of files w), w).
Proof.
  induction files as [|f rest IH]; intros missing w Hfiles.
  - cbn. rewrite app_nil_r. reflexivity.
  - apply Forall_cons in Hfiles as [[found Hf] Hrest].
    cbn [TaskRunner.missing_among]. rewrite bind_eq.
    unfold TaskRunner.file_exists. change (TaskRunner.is_local "local") with true.
    cbv iota. unfold path_exists. rewrite Hf, (IH _ _ Hrest).
    unfold missing_files_of. cbn [List.filter]. rewrite Hf.
    destruct found; [reflexivity|].
    rewrite <- app_assoc. reflexivity.
Qed.

Lemma missing_among_local_raises (pre : list string) (f : string) (rest : list string)
    (e : PyExc) :
  ∀ (missing : list string) (w : W),
    Forall (λ f, ∃ found : bool, os_path_exists f w = inr found) pre →
    os_path_exists f w = inl e →
    TaskRunner.missing_among "local" (pre ++ f :: rest) missing w = (inl e, w).
Proof.
  induction pre as [|p pre IH]; intros missing w Hpre Hf.
  - cbn [app TaskRunner.missing_among]. rewrite bind_eq.
    unfold TaskRunner.file_exists. change (TaskRunner.is_local "local") with true.
    cbv iota. unfold path_exists. rewrite Hf. reflexivity.
  - apply Forall_cons in Hpre as [[found Hp] Hpre].
    cbn [app TaskRunner.missing_among]. rewrite bind_eq.
    unfold TaskRunner.file_exists. change (TaskRunner.is_local "local") with true.
    cbv iota. unfold path_exists. rewrite Hp. apply IH; assumption.
Qed.

Lemma missing_files_of_nil (files : list string) (w : W) :
  Forall (λ f, ∃ found : bool, os_path_exists f w = inr found) files →
  missing_files_of files w = [] ↔ Forall (λ f, os_path_exists f w = inr true) files.
Proof.
  unfold missing_files_of. induction 1 as [|f rest [found Hf] _ IH]; cbn [List.filter].
  - split; [constructor | reflexivity].
  - rewrite Hf. destruct found.
    + rewrite IH. split; [by constructor | by inversion 1].
    + split; [discriminate | inversion 1; congruence].
Qed.
End file_check.

(** X2.  A FILE_CHECK against the local machine, the machine being left as
    it is (only the clock is read).  When the lookups of the files return,
    the check passes exactly when every path of [expected_files] exists;
    otherwise [details] lists the missing paths in list order; [error]
    stays [None].  When a lookup raises (as [Path.exists] does for a name
    that is too long), the outcome is a failure with the message of the
    exception in [error] and with empty [details], whatever the files
    looked up before it. *)
Theorem file_check_local {W : Type} `{!OS W} (config : RunnerConfig)
    (step : VerificationStep.t) (w : W) :
  VerificationStep.type step = FILE_CHECK →
  let w1 := snd (os_time w) in
  let files := VerificationStep.expected_files step in
  (Forall (λ f, ∃ found : bool, os_path_exists f w1 = inr found) files →
   ∃ (r : VResult.t),
     TaskRunner.run_verification config step "local" w = (inr r, snd (os_time w1))
     ∧ (VResult.passed r = true ↔ Forall (λ f, os_path_exists f w1 = inr true) files)
     ∧ VResult.error r = None
     ∧ VResult.details r =
         match missing_files_of files w1 with
         | [] => "All " +:+ py_str_int (Z.of_nat (length files)) +:+ " files found"
         | missing => "Missing files: " +:+ py_repr_list missing
         end)
  ∧ (∀ (pre : list string) (f : string) (rest : list string) (e : PyExc),
       files = pre ++ f :: rest →
       Forall (λ f, ∃ found : bool, os_path_exists f w1 = inr found) pre →
       os_path_exists f w1 = inl e →
       ∃ (r : VResult.t),
         TaskRunner.run_verification config step "local" w = (inr r, snd (os_time w1))
         ∧ VResult.passed r = false
         ∧ VResult.error r = Some (exc_msg e)
         ∧ VResult.details r = "").
Proof.
  intros Hty. cbn zeta. rewrite run_verification_eq.
  destruct (os_time w) as [t0 w1]. cbn [snd].
  unfold TaskRunner.dispatch. rewrite Hty.
  unfold TaskRunner._verify_files. rewrite bind_eq.
  unfold TaskRunner.in_world. split.
  - intros Hfiles. rewrite (missing_among_local _ _ _ Hfiles). cbn [app].
    pose proof (missing_files_of_nil (VerificationStep.expected_files step) w1 Hfiles)
      as Hnil.
    destruct (missing_files_of (VerificationStep.expected_files step) w1)
      as [|m ms] eqn:Hmiss;
      cbn; destruct (os_time w1) as [t1 w2]; eexists; (split; [reflexivity|]); cbn.
    + split; [|auto]. split; [intros _; apply Hnil; reflexivity | reflexivity].
    + split; [|auto]. split; [discriminate|]. intros Hall. apply Hnil in Hall. discriminate.
  - intros pre f rest e -> Hpre Hf.
    rewrite (missing_among_local_raises pre f rest e [] w1 Hpre Hf).
    destruct (os_time w1) as [t1 w2]. eexists. split; [reflexivity|]. cbn. auto.
Qed.

Lemma file_check_local_witness :
  ∃ (r : VResult.t),
    TaskRunner.run_verification default_config
      (example_step FILE_CHECK None ["out/bzImage"; "out/missing"] None None 300)
      "local" example_machine = (inr r, example_machine)
    ∧ VResult.passed r = false
    ∧ VResult.details r = "Missing files: ['out/missing']".
Proof.
  destruct (file_check_local default_config
              (example_step FILE_CHECK None ["out/bzImage"; "out/missing"] None None 300)
              example_machine eq_refl) as [Hreturns _].
  destruct Hreturns as (r & Hrun & Hpassed & _ & Hdetails).
  { repeat constructor; eexists; reflexivity. }
  exists r. split; [exact Hrun|]. split; [|exact Hdetails].
  destruct (VResult.passed r); [|reflexivity].
  destruct Hpassed as [Hall _]. specialize (Hall eq_refl).
  inversion Hall as [|? ? _ Hrest]. inversion Hrest as [|? ? Hmissing _].
  vm_compute in Hmissing. discriminate Hmissing.
Defined.

(** ** runner.py: steps without files, boot tests, commands *)

(** X3.  A FILE_CHECK, SIZE_CHECK or CHECKSUM step whose [expected_files]
    is empty passes, on any container and machine, without probing
    anything: the machine is left as it is (only the clock is read). *)
Theorem no_expected_files_passes {W : Type} `{!OS W} (config : RunnerConfig)
    (step : VerificationStep.t) (container_id : string) (w : W) :
  VerificationStep.expected_files step = [] →
  VerificationStep.type step = FILE_CHECK
  ∨ VerificationStep.type step = SIZE_CHECK
  ∨ VerificationStep.type step = CHECKSUM →
  ∃ (r : VResult.t),
    TaskRunner.run_verification config step container_id w
      = (inr r, snd (os_time (snd (os_time w))))
    ∧ VResult.passed r = true
    ∧ VResult.error r = None.
Proof.
  intros Hfiles Hty. rewrite run_verification_eq.
  destruct (os_time w) as [t0 w1]. cbn [snd].
  unfold TaskRunner.dispatch, TaskRunner._verify_files, TaskRunner._verify_size,
    TaskRunner._verify_checksum.
  rewrite Hfiles.
  destruct Hty as [-> | [-> | ->]]; cbn; destruct (os_time w1) as [t1 w2];
    eexists; (split; [reflexivity|]); cbn; auto.
Qed.

Lemma no_expected_files_passes_witness :
  ∃ (r : VResult.t),
    TaskRunner.run_verification default_config
      (example_step CHECKSUM None [] None None 300) "c0ffee" example_machine
      = (inr r, example_machine)
    ∧ VResult.passed r = true
    ∧ VResult.error r = None.
Proof.
  destruct (no_expected_files_passes default_config
              (example_step CHECKSUM None [] None None 300) "c0ffee" example_machine
              eq_refl (or_intror (or_intror eq_refl))) as (r & Hrun & Hrest).
  exists r. split; [exact Hrun | exact Hrest].
Defined.

(** X4.  With [qemu_enabled = False] a BOOT_TEST step passes, whatever its
    command and expected output, with the details "QEMU verification
    disabled"; no process is started (only the clock is read). *)
Theorem boot_test_skipped_passes {W : Type} `{!OS W} (config : RunnerConfig)
    (step : VerificationStep.t) (container_id : string) (w : W) :
  VerificationStep.type step = BOOT_TEST →
  qemu_enabled config = false →
  ∃ (r : VResult.t),
    TaskRunner.run_verification config step container_id w
      = (inr r, snd (os_time (snd (os_time w))))
    ∧ VResult.passed r = true
    ∧ VResult.details r = "QEMU verification disabled"
    ∧ VResult.error r = None.
Proof.
  intros Hty Hqemu. rewrite run_verification_eq.
  destruct (os_time w) as [t0 w1]. cbn [snd].
  unfold TaskRunner.dispatch, TaskRunner._verify_boot. rewrite Hty, Hqemu.
  cbn. destruct (os_time w1) as [t1 w2]. eexists. split; [reflexivity|]. cbn. auto.
Qed.

Lemma boot_test_skipped_passes_witness :
  ∃ (r : VResult.t),
    TaskRunner.run_verification
      (mkRunnerConfig false false "/tmp/w" 1 true true "/tmp/w/logs")
      (example_step BOOT_TEST None [] None None 60) "local" example_machine
      = (inr r, example_machine)
    ∧ VResult.passed r = true
    ∧ VResult.details r = "QEMU verification disabled"
    ∧ VResult.error r = None.
Proof.
  destruct (boot_test_skipped_passes
              (mkRunnerConfig false false "/tmp/w" 1 true true "/tmp/w/logs")
              (example_step BOOT_TEST None [] None None 60) "local" example_machine
              eq_refl eq_refl) as (r & Hrun & Hrest).
  exists r. split; [exact Hrun | exact Hrest].
Defined.

Lemma scaled_timeout_raises (config : RunnerConfig) (step : VerificationStep.t)
    (e : PyExc) :
  TaskRunner.scaled_timeout config step = inl e → exc_type e = "OverflowError".
Proof.
  unfold TaskRunner.scaled_timeout, float_of_int.
  destruct (float_finite (round_double (inject_Z (VerificationStep.timeout_seconds step))));
    cbn [rbind]; [|by intros [= <-]].
  destruct (float_finite _); [discriminate | by intros [= <-]].
Qed.

(** X5.  When the command of a BOOT_TEST runs into its timeout (QEMU
    enabled), the step fails with the details "Boot timed out after Ns", N
    being the timeout that [int(step.timeout_seconds *
    self.config.timeout_multiplier)] gave, and with no [error]: the timeout
    is handled inside the check. *)
Theorem boot_test_timeout {W : Type} `{!OS W} (config : RunnerConfig)
    (step : VerificationStep.t) (container_id : string) (w w2 : W) (e : PyExc) :
  VerificationStep.type step = BOOT_TEST →
  qemu_enabled config = true →
  TaskRunner.run_step_command step container_id (TaskRunner.scaled_timeout config step)
    (snd (os_time w)) = (inl e, w2) →
  exc_type e = "TimeoutExpired" →
  ∃ (r : VResult.t) (timeout : Z),
    TaskRunner.scaled_timeout config step = inr timeout
    ∧ TaskRunner.run_verification config step container_id w = (inr r, snd (os_time w2))
    ∧ VResult.passed r = false
    ∧ VResult.details r = "Boot timed out after " +:+ py_str_int timeout +:+ "s"
    ∧ VResult.error r = None.
Proof.
  intros Hty Hqemu Hcall Hexc. rewrite run_verification_eq.
  destruct (os_time w) as [t0 w1]. cbn [snd] in *.
  destruct (TaskRunner.scaled_timeout config step) as [e0|timeout] eqn:Htimeout.
  { unfold TaskRunner.run_step_command in Hcall. rewrite bind_eq in Hcall.
    injection Hcall as <- _. apply scaled_timeout_raises in Htimeout. congruence. }
  unfold TaskRunner.dispatch, TaskRunner._verify_boot. rewrite Hty, Hqemu. cbn [negb].
  rewrite bind_eq, Htimeout. unfold lift_res at 1.
  unfold TaskRunner.try_except_TimeoutExpired. rewrite bind_eq.
  unfold TaskRunner.in_world. rewrite Hcall, Hexc.
  rewrite (bool_decide_eq_true_2 _ (eq_refl "TimeoutExpired")).
  cbn. destruct (os_time w2) as [t1 w3]. eexists _, timeout.
  split; [reflexivity|]. split; [reflexivity|]. cbn. auto.
Qed.

Lemma boot_test_timeout_witness :
  ∃ (r : VResult.t) (w' : Machine),
    TaskRunner.run_verification
      (mkRunnerConfig true true "/tmp/w" (7 # 10) true true "/tmp/w/logs")
      (example_step BOOT_TEST (Some "sleep 10") [] None None 10) "local" example_machine
      = (inr r, w')
    ∧ VResult.passed r = false
    ∧ VResult.details r = "Boot timed out after 7s"
    ∧ VResult.error r = None.
Proof.
  edestruct (boot_test_timeout
               (mkRunnerConfig true true "/tmp/w" (7 # 10) true true "/tmp/w/logs")
               (example_step BOOT_TEST (Some "sleep 10") [] None None 10)
               "local" example_machine) as (r & timeout & Htimeout & Hrun & Hpassed & Hrest);
    [reflexivity | reflexivity | vm_compute; reflexivity | reflexivity |].
  vm_compute in Htimeout. injection Htimeout as <-.
  exists r. eexists. split; [exact Hrun|]. split; [exact Hpassed | exact Hrest].
Defined.

(** X6.  With QEMU enabled, a BOOT_TEST step whose [expected_output] is
    [None] or empty never passes, whatever the command prints, returns or
    raises. *)
Theorem boot_test_needs_expected_output {W : Type} `{!OS W} (config : RunnerConfig)
    (step : VerificationStep.t) (container_id : string) (w : W) :
  VerificationStep.type step = BOOT_TEST →
  qemu_enabled config = true →
  VerificationStep.expected_output step = None
  ∨ VerificationStep.expected_output step = Some "" →
  ∃ (r : VResult.t) (w' : W),
    TaskRunner.run_verification config step container_id w = (inr r, w')
    ∧ VResult.passed r = false.
Proof.
  intros Hty Hqemu Hexp. rewrite run_verification_eq.
  destruct (os_time w) as [t0 w1].
  unfold TaskRunner.dispatch, TaskRunner._verify_boot. rewrite Hty, Hqemu. cbn [negb].
  assert (Hfalsy : truthy_str (VerificationStep.expected_output step) = false)
    by (destruct Hexp as [-> | ->]; reflexivity).
  rewrite Hfalsy. cbn [andb]. rewrite bind_eq. unfold lift_res at 1.
  destruct (TaskRunner.scaled_timeout config step) as [e0|timeout].
  { destruct (os_time w1) as [t1 w3]. eexists _, _. split; reflexivity. }
  unfold TaskRunner.try_except_TimeoutExpired. rewrite bind_eq.
  unfold TaskRunner.in_world.
  destruct (TaskRunner.run_step_command step container_id (inr timeout) w1) as [[e|cp] w2].
  - destruct (bool_decide (exc_type e = "TimeoutExpired")); cbn;
      destruct (os_time w2) as [t1 w3]; eexists _, _; (split; [reflexivity|]);
      reflexivity.
  - cbn. destruct (os_time w2) as [t1 w3]. eexists _, _. split; reflexivity.
Qed.

Lemma boot_test_needs_expected_output_witness :
  ∃ (r : VResult.t) (w' : Machine),
    TaskRunner.run_verification default_config
      (example_step BOOT_TEST (Some "echo hi") [] None None 60) "local" example_machine
      = (inr r, w')
    ∧ VResult.passed r = false.
Proof.
  apply (boot_test_needs_expected_output default_config
           (example_step BOOT_TEST (Some "echo hi") [] None None 60) "local"
           example_machine); [reflexivity | reflexivity | left; reflexivity].
Defined.

(** X7.  When the command of a COMMAND_OUTPUT step completes: with a
    non-empty [expected_output] the step passes exactly when that text
    occurs in stdout followed by stderr, whatever the exit status; with no
    [expected_output] it passes exactly when the exit status is 0.  In both
    cases [error] stays [None]. *)
Theorem command_output_completed {W : Type} `{!OS W} (config : RunnerConfig)
    (step : VerificationStep.t) (container_id : string) (w w2 : W)
    (cmd_result : CompletedProcess) :
  VerificationStep.type step = COMMAND_OUTPUT →
  TaskRunner.run_step_command step container_id (TaskRunner.scaled_timeout config step)
    (snd (os_time w)) = (inr cmd_result, w2) →
  ∃ (r : VResult.t),
    TaskRunner.run_verification config step container_id w = (inr r, snd (os_time w2))
    ∧ VResult.error r = None
    ∧ (∀ expected,
         VerificationStep.expected_output step = Some expected → expected ≠ "" →
         (VResult.passed r = true ↔
          ∃ before after,
            chars (stdout cmd_result +:+ stderr cmd_result)
            = before ++ chars expected ++ after))
    ∧ (VerificationStep.expected_output step = None
       ∨ VerificationStep.expected_output step = Some "" →
       (VResult.passed r = true ↔ returncode cmd_result = 0)
       ∧ VResult.details r = "Command returned " +:+ py_str_int (returncode cmd_result)).
Proof.
  intros Hty Hcall. rewrite run_verification_eq.
  destruct (os_time w) as [t0 w1]. cbn [snd] in *.
  unfold TaskRunner.dispatch, TaskRunner._verify_command. rewrite Hty, bind_eq.
  unfold TaskRunner.in_world. rewrite Hcall.
  destruct (truthy_str (VerificationStep.expected_output step)) eqn:Htruthy;
    cbn; destruct (os_time w2) as [t1 w3]; eexists; (split; [reflexivity|]); cbn;
    (split; [reflexivity|]).
  - split.
    + intros expected Hexp _. rewrite Hexp. cbn [default from_option id].
      unfold py_in. apply is_infix_b_spec.
    + intros [Hexp | Hexp]; rewrite Hexp in Htruthy; discriminate Htruthy.
  - split.
    + intros expected Hexp Hne. rewrite Hexp in Htruthy. cbn in Htruthy.
      apply negb_false_iff, bool_decide_eq_true in Htruthy. contradiction.
    + intros _. split; [apply Z.eqb_eq | reflexivity].
Qed.

Lemma command_output_completed_witness :
  ∃ (r : VResult.t) (w' : Machine),
    TaskRunner.run_verification default_config
      (VerificationStep.mk COMMAND_OUTPUT "example" (Some "echo hi") (Some "hi")
         [] None None 5)
      "local" example_machine = (inr r, w')
    ∧ VResult.passed r = true.
Proof.
  edestruct (command_output_completed default_config
               (VerificationStep.mk COMMAND_OUTPUT "example" (Some "echo hi") (Some "hi")
                  [] None None 5)
               "local" example_machine) as (r & Hrun & _ & Hexpected & _);
    [reflexivity | vm_compute; reflexivity |].
  exists r. eexists. split; [exact Hrun|].
  apply (Hexpected "hi" eq_refl); [discriminate|].
  exists [], []. reflexivity.
Defined.

(** ** runner.py: size checks and checksums, completely *)

Section size_and_checksum.
Context {W : Type} `{!OS W}.

Lemma bound_and_false (bound : option Z) (test : Z → bool) (P : Z → Prop) :
  (∀ b, test b = false ↔ P b) →
  bound_and bound test = false ↔ ∀ b, bound = Some b → b ≠ 0 → P b.
Proof.
  intros Htest. destruct bound as [b|]; cbn.
  - destruct (Z.eqb_spec b 0) as [->|Hne]; cbn.
    + split; [intros _ ? [= <-] Hne; contradiction | reflexivity].
    + rewrite Htest. split; [intros HP ? [= <-] _; exact HP | eauto].
  - split; [discriminate | reflexivity].
Qed.

(** The two tests of the size loop, for any pair of bounds. *)
Lemma no_violation_in_size_bounds (step : VerificationStep.t) (size_mb : Q) :
  TaskRunner.below_min step size_mb = false ∧ TaskRunner.above_max step size_mb = false
  ↔ mb_in_bounds step size_mb.
Proof.
  unfold TaskRunner.below_min, TaskRunner.above_max, mb_in_bounds.
  rewrite (bound_and_false _ _ (λ b, (inject_Z b <= size_mb)%Q))
    by (intros b; apply Qlt_bool_false).
  rewrite (bound_and_false _ _ (λ b, (size_mb <= inject_Z b)%Q))
    by (intros b; apply Qlt_bool_false).
  reflexivity.
Qed.

(** When every file is within the bounds, the loop reaches its end. *)
Lemma verify_size_of_completes (step : VerificationStep.t) (container_id : string) :
  ∀ (files : list string) (r0 : VResult.t) (w w_end : W),
    sizes_within (in_size_bounds step) container_id files w w_end →
    TaskRunner.verify_size_of step container_id files (r0, w) =
    (inr tt, (VResult.set_details "Size constraints satisfied"
                (VResult.set_passed true r0), w_end)).
Proof.
  induction files as [|f rest IH]; intros r0 w w_end Hall.
  - cbn in Hall. subst w_end. reflexivity.
  - cbn [sizes_within] in Hall.
    destruct Hall as (sz & w1 & Hprobe & (size_mb & Hmb & Hin) & Hrest).
    apply no_violation_in_size_bounds in Hin as [Hlo Hhi].
    rewrite (verify_size_of_cons _ _ _ _ _ _ _ _ Hprobe), Hmb, Hlo, Hhi.
    apply IH, Hrest.
Qed.

(** What stops the size loop at a file that has no size. *)
Lemma verify_size_of_no_size (step : VerificationStep.t) (container_id : string) :
  ∀ (pre : list string) (f : string) (rest : list string) (r0 : VResult.t)
    (w w1 w2 : W) (probe : PyExc + option Z),
    sizes_within (in_size_bounds step) container_id pre w w1 →
    TaskRunner.size_probe container_id f w1 = (probe, w2) →
    (∀ size_bytes, probe ≠ inr (Some size_bytes)) →
    TaskRunner.verify_size_of step container_id (pre ++ f :: rest) (r0, w) =
    match probe with
    | inl e => (inl e, (r0, w2))
    | inr _ => (inr tt, (VResult.set_details ("File not found: " +:+ f) r0, w2))
    end.
Proof.
  induction pre as [|p pre IH]; intros f rest r0 w w1 w2 probe Hpre Hprobe Hnone.
  - cbn in Hpre. subst w1. cbn [app TaskRunner.verify_size_of].
    rewrite bind_eq, in_world_size_probe, Hprobe. cbn [fst snd].
    destruct probe as [e|[sz|]]; [reflexivity | | reflexivity].
    exfalso. eapply Hnone. reflexivity.
  - cbn [sizes_within] in Hpre.
    destruct Hpre as (sz & w' & Hp & (size_mb & Hmb & Hin) & Hpre).
    apply no_violation_in_size_bounds in Hin as [Hlo Hhi].
    cbn [app]. rewrite (verify_size_of_cons _ _ _ _ _ _ _ _ Hp), Hmb, Hlo, Hhi.
    eapply IH; eassumption.
Qed.

Lemma checksum_test_false (step : VerificationStep.t) (actual_hash : string) :
  truthy_str (VerificationStep.expected_output step)
  && negb (bool_decide (actual_hash = default "" (VerificationStep.expected_output step)))
  = false ↔ checksum_ok step actual_hash.
Proof.
  unfold checksum_ok. destruct (VerificationStep.expected_output step) as [e|]; cbn.
  - rewrite andb_false_iff, !negb_false_iff, !bool_decide_eq_true. split.
    + intros [He | Hh] expected [= <-] Hne; [contradiction | exact Hh].
    + intros Hok. destruct (decide (e = "")) as [He|Hne]; [left; exact He | right; eauto].
  - split; [discriminate | reflexivity].
Qed.

Lemma in_world_run (cmd : Cmd) (timeout : option Z) (r : VResult.t) (w : W) :
  TaskRunner.in_world (subprocess_run cmd timeout) (r, w) =
  match os_subprocess_run cmd timeout w with
  | (Completed rc out err, w') => (inr (mkCompletedProcess rc out err), (r, w'))
  | (TimedOut, w') => (inl (TimeoutExpired cmd timeout), (r, w'))
  | (Failed e, w') => (inl e, (r, w'))
  end.
Proof.
  unfold TaskRunner.in_world, subprocess_run.
  destruct (os_subprocess_run cmd timeout w) as [[rc out err| |e] w']; reflexivity.
Qed.

Lemma verify_checksum_of_passed (step : VerificationStep.t) (container_id : string) :
  ∀ (files : list string) (r0 r : VResult.t) (w w' : W),
    VResult.passed r0 = false →
    TaskRunner.verify_checksum_of step container_id files (r0, w) = (inr tt, (r, w')) →
    VResult.passed r = true →
    hashes_within (checksum_ok step) container_id files w w'.
Proof.
  induction files as [|f rest IH]; intros r0 r w w' Hr0 Hrun Hpassed.
  - cbn in Hrun. injection Hrun as _ Hw. cbn. congruence.
  - cbn [TaskRunner.verify_checksum_of] in Hrun. rewrite bind_eq in Hrun.
    change (if TaskRunner.is_local container_id then Argv ["sha256sum"; f]
            else Argv ["docker"; "exec"; container_id; "sha256sum"; f])
      with (sha256sum_of container_id f) in Hrun.
    rewrite in_world_run in Hrun.
    destruct (os_subprocess_run (sha256sum_of container_id f) None w)
      as [[rc out err| |e] w1] eqn:Hsha; try discriminate Hrun.
    cbn [returncode stdout] in Hrun.
    destruct (rc =? 0) eqn:Hrc; cbn [negb] in Hrun.
    2: { cbn in Hrun. injection Hrun as <- _. cbn in Hpassed. congruence. }
    apply Z.eqb_eq in Hrc. subst rc.
    rewrite bind_eq in Hrun. unfold lift_res in Hrun.
    destruct (py_split_first out) as [e|actual_hash] eqn:Hsplit; [discriminate Hrun|].
    destruct (truthy_str _ && _) eqn:Htest.
    { cbn in Hrun. injection Hrun as <- _. cbn in Hpassed. congruence. }
    cbn [hashes_within]. exists out, err, actual_hash, w1.
    split; [exact Hsha|]. split; [exact Hsplit|].
    split; [apply checksum_test_false, Htest|]. eapply IH; eassumption.
Qed.

Lemma verify_checksum_of_completes (step : VerificationStep.t) (container_id : string) :
  ∀ (files : list string) (r0 : VResult.t) (w w_end : W),
    hashes_within (checksum_ok step) container_id files w w_end →
    TaskRunner.verify_checksum_of step container_id files (r0, w) =
    (inr tt, (VResult.set_details "Checksum verified" (VResult.set_passed true r0), w_end)).
Proof.
  induction files as [|f rest IH]; intros r0 w w_end Hall.
  - cbn in Hall. subst w_end. reflexivity.
  - cbn [hashes_within] in Hall.
    destruct Hall as (out & err & actual_hash & w1 & Hsha & Hsplit & Hok & Hrest).
    cbn [TaskRunner.verify_checksum_of]. rewrite bind_eq.
    change (if TaskRunner.is_local container_id then Argv ["sha256sum"; f]
            else Argv ["docker"; "exec"; container_id; "sha256sum"; f])
      with (sha256sum_of container_id f).
    rewrite in_world_run, Hsha. cbn [returncode stdout Z.eqb negb].
    rewrite bind_eq. unfold lift_res. rewrite Hsplit.
    apply checksum_test_false in Hok. rewrite Hok. apply IH, Hrest.
Qed.
End size_and_checksum.

(** X8.  A SIZE_CHECK step passes exactly when every file of
    [expected_files], probed in list order, has a size, and the size in
    megabytes, the float [size_bytes / (1024 * 1024)], respects the bounds
    of the step that are in force (a bound that is [None] or [0] asks for
    nothing).  For a file of less than [2 ** 53] bytes that float is the
    size in megabytes itself. *)
Theorem size_check_passes_iff {W : Type} `{!OS W} (config : RunnerConfig)
    (step : VerificationStep.t) (container_id : string) (w : W) :
  VerificationStep.type step = SIZE_CHECK →
  (∃ (r : VResult.t) (w' : W),
     TaskRunner.run_verification config step container_id w = (inr r, w')
     ∧ (VResult.passed r = true ↔
        ∃ w_end,
          sizes_within (in_size_bounds step) container_id
            (VerificationStep.expected_files step) (snd (os_time w)) w_end))
  ∧ (∀ size_bytes : Z,
       0 ≤ size_bytes < 2 ^ 53 →
       in_size_bounds step size_bytes ↔ mb_in_bounds step (exact_mb size_bytes)).
Proof.
  intros Hty. split.
  - rewrite run_verification_eq.
    destruct (os_time w) as [t0 w1]. cbn [snd].
    unfold TaskRunner.dispatch. rewrite Hty. unfold TaskRunner._verify_size.
    destruct (TaskRunner.verify_size_of step container_id
                (VerificationStep.expected_files step) (TaskRunner.fresh_result step, w1))
      as [[e|[]] [r1 w2]] eqn:Hcheck;
      destruct (os_time w2) as [t1 w3]; eexists _, _; (split; [reflexivity|]); cbn.
    + split; [discriminate|]. intros [w_end Hall].
      rewrite (verify_size_of_completes step container_id _ _ _ _ Hall) in Hcheck.
      discriminate Hcheck.
    + split.
      * intros Hpassed. exists w2.
        eapply (verify_size_of_passed step container_id); [| |exact Hcheck|exact Hpassed].
        -- intros sz size_mb Hmb Hlo Hhi. exists size_mb. split; [exact Hmb|].
           apply no_violation_in_size_bounds. auto.
        -- reflexivity.
      * intros [w_end Hall].
        rewrite (verify_size_of_completes step container_id _ _ _ _ Hall) in Hcheck.
        injection Hcheck as <- _. reflexivity.
  - intros size_bytes Hsize.
    destruct (size_mb_of_exact size_bytes Hsize) as (size_mb & Hmb & Hexact).
    assert (Hsame : mb_in_bounds step size_mb ↔ mb_in_bounds step (exact_mb size_bytes)).
    { unfold mb_in_bounds. split; intros [Hlo Hhi]; split; intros b Hb Hne.
      - rewrite <- Hexact. by apply Hlo.
      - rewrite <- Hexact. by apply Hhi.
      - rewrite Hexact. by apply Hlo.
      - rewrite Hexact. by apply Hhi. }
    unfold in_size_bounds. rewrite <- Hsame. split.
    + intros (q & Hq & Hin). rewrite Hmb in Hq. by injection Hq as <-.
    + intros Hin. by exists size_mb.
Qed.

Lemma size_check_passes_iff_witness :
  ∃ (r : VResult.t) (w' : Machine),
    TaskRunner.run_verification default_config
      (example_step SIZE_CHECK None ["out/empty"; "out/bzImage"] (Some 10) None 300)
      "local" example_machine = (inr r, w')
    ∧ VResult.passed r = true.
Proof.
  destruct (size_check_passes_iff default_config
              (example_step SIZE_CHECK None ["out/empty"; "out/bzImage"] (Some 10) None 300)
              "local" example_machine eq_refl) as [(r & w' & Hrun & Hiff) _].
  exists r, w'. split; [exact Hrun|]. apply Hiff. exists example_machine.
  cbn [sizes_within VerificationStep.expected_files example_step].
  exists 0, example_machine. split; [vm_compute; reflexivity|]. split.
  { eexists. split; [vm_compute; reflexivity|].
    split; [discriminate|]. intros mx [= <-] _. vm_compute. discriminate. }
  exists 8388608, example_machine. split; [vm_compute; reflexivity|]. split.
  { eexists. split; [vm_compute; reflexivity|].
    split; [discriminate|]. intros mx [= <-] _. vm_compute. discriminate. }
  reflexivity.
Defined.

(** X9.  When the size of a file cannot be obtained (the files before it
    being in order), a SIZE_CHECK fails there and nothing after the file is
    probed.  If the probe raised, as [stat] does on the local machine for a
    missing file, the message is in [error] and [details] is empty; if the
    probe inside a container exited with a failure, [details] is "File not
    found: <path>" and [error] is [None].  The local probe never takes the
    second way. *)
Theorem size_check_unreadable_file {W : Type} `{!OS W} (config : RunnerConfig)
    (step : VerificationStep.t) (container_id : string)
    (pre : list string) (f : string) (rest : list string)
    (w w1 w2 : W) (probe : PyExc + option Z) :
  VerificationStep.type step = SIZE_CHECK →
  VerificationStep.expected_files step = pre ++ f :: rest →
  sizes_within (in_size_bounds step) container_id pre (snd (os_time w)) w1 →
  TaskRunner.size_probe container_id f w1 = (probe, w2) →
  (∀ size_bytes, probe ≠ inr (Some size_bytes)) →
  (∃ (r : VResult.t),
     TaskRunner.run_verification config step container_id w = (inr r, snd (os_time w2))
     ∧ VResult.passed r = false
     ∧ match probe with
       | inl e => VResult.details r = "" ∧ VResult.error r = Some (exc_msg e)
       | inr _ => VResult.details r = "File not found: " +:+ f ∧ VResult.error r = None
       end)
  ∧ (container_id = "local" → ∃ e, probe = inl e).
Proof.
  intros Hty Hfiles Hpre Hprobe Hnone. split.
  - rewrite run_verification_eq.
    destruct (os_time w) as [t0 w0]. cbn [snd] in Hpre.
    unfold TaskRunner.dispatch. rewrite Hty. unfold TaskRunner._verify_size.
    rewrite Hfiles.
    rewrite (verify_size_of_no_size step container_id pre f rest _ _ _ _ _
               Hpre Hprobe Hnone).
    destruct probe as [e|o]; destruct (os_time w2) as [t1 w3];
      eexists; (split; [reflexivity|]); cbn; auto.
  - intros ->. unfold TaskRunner.size_probe in Hprobe.
    change (TaskRunner.is_local "local") with true in Hprobe. cbv iota in Hprobe.
    rewrite bind_eq in Hprobe. unfold stat_st_size in Hprobe.
    destruct (os_stat_size f w1) as [e|sz].
    + injection Hprobe as <- _. eauto.
    + injection Hprobe as <- _. exfalso. eapply Hnone. reflexivity.
Qed.

Lemma size_check_unreadable_file_witness :
  ∃ (r : VResult.t),
    TaskRunner.run_verification default_config
      (bounded_size_step ["out/bzImage"; "out/missing"; "out/empty"])
      "local" example_machine = (inr r, example_machine)
    ∧ VResult.passed r = false
    ∧ VResult.details r = ""
    ∧ VResult.error r = Some "[Errno 2] No such file or directory: 'out/missing'".
Proof.
  edestruct (size_check_unreadable_file default_config
               (bounded_size_step ["out/bzImage"; "out/missing"; "out/empty"]) "local"
               ["out/bzImage"] "out/missing" ["out/empty"]
               example_machine example_machine example_machine)
    as [(r & Hrun & Hpassed & Hrest) _].
  - reflexivity.
  - reflexivity.
  - cbn [sizes_within]. exists 8388608, example_machine.
    split; [vm_compute; reflexivity|]. split; [|reflexivity].
    eexists. split; [vm_compute; reflexivity|].
    split; intros b [= <-] _; vm_compute; discriminate.
  - vm_compute. reflexivity.
  - discriminate.
  - exists r. split; [exact Hrun|]. split; [exact Hpassed | exact Hrest].
Defined.

(** X10.  A CHECKSUM step passes exactly when, for every file of
    [expected_files] in list order, [sha256sum] exits with 0, prints at
    least one word, and that word equals [expected_output] if a non-empty
    one is given; with no [expected_output] any digest is accepted. *)
Theorem checksum_passes_iff {W : Type} `{!OS W} (config : RunnerConfig)
    (step : VerificationStep.t) (container_id : string) (w : W) :
  VerificationStep.type step = CHECKSUM →
  ∃ (r : VResult.t) (w' : W),
    TaskRunner.run_verification config step container_id w = (inr r, w')
    ∧ (VResult.passed r = true ↔
       ∃ w_end,
         hashes_within (checksum_ok step) container_id
           (VerificationStep.expected_files step) (snd (os_time w)) w_end).
Proof.
  intros Hty. rewrite run_verification_eq.
  destruct (os_time w) as [t0 w1]. cbn [snd].
  unfold TaskRunner.dispatch. rewrite Hty. unfold TaskRunner._verify_checksum.
  destruct (TaskRunner.verify_checksum_of step container_id
              (VerificationStep.expected_files step) (TaskRunner.fresh_result step, w1))
    as [[e|[]] [r1 w2]] eqn:Hcheck;
    destruct (os_time w2) as [t1 w3]; eexists _, _; (split; [reflexivity|]); cbn.
  - split; [discriminate|]. intros [w_end Hall].
    rewrite (verify_checksum_of_completes step container_id _ _ _ _ Hall) in Hcheck.
    discriminate Hcheck.
  - split.
    + intros Hpassed. exists w2.
      eapply (verify_checksum_of_passed step container_id);
        [|exact Hcheck|exact Hpassed]. reflexivity.
    + intros [w_end Hall].
      rewrite (verify_checksum_of_completes step container_id _ _ _ _ Hall) in Hcheck.
      injection Hcheck as <- _. reflexivity.
Qed.

Lemma checksum_passes_iff_witness :
  ∃ (r : VResult.t) (w' : Machine),
    TaskRunner.run_verification default_config
      (example_step CHECKSUM None ["out/bzImage"] None None 300)
      "local" checksum_machine = (inr r, w')
    ∧ VResult.passed r = true.
Proof.
  destruct (checksum_passes_iff default_config
              (example_step CHECKSUM None ["out/bzImage"] None None 300)
              "local" checksum_machine eq_refl) as (r & w' & Hrun & Hiff).
  exists r, w'. split; [exact Hrun|]. apply Hiff. exists checksum_machine.
  cbn [hashes_within VerificationStep.expected_files example_step].
  eexists _, _, _, checksum_machine. split; [vm_compute; reflexivity|].
  split; [vm_compute; reflexivity|]. split; [|reflexivity].
  intros expected Hexp. discriminate Hexp.
Defined.

(** ** runner.py: more on the evaluation of a task *)

Section evaluate_more.
Context {W : Type} `{!OS W}.
Variable config : RunnerConfig.

Lemma forallb_passed_outcomes (rs : list VResult.t) :
  forallb VResult.passed rs = true ↔ passed_outcomes rs = length rs.
Proof.
  unfold passed_outcomes. induction rs as [|r rs IH]; [by cbn|].
  cbn [forallb]. rewrite filter_cons.
  pose proof (length_filter (λ r, VResult.passed r = true) rs) as Hle.
  destruct (VResult.passed r) eqn:Hp.
  - rewrite decide_True by reflexivity. cbn [andb length]. rewrite IH. lia.
  - rewrite decide_False by discriminate. cbn [andb length]. split; [discriminate | lia].
Qed.

(** With fewer than [2 ** 53] outcomes, the score is 1.0 only when all of
    them passed. *)
Lemma score_of_full (k n : nat) :
  (k ≤ n)%nat → (0 < n)%nat → Z.of_nat n ≤ 2 ^ 53 →
  (score_of k n == 1)%Q ↔ k = n.
Proof.
  intros Hkn Hn Hsmall. destruct n as [|n']; [lia|]. unfold score_of.
  assert (Hpos : (0 < inject_Z (Z.of_nat (S n')))%Q).
  { change 0%Q with (inject_Z 0). rewrite <- Zlt_Qlt. lia. }
  destruct (fraction_unit k (S n') Hkn Hn) as [H0 H1].
  split.
  - intros Hone. destruct (decide (k = S n')) as [Heq|Hne]; [exact Heq|]. exfalso.
    assert (Hbelow : (inject_Z (Z.of_nat k) / inject_Z (Z.of_nat (S n'))
                      <= 1 - pow2 (-53))%Q).
    { apply Qle_shift_div_r; [exact Hpos|].
      assert (H53 : (pow2 (-53) * inject_Z (Z.of_nat (S n')) <= 1)%Q).
      { change (pow2 (-53)) with (/ inject_Z (2 ^ 53))%Q.
        rewrite Qmult_comm. apply Qle_shift_div_r; [reflexivity|].
        rewrite Qmult_1_l, <- Zle_Qle. exact Hsmall. }
      assert (Hk : (inject_Z (Z.of_nat k) <= inject_Z (Z.of_nat (S n')) - 1)%Q).
      { change 1%Q with (inject_Z 1). unfold Qminus.
        rewrite <- inject_Z_opp, <- inject_Z_plus, <- Zle_Qle. lia. }
      lra. }
    pose proof (round_double_lt_1 _ H0 Hbelow) as Hlt. rewrite Hone in Hlt.
    by apply Qlt_irrefl in Hlt.
  - intros ->.
    assert (Hfull : (inject_Z (Z.of_nat (S n')) / inject_Z (Z.of_nat (S n')) == 1)%Q).
    { field. intros Habs. rewrite Habs in Hpos. by apply Qlt_irrefl in Hpos. }
    rewrite (round_double_exact _ 1 0); [exact Hfull | lia | lia |].
    rewrite Hfull. reflexivity.
Qed.
End evaluate_more.







(** ** runner.py: the registry and the environment *)

(** X14.  [get_task_by_id] returns the first task of the registry that has
    the id asked for, and [None] exactly when no task has it. *)
Theorem get_task_by_id_first (all_tasks : list Task.t) (task_id : string) :
  (get_task_by_id all_tasks task_id = None ↔
   Forall (λ t, Task.id t ≠ task_id) all_tasks)
  ∧ (∀ task,
       get_task_by_id all_tasks task_id = Some task ↔
       ∃ before after,
         all_tasks = before ++ task :: after
         ∧ Task.id task = task_id
         ∧ Forall (λ t, Task.id t ≠ task_id) before).
Proof.
  induction all_tasks as [|t rest [IHnone IHsome]]; cbn [get_task_by_id].
  - split; [split; [constructor | reflexivity]|].
    intros task. split; [discriminate|].
    intros (before & after & Heq & _). destruct before; discriminate Heq.
  - destruct (decide (Task.id t = task_id)) as [Hid|Hid].
    + rewrite bool_decide_eq_true_2 by exact Hid. split.
      * split; [discriminate|]. inversion 1; contradiction.
      * intros task. split.
        { intros [= <-]. exists [], rest. repeat split; [exact Hid | constructor]. }
        { intros (before & after & Heq & Htask & Hbefore).
          destruct before as [|b before].
          - cbn in Heq. congruence.
          - cbn in Heq. injection Heq as <- _. inversion Hbefore; contradiction. }
    + rewrite bool_decide_eq_false_2 by exact Hid. split.
      * rewrite IHnone. split; [by constructor | by inversion 1].
      * intros task. rewrite IHsome. split.
        { intros (before & after & -> & Htask & Hbefore).
          exists (t :: before), after. repeat split; [exact Htask | by constructor]. }
        { intros (before & after & Heq & Htask & Hbefore).
          destruct before as [|b before].
          - cbn in Heq. injection Heq as -> _. contradiction.
          - cbn in Heq. injection Heq as <- ->. exists before, after.
            repeat split; [exact Htask | by inversion Hbefore]. }
Qed.

(** X15.  In a registry whose ids are pairwise distinct, looking up the id
    of a registered task returns that very task. *)
Theorem get_task_by_id_registered (all_tasks : list Task.t) (task : Task.t) :
  NoDup (map Task.id all_tasks) →
  task ∈ all_tasks →
  get_task_by_id all_tasks (Task.id task) = Some task.
Proof.
  induction all_tasks as [|t rest IH]; intros Hnodup Hin; [by inversion Hin|].
  cbn [map] in Hnodup. apply NoDup_cons in Hnodup as [Hfresh Hnodup].
  cbn [get_task_by_id]. apply elem_of_cons in Hin as [->|Hin].
  - rewrite bool_decide_eq_true_2 by reflexivity. reflexivity.
  - rewrite bool_decide_eq_false_2; [apply IH; assumption|].
    intros Heq. apply Hfresh. rewrite Heq.
    apply list_elem_of_In, in_map, list_elem_of_In, Hin.
Qed.

Lemma get_task_by_id_registered_witness :
  get_task_by_id [example_task []; second_task] "second" = Some second_task.
Proof.
  apply (get_task_by_id_registered [example_task []; second_task] second_task).
  - exact (bool_decide_unpack
             (NoDup (map Task.id [example_task []; second_task])) I).
  - apply list_elem_of_further, list_elem_of_here.
Defined.

(** X16.  With Docker enabled, when the Dockerfile is written and
    [docker build] exits with a failure, [setup_environment] raises
    [RuntimeError] with the build's stderr in its message, and no container
    is started: the machine is left as the build left it. *)
Theorem setup_environment_build_failure {W : Type} `{!OS W} `{!OSProvision W}
    (config : RunnerConfig) (task : Task.t) (w w1 w2 : W)
    (written rc : Z) (out err : string) :
  docker_enabled config = true →
  os_write_text (dockerfile_path_of config task) (dockerfile_content task) w
    = (inr written, w1) →
  os_subprocess_run_in (work_dir config) (docker_build_cmd config task) w1
    = (Completed rc out err, w2) →
  rc ≠ 0 →
  setup_environment config task w =
  (inl (Exc "RuntimeError" ("Failed to build Docker image: " +:+ err)), w2).
Proof.
  intros Hdocker Hwrite Hbuild Hrc. unfold setup_environment. rewrite Hdocker.
  cbn [negb]. rewrite bind_eq. unfold write_text. rewrite Hwrite.
  rewrite bind_eq. unfold subprocess_run_in. rewrite Hbuild.
  cbn [returncode stderr]. apply Z.eqb_neq in Hrc. rewrite Hrc. reflexivity.
Qed.

Lemma setup_environment_build_failure_witness :
  ∃ w' : Machine,
    setup_environment default_config (example_task []) no_daemon_machine =
    (inl (Exc "RuntimeError"
            "Failed to build Docker image: Cannot connect to the Docker daemon"), w').
Proof.
  eexists.
  eapply (setup_environment_build_failure default_config (example_task [])
            no_daemon_machine).
  - reflexivity.
  - reflexivity.
  - vm_compute. reflexivity.
  - discriminate.
Defined.

(** ** task.py: reading a task from a dict *)

Lemma rbind_inr {A B} (r : Res A) (k : A → Res B) (b : B) :
  rbind r k = inr b → ∃ a, r = inr a ∧ k a = inr b.
Proof. destruct r as [e|a]; [discriminate | eauto]. Qed.

Ltac invert_rbinds H :=
  repeat (let a := fresh "v" in
          let Ha := fresh "Hv" in
          apply rbind_inr in H as (a & Ha & H)).

Lemma as_str_inv (v : pyval) (s : string) : as_str v = inr s → v = PStr s.
Proof. destruct v; cbn; unfold ill_typed; congruence. Qed.

Lemma as_int_inv (v : pyval) (n : Z) : as_int v = inr n → v = PInt n.
Proof. destruct v; cbn; unfold ill_typed; congruence. Qed.

Lemma as_str_list_inv (v : pyval) (l : list string) :
  as_str_list v = inr l → v = of_str_list l.
Proof.
  destruct v as [| | | | |vs|]; cbn; unfold ill_typed; try discriminate.
  unfold of_str_list.
  revert l. induction vs as [|x vs IH]; intros l; cbn.
  - intros [= <-]. reflexivity.
  - intros H. invert_rbinds H. injection H as <-. cbn [map].
    apply as_str_inv in Hv as ->. specialize (IH _ Hv0).
    injection IH as ->. reflexivity.
Qed.

Lemma dict_getitem_inv (d : gmap string pyval) (k : string) (v : pyval) :
  dict_getitem d k = inr v → d !! k = Some v.
Proof. unfold dict_getitem. destruct (d !! k); congruence. Qed.

Lemma dict_get_absent (d : gmap string pyval) (k : string) (default : pyval) :
  d !! k = None → dict_get d k default = default.
Proof. unfold dict_get. intros ->. reflexivity. Qed.

Lemma dict_get_present (d : gmap string pyval) (k : string) (default v : pyval) :
  d !! k = Some v → dict_get d k default = v.
Proof. unfold dict_get. intros ->. reflexivity. Qed.

Lemma Category_value_of_value (s : string) (c : Category) :
  Category_.of_value s = inr c → Category_.value c = s.
Proof.
  unfold Category_.of_value. repeat case_decide; intros [= <-]; subst; reflexivity.
Qed.

Lemma Difficulty_value_of_value (s : string) (d : Difficulty) :
  Difficulty_.of_value s = inr d → Difficulty_.value d = s.
Proof.
  unfold Difficulty_.of_value. repeat case_decide; intros [= <-]; subst; reflexivity.
Qed.

Lemma VerificationType_value_of_value (s : string) (ty : VerificationType) :
  VerificationType_.of_value s = inr ty → VerificationType_.value ty = s.
Proof.
  unfold VerificationType_.of_value. repeat case_decide; intros [= <-]; subst; reflexivity.
Qed.

(** X17.  For each of the three enumerations, [Enum(v)] returns the member
    [m] exactly when [m.value] is [v]; for any other string it raises
    [ValueError]. *)
Theorem enum_of_value_iff :
  (∀ s c, Category_.of_value s = inr c ↔ Category_.value c = s)
  ∧ (∀ s d, Difficulty_.of_value s = inr d ↔ Difficulty_.value d = s)
  ∧ (∀ s ty, VerificationType_.of_value s = inr ty ↔ VerificationType_.value ty = s)
  ∧ (∀ s, (∀ c, Category_.value c ≠ s) →
          ∃ msg, Category_.of_value s = inl (Exc "ValueError" msg))
  ∧ (∀ s, (∀ d, Difficulty_.value d ≠ s) →
          ∃ msg, Difficulty_.of_value s = inl (Exc "ValueError" msg))
  ∧ (∀ s, (∀ ty, VerificationType_.value ty ≠ s) →
          ∃ msg, VerificationType_.of_value s = inl (Exc "ValueError" msg)).
Proof.
  split; [|split; [|split; [|split; [|split]]]].
  - intros s c. split; [apply Category_value_of_value|].
    intros <-. apply Category_of_value_value.
  - intros s d. split; [apply Difficulty_value_of_value|].
    intros <-. apply Difficulty_of_value_value.
  - intros s ty. split; [apply VerificationType_value_of_value|].
    intros <-. apply VerificationType_of_value_value.
  - intros s Hnone. destruct (Category_.of_value s) as [e|c] eqn:Hof.
    + revert Hof. unfold Category_.of_value. repeat case_decide; try discriminate.
      intros [= <-]. eauto.
    + apply Category_value_of_value in Hof. destruct (Hnone c Hof).
  - intros s Hnone. destruct (Difficulty_.of_value s) as [e|d] eqn:Hof.
    + revert Hof. unfold Difficulty_.of_value. repeat case_decide; try discriminate.
      intros [= <-]. eauto.
    + apply Difficulty_value_of_value in Hof. destruct (Hnone d Hof).
  - intros s Hnone. destruct (VerificationType_.of_value s) as [e|ty] eqn:Hof.
    + revert Hof. unfold VerificationType_.of_value. repeat case_decide; try discriminate.
      intros [= <-]. eauto.
    + apply VerificationType_value_of_value in Hof. destruct (Hnone ty Hof).
Qed.

(** X18.  [Task.from_dict] never builds a task from a dict that lacks one
    of the keys "id", "name", "description", "category", "difficulty",
    "instructions", "expected_steps": it raises. *)
Theorem from_dict_requires_keys (data : gmap string pyval) (key : string) :
  key ∈ required_keys →
  data !! key = None →
  ∃ e, Task.from_dict data = inl e.
Proof.
  intros Hkey Hnone. destruct (Task.from_dict data) as [e|task] eqn:Hfrom; [eauto|].
  exfalso. unfold Task.from_dict in Hfrom. invert_rbinds Hfrom.
  repeat match goal with
         | H : dict_getitem _ _ = inr _ |- _ => apply dict_getitem_inv in H
         end.
  unfold required_keys in Hkey.
  repeat (apply elem_of_cons in Hkey as [->|Hkey]; [congruence|]).
  inversion Hkey.
Qed.

Lemma from_dict_requires_keys_witness :
  ∃ e, Task.from_dict (delete "category" minimal_task_dict) = inl e.
Proof.
  apply (from_dict_requires_keys (delete "category" minimal_task_dict) "category").
  - do 3 apply list_elem_of_further. apply list_elem_of_here.
  - reflexivity.
Defined.

(** X19.  When [Task.from_dict] builds a task, every optional key that the
    dict lacks is read as its default: empty lists, "ubuntu:22.04" for the
    base image, 20 GB of disk, 4 GB of RAM, a limit of 120 minutes and a
    build of 30, and no verification steps. *)
Theorem from_dict_defaults (data : gmap string pyval) (task : Task.t) :
  Task.from_dict data = inr task →
  (data !! "prerequisites" = None → Task.prerequisites task = [])
  ∧ (data !! "base_image" = None → Task.base_image task = "ubuntu:22.04")
  ∧ (data !! "required_packages" = None → Task.required_packages task = [])
  ∧ (data !! "required_disk_gb" = None → Task.required_disk_gb task = 20)
  ∧ (data !! "required_ram_gb" = None → Task.required_ram_gb task = 4)
  ∧ (data !! "verification_steps" = None → Task.verification_steps task = [])
  ∧ (data !! "success_artifacts" = None → Task.success_artifacts task = [])
  ∧ (data !! "time_limit_minutes" = None → Task.time_limit_minutes task = 120)
  ∧ (data !! "expected_build_minutes" = None → Task.expected_build_minutes task = 30)
  ∧ (data !! "tags" = None → Task.tags task = [])
  ∧ (data !! "reference_docs" = None → Task.reference_docs task = [])
  ∧ (data !! "common_failure_points" = None → Task.common_failure_points task = []).
Proof.
  intros Hfrom. unfold Task.from_dict in Hfrom. invert_rbinds Hfrom.
  injection Hfrom as <-.
  cbn [Task.prerequisites Task.base_image Task.required_packages Task.required_disk_gb
       Task.required_ram_gb Task.verification_steps Task.success_artifacts
       Task.time_limit_minutes Task.expected_build_minutes Task.tags
       Task.reference_docs Task.common_failure_points].
  repeat split; intros Habsent;
    repeat match goal with
           | H : context [dict_get data ?k _] |- _ =>
               rewrite (dict_get_absent data k _ Habsent) in H
           end; by simplify_eq/=.
Qed.

Lemma from_dict_defaults_witness :
  ∃ task,
    Task.from_dict minimal_task_dict = inr task
    ∧ Task.base_image task = "ubuntu:22.04"
    ∧ Task.required_disk_gb task = 20
    ∧ Task.time_limit_minutes task = 120
    ∧ Task.verification_steps task = [].
Proof.
  destruct (Task.from_dict minimal_task_dict) as [e|task] eqn:Hfrom;
    [vm_compute in Hfrom; discriminate Hfrom|].
  exists task. split; [reflexivity|].
  destruct (from_dict_defaults minimal_task_dict task Hfrom)
    as (_ & Himage & _ & Hdisk & _ & Hsteps & _ & Hlimit & _).
  split; [apply Himage; reflexivity|]. split; [apply Hdisk; reflexivity|].
  split; [apply Hlimit; reflexivity | apply Hsteps; reflexivity].
Defined.

(** X20.  When [Task.from_dict] builds a task from a dict, [to_dict] of
    that task gives back, under every key other than "verification_steps",
    the value that the dict held under it. *)
Theorem to_dict_from_dict_agrees (data : gmap string pyval) (task : Task.t)
    (key : string) (value : pyval) :
  Task.from_dict data = inr task →
  key ∈ flat_keys →
  data !! key = Some value →
  Task.to_dict task !! key = Some value.
Proof.
  intros Hfrom Hkey Hlook. unfold Task.from_dict in Hfrom. invert_rbinds Hfrom.
  injection Hfrom as <-.
  repeat match goal with
         | H : dict_getitem _ _ = inr _ |- _ => apply dict_getitem_inv in H
         end.
  unfold flat_keys, required_keys in Hkey. cbn [app] in Hkey.
  repeat (apply elem_of_cons in Hkey as [->|Hkey];
          [ try match goal with
                | H : context [dict_get data ?k _] |- _ =>
                    rewrite (dict_get_present data k _ value Hlook) in H
                end;
            repeat match goal with
                   | H : as_str _ = inr _ |- _ => apply as_str_inv in H
                   | H : as_int _ = inr _ |- _ => apply as_int_inv in H
                   | H : as_str_list _ = inr _ |- _ => apply as_str_list_inv in H
                   | H : Category_.of_value _ = inr _ |- _ =>
                       apply Category_value_of_value in H
                   | H : Difficulty_.of_value _ = inr _ |- _ =>
                       apply Difficulty_value_of_value in H
                   end;
            simplify_eq; reflexivity
          | ]).
  inversion Hkey.
Qed.

Lemma to_dict_from_dict_agrees_witness :
  ∃ task,
    Task.from_dict minimal_task_dict = inr task
    ∧ Task.to_dict task !! "difficulty" = Some (PStr "hard").
Proof.
  destruct (Task.from_dict minimal_task_dict) as [e|task] eqn:Hfrom;
    [vm_compute in Hfrom; discriminate Hfrom|].
  exists task. split; [reflexivity|].
  apply (to_dict_from_dict_agrees minimal_task_dict task "difficulty" (PStr "hard") Hfrom);
    [|reflexivity].
  do 4 apply list_elem_of_further. apply list_elem_of_here.
Defined.

(** ** benchmark_runner.py: the whole of a run *)

Section run_task_spec.
Context {W : Type} `{!OS W}.

Lemma with_calls_nil (tr : AgentTrace.t) : with_calls [] tr = tr.
Proof.
  destruct tr. unfold with_calls. cbn. rewrite Z.add_0_r, app_nil_r. reflexivity.
Qed.

Lemma with_calls_cons (c : ToolCall.t) (calls : list ToolCall.t) (tr : AgentTrace.t) :
  with_calls calls (with_calls [c] tr) = with_calls (c :: calls) tr.
Proof.
  destruct tr. unfold with_calls, AgentTrace.set_total_tool_calls,
    AgentTrace.set_tool_calls.
  cbn -[Z.of_nat Z.add]. rewrite <- app_assoc. cbn [app]. f_equal. lia.
Qed.

Lemma runner_eta (r : BenchmarkRunner.t) (tr : AgentTrace.t) :
  BenchmarkRunner._current_trace r = Some tr →
  r = BenchmarkRunner.mk (BenchmarkRunner.api_key r) (BenchmarkRunner.model r)
        (BenchmarkRunner.working_dir r) (BenchmarkRunner.trace_dir r) (Some tr)
        (BenchmarkRunner._tool_start_time r).
Proof. destruct r. cbn. intros ->. reflexivity. Qed.

(** The loop over the stream: the yielded messages are serialized in
    order, each [PostToolUse] adds one record, nothing else changes but the
    start time of the last tool and the machine. *)
Lemma consume_eq (evs : list AgentEvent) :
  ∀ (messages : list pyval) (r : BenchmarkRunner.t) (w : W)
    (files : gmap string pyval) (env : gmap string string) (tr : AgentTrace.t),
    BenchmarkRunner._current_trace r = Some tr →
    ∃ (calls : list ToolCall.t) (start : option Q) (w' : W),
      BenchmarkRunner.consume evs messages (BenchmarkRunner.mkState r w files env) =
      (inr (messages ++ map BenchmarkRunner._serialize_message (yielded evs)),
       BenchmarkRunner.mkState
         (BenchmarkRunner.mk (BenchmarkRunner.api_key r) (BenchmarkRunner.model r)
            (BenchmarkRunner.working_dir r) (BenchmarkRunner.trace_dir r)
            (Some (with_calls calls tr)) start)
         w' files env)
      ∧ Forall2 recorded calls (post_tool_inputs evs).
Proof.
  induction evs as [|[input_data|input_data|message] rest IH];
    intros messages r w files env tr Hcur; cbn [BenchmarkRunner.consume yielded
      post_tool_inputs map].
  - exists [], (BenchmarkRunner._tool_start_time r), w.
    rewrite with_calls_nil, app_nil_r, <- (runner_eta r tr Hcur).
    split; [reflexivity | constructor].
  - rewrite bind_eq. unfold BenchmarkRunner._pre_tool_hook. rewrite bind_eq, in_world_eq.
    unfold time_time. destruct (os_time w) as [now w1]. cbn [fst snd].
    unfold BenchmarkRunner.set_self, modify.
    cbn [BenchmarkRunner.self BenchmarkRunner.world BenchmarkRunner.trace_files
         BenchmarkRunner.environ].
    destruct (IH messages (BenchmarkRunner.set_tool_start_time (Some now) r) w1 files env tr
                Hcur) as (calls & start & w' & Hrun & Hrec).
    exists calls, start, w'. split; [exact Hrun | exact Hrec].
  - rewrite bind_eq.
    destruct (post_tool_hook_eq input_data r w files env tr Hcur) as (d & now & w1 & Hhook).
    rewrite Hhook.
    match type of Hhook with
    | _ = (_, BenchmarkRunner.mkState
                (BenchmarkRunner.set_current_trace (Some ?tr1) _) _ _ _) =>
        destruct (IH messages (BenchmarkRunner.set_current_trace (Some tr1) r) w1 files env
                    tr1 eq_refl) as (calls & start & w' & Hrun & Hrec);
        change tr1 with (with_calls
          [ToolCall.mk (hook_tool_name input_data) (hook_tool_input input_data)
             (Some (py_slice_to 5000 (hook_tool_response input_data)))
             (py_round2 d) now
             (negb (py_in "error" (py_lower (hook_tool_response input_data)))) None] tr)
          in Hrun
    end.
    rewrite with_calls_cons in Hrun.
    eexists _, start, w'. split; [exact Hrun|].
    constructor; [|exact Hrec]. repeat split.
  - destruct (IH (messages ++ [BenchmarkRunner._serialize_message message]) r w files env tr
                Hcur) as (calls & start & w' & Hrun & Hrec).
    exists calls, start, w'. rewrite Hrun, <- app_assoc. split; [reflexivity | exact Hrec].
Qed.
(** The body of the [try], on a runner that is collecting [tr]. *)
Lemma run_body_eq (agent : AgentRun) (r : BenchmarkRunner.t) (w : W)
    (files : gmap string pyval) (env : gmap string string) (tr : AgentTrace.t) :
  BenchmarkRunner._current_trace r = Some tr →
  ∃ (calls : list ToolCall.t) (start : option Q) (w' : W),
    Forall2 recorded calls (post_tool_inputs (events agent))
    ∧ BenchmarkRunner.run_body agent (BenchmarkRunner.mkState r w files env) =
      let env' := if truthy_str (BenchmarkRunner.api_key r)
                  then <["ANTHROPIC_API_KEY" := default "" (BenchmarkRunner.api_key r)]> env
                  else env in
      let state_with t :=
        BenchmarkRunner.mkState
          (BenchmarkRunner.mk (BenchmarkRunner.api_key r) (BenchmarkRunner.model r)
             (BenchmarkRunner.working_dir r) (BenchmarkRunner.trace_dir r) (Some t) start)
          w' files env' in
      let messages := map BenchmarkRunner._serialize_message (yielded (events agent)) in
      match raises agent with
      | Some e => (inl e, state_with (with_calls calls tr))
      | None =>
          (inr tt,
           state_with
             (AgentTrace.set_final_output
                (first_text_of_latest (reverse (yielded (events agent))))
                (AgentTrace.set_success true
                   (AgentTrace.set_messages messages (with_calls calls tr)))))
      end.
Proof.
  intros Hcur. unfold BenchmarkRunner.run_body. rewrite bind_eq.
  cbn [gets BenchmarkRunner.self]. rewrite bind_eq.
  set (env' := if truthy_str (BenchmarkRunner.api_key r)
               then <["ANTHROPIC_API_KEY" := default "" (BenchmarkRunner.api_key r)]> env
               else env).
  assert (Henv :
    (if truthy_str (BenchmarkRunner.api_key r)
     then modify (λ st : BenchmarkRunner.State W,
            BenchmarkRunner.mkState (BenchmarkRunner.self st) (BenchmarkRunner.world st)
              (BenchmarkRunner.trace_files st)
              (<["ANTHROPIC_API_KEY" := default "" (BenchmarkRunner.api_key r)]>
                 (BenchmarkRunner.environ st)))
     else ret tt) (BenchmarkRunner.mkState r w files env)
    = (inr tt, BenchmarkRunner.mkState r w files env')).
  { subst env'. destruct (truthy_str (BenchmarkRunner.api_key r)); reflexivity. }
  rewrite Henv, bind_eq.
  destruct (consume_eq (events agent) [] r w files env' tr Hcur)
    as (calls & start & w' & Hrun & Hrec).
  exists calls, start, w'. split; [exact Hrec|].
  rewrite Hrun. cbn [app]. cbn zeta. rewrite bind_eq.
  destruct (raises agent) as [e|]; [reflexivity|].
  change (ret tt ?s) with (@inr PyExc unit tt, s). cbn iota.
  rewrite bind_eq, (update_trace_eq _ _ _ _ _ (with_calls calls tr)) by reflexivity.
  rewrite bind_eq, (update_trace_eq _ _ _ _ _
    (AgentTrace.set_messages
       (map BenchmarkRunner._serialize_message (yielded (events agent)))
       (with_calls calls tr))) by reflexivity.
  rewrite bind_eq. unfold lift_res, BenchmarkRunner._extract_final_output.
  rewrite <- map_reverse_list, scan_messages_serialized.
  rewrite (update_trace_eq _ _ _ _ _
    (AgentTrace.set_success true
       (AgentTrace.set_messages
          (map BenchmarkRunner._serialize_message (yielded (events agent)))
          (with_calls calls tr)))) by reflexivity.
  reflexivity.
Qed.

(** [run_task], whatever the agent does. *)
Lemma run_task_eq (agent : AgentRun) (task_id prompt : string)
    (timeout_seconds max_turns : Z) (st : BenchmarkRunner.State W) :
  ∃ (calls : list ToolCall.t) (stamp timestamp now : string) (d : Q)
    (st' : BenchmarkRunner.State W),
    Forall2 recorded calls (post_tool_inputs (events agent))
    ∧ let tr :=
        final_trace_of agent
          (AgentTrace.new (task_id +:+ "-" +:+ stamp) task_id prompt
             (BenchmarkRunner.model (BenchmarkRunner.self st)) timestamp)
          calls now d in
      BenchmarkRunner.run_task agent task_id prompt timeout_seconds max_turns st
        = (inr tr, st')
      ∧ BenchmarkRunner._current_trace (BenchmarkRunner.self st') = Some tr
      ∧ BenchmarkRunner.trace_files st' =
          <[BenchmarkRunner.path_join
              (BenchmarkRunner.trace_dir (BenchmarkRunner.self st))
              ((task_id +:+ "-" +:+ stamp) +:+ ".json")
            := PDict (AgentTrace.to_dict tr)]> (BenchmarkRunner.trace_files st).
Proof.
  destruct (begin_trace_eq task_id prompt st) as (stamp & timestamp & start & w0 & Hbegin).
  set (tr0 := AgentTrace.new (task_id +:+ "-" +:+ stamp) task_id prompt
                (BenchmarkRunner.model (BenchmarkRunner.self st)) timestamp) in *.
  destruct (run_body_eq agent
              (BenchmarkRunner.set_current_trace (Some tr0) (BenchmarkRunner.self st))
              w0 (BenchmarkRunner.trace_files st) (BenchmarkRunner.environ st) tr0 eq_refl)
    as (calls & tool_start & w1 & Hrec & Hbody).
  cbn zeta in Hbody.
  cbn [BenchmarkRunner.set_current_trace BenchmarkRunner.api_key BenchmarkRunner.model
       BenchmarkRunner.working_dir BenchmarkRunner.trace_dir] in Hbody.
  unfold BenchmarkRunner.run_task. rewrite bind_eq, Hbegin. rewrite bind_eq.
  unfold try_finally, try_except. rewrite Hbody.
  unfold final_trace_of.
  destruct (raises agent) as [e|].
  - match type of Hbody with
    | _ = (_, BenchmarkRunner.mkState ?r1 _ ?f1 ?e1) =>
        destruct (on_exception_eq e r1 w1 f1 e1 (with_calls calls tr0) eq_refl)
          as (now & w2 & Hexc)
    end.
    rewrite Hexc.
    match type of Hexc with
    | _ = (_, BenchmarkRunner.mkState ?r2 _ ?f2 ?e2) =>
        match r2 with
        | BenchmarkRunner.set_current_trace (Some ?tr2) _ =>
            destruct (stamp_duration_eq start r2 w2 f2 e2 tr2 eq_refl)
              as (d & w3 & Hfin)
        end
    end.
    rewrite Hfin. exists calls, stamp, timestamp, now, d. eexists.
    split; [exact Hrec|]. cbn zeta.
    rewrite bind_eq. cbn [gets BenchmarkRunner.self BenchmarkRunner.set_current_trace
      BenchmarkRunner._current_trace BenchmarkRunner.trace_dir].
    rewrite bind_eq. unfold BenchmarkRunner.write_text, modify, ret.
    cbn [BenchmarkRunner.self BenchmarkRunner.world BenchmarkRunner.trace_files
         BenchmarkRunner.environ].
    split; [reflexivity|]. split; reflexivity.
  - match type of Hbody with
    | _ = (_, BenchmarkRunner.mkState ?r1 _ ?f1 ?e1) =>
        match r1 with
        | BenchmarkRunner.mk _ _ _ _ (Some ?tr1) _ =>
            destruct (stamp_duration_eq start r1 w1 f1 e1 tr1 eq_refl)
              as (d & w3 & Hfin)
        end
    end.
    rewrite Hfin. exists calls, stamp, timestamp, "", d. eexists.
    split; [exact Hrec|]. cbn zeta.
    rewrite bind_eq. cbn [gets BenchmarkRunner.self BenchmarkRunner.set_current_trace
      BenchmarkRunner._current_trace BenchmarkRunner.trace_dir].
    rewrite bind_eq. unfold BenchmarkRunner.write_text, modify, ret.
    cbn [BenchmarkRunner.self BenchmarkRunner.world BenchmarkRunner.trace_files
         BenchmarkRunner.environ].
    split; [reflexivity|]. split; reflexivity.
Qed.
End run_task_spec.







(** ** benchmark_runner.py: summaries and final output *)

Lemma chars_append (a b : string) : chars (a +:+ b) = chars a ++ chars b.
Proof.
  unfold chars. induction a as [|c a IH]; [reflexivity|].
  change (String c a +:+ b) with (String c (a +:+ b)).
  cbn [list_ascii_of_string app]. f_equal. exact IH.
Qed.

(** X25.  The summary that [_summarize_input] makes of a Bash command is
    the command itself when it has at most 80 characters, and otherwise its
    first 80 characters followed by three dots, so never more than 83
    characters; the summary of a tool other than Bash, Read, Write and Edit
    is a prefix of [str(tool_input)] of at most 60 characters. *)
Theorem summarize_input_short (tool_name : string) (tool_input : gmap string pyval)
    (input_str summary : string) :
  _summarize_input tool_name tool_input input_str = inr summary →
  (tool_name = "Bash" →
     ∃ cmd : string,
       dict_get tool_input "command" (PStr "") = PStr cmd
       ∧ (length (chars summary) ≤ 83)%nat
       ∧ ((length (chars cmd) ≤ 80)%nat → summary = cmd)
       ∧ ((80 < length (chars cmd))%nat →
          chars summary = take 80 (chars cmd) ++ chars "..."))
  ∧ (tool_name ∉ ["Bash"; "Read"; "Write"; "Edit"] →
     (length (chars summary) ≤ 60)%nat
     ∧ chars summary `prefix_of` chars input_str).
Proof.
  intros Hsummary. split.
  - intros ->. unfold _summarize_input in Hsummary.
    rewrite (bool_decide_eq_true_2 _ (eq_refl "Bash")) in Hsummary.
    destruct (as_str (dict_get tool_input "command" (PStr ""))) as [e|cmd] eqn:Hcmd;
      [discriminate|].
    apply as_str_inv in Hcmd. exists cmd. split; [exact Hcmd|].
    cbn [rbind] in Hsummary.
    destruct (bool_decide (80 < length (chars cmd))%nat) eqn:Hlong.
    + apply bool_decide_eq_true_1 in Hlong.
      assert (Hchars : chars summary = take 80 (chars cmd) ++ chars "...").
      { injection Hsummary as <-. rewrite chars_append. unfold py_slice_to.
        by rewrite chars_str_of. }
      split; [|split; [lia | intros _; exact Hchars]].
      rewrite Hchars, length_app, length_take.
      change (length (chars "...")) with 3%nat. lia.
    + apply bool_decide_eq_false_1 in Hlong. injection Hsummary as <-.
      split; [lia|]. split; [reflexivity | lia].
  - intros Hother. unfold _summarize_input in Hsummary.
    repeat match type of Hsummary with
    | context [bool_decide (tool_name = ?s)] =>
        destruct (bool_decide_reflect (tool_name = s)) as [->|_];
          [exfalso; apply Hother; set_solver|]
    end.
    injection Hsummary as <-.
    destruct (py_slice_to_spec 60 input_str) as (Hlen & Hprefix & _).
    split; [exact Hlen | exact Hprefix].
Qed.

Lemma summarize_input_short_witness :
  _summarize_input "Bash" {["command" := PStr long_command]} "" =
    inr (py_slice_to 80 long_command +:+ "...")
  ∧ (length (chars (py_slice_to 80 long_command +:+ "...")) ≤ 83)%nat.
Proof.
  assert (Hsummary : _summarize_input "Bash" {["command" := PStr long_command]} "" =
                     inr (py_slice_to 80 long_command +:+ "...")) by reflexivity.
  split; [exact Hsummary|].
  destruct (summarize_input_short _ _ _ _ Hsummary) as [HBash _].
  destruct (HBash eq_refl) as (cmd & _ & Hlen & _). exact Hlen.
Defined.

Lemma first_text_at_most (blocks : list pyval) (text : string) :
  BenchmarkRunner.first_text blocks = inr (Some text) →
  (length (chars text) ≤ 2000)%nat.
Proof.
  induction blocks as [|block rest IH]; [discriminate|].
  cbn [BenchmarkRunner.first_text].
  destruct block as [| | | | | |block]; try discriminate.
  destruct (BenchmarkRunner.get_eq_str block "type" "text"); [|exact IH].
  destruct (dict_get block "text" (PStr "")); try discriminate.
  intros [= <-]. apply py_slice_to_spec.
Qed.

Lemma scan_messages_at_most (reversed_messages : list pyval) (output : string) :
  BenchmarkRunner.scan_messages reversed_messages = inr output →
  (length (chars output) ≤ 2000)%nat.
Proof.
  induction reversed_messages as [|msg rest IH].
  - intros [= <-]. cbn. lia.
  - cbn [BenchmarkRunner.scan_messages].
    destruct msg as [| | | | | |msg]; try discriminate.
    destruct (BenchmarkRunner.get_eq_str msg "role" "assistant"); [|exact IH].
    destruct (BenchmarkRunner.blocks_of (dict_get msg "content" (PList [])))
      as [e|blocks]; [discriminate|].
    cbn [rbind].
    destruct (BenchmarkRunner.first_text blocks) as [e|[text|]] eqn:Hfirst;
      [discriminate| |exact IH].
    cbn [rbind]. intros [= <-]. exact (first_text_at_most _ _ Hfirst).
Qed.

(** X26.  [_extract_final_output] never returns more than 2000 characters,
    whatever the list of messages, and it returns the empty string when no
    message has the role "assistant". *)
Theorem extract_final_output_bounded (messages : list pyval) :
  (∀ output : string,
     BenchmarkRunner._extract_final_output messages = inr output →
     (length (chars output) ≤ 2000)%nat)
  ∧ (Forall (λ msg, ∃ m, msg = PDict m
                         ∧ BenchmarkRunner.get_eq_str m "role" "assistant" = false)
       messages →
     BenchmarkRunner._extract_final_output messages = inr "").
Proof.
  unfold BenchmarkRunner._extract_final_output. split.
  - intros output. apply scan_messages_at_most.
  - intros Hnone. apply Forall_reverse in Hnone.
    induction Hnone as [|msg rest (m & -> & Hrole) _ IH]; [reflexivity|].
    cbn [BenchmarkRunner.scan_messages]. rewrite Hrole. exact IH.
Qed.

(** ** benchmark_runner.py: [run_benchmark] and [run_all_benchmarks] *)

Lemma registry_get_None {A : Type} (name : string) (registry : list (string * A)) :
  registry_get name registry = None ↔ name ∉ map fst registry.
Proof.
  induction registry as [|[key value] rest IH]; cbn [registry_get map fst].
  - split; [intros _; apply not_elem_of_nil | reflexivity].
  - rewrite not_elem_of_cons. destruct (bool_decide_reflect (key = name)) as [->|Hne].
    + split; [discriminate | intros [Habs _]; by destruct Habs].
    + rewrite IH. split; [intros Hrest; split; [congruence | exact Hrest] | by intros [_ ?]].
Qed.

Lemma registry_get_NoDup {A : Type} (registry : list (string * A)) :
  NoDup (map fst registry) →
  Forall (λ item, registry_get item.1 registry = Some item.2) registry.
Proof.
  induction registry as [|[key value] rest IH]; [constructor|].
  cbn [map fst]. intros [Hfresh Hrest]%NoDup_cons. constructor.
  - cbn [registry_get fst snd]. by rewrite bool_decide_eq_true_2.
  - eapply Forall_impl; [exact (IH Hrest)|].
    intros [key' value'] Hget. cbn [registry_get fst snd] in *.
    destruct (bool_decide_reflect (key = key')) as [->|_]; [|exact Hget].
    exfalso. apply Hfresh. apply registry_get_None in Hfresh as Hnone.
    congruence.
Qed.

Section benchmarks_spec.
Context {W : Type} `{!OS W} `{!OSProcess W}.
Variable BENCHMARK_TASKS : list (string * gmap string pyval).
Variable query : string → W → AgentRun.
Hypothesis mkdir_traces : ∀ w : W, ∃ w' : W, os_mkdir "traces" w = (inr tt, w').
Hypothesis getcwd_returns : ∀ w : W, ∃ dir : string, os_getcwd w = inr dir.

Lemma BenchmarkRunner__init__eq (api_key working_dir : option string) (model : string)
    (p : Process W) :
  ∃ (r : BenchmarkRunner.t) (w' : W),
    BenchmarkRunner__init__ api_key model working_dir "traces" p =
      (inr r, mkProcess w' (p_trace_files p) (p_environ p))
    ∧ BenchmarkRunner.model r = model
    ∧ BenchmarkRunner.trace_dir r = "traces".
Proof.
  destruct p as [w files env].
  destruct (mkdir_traces w) as [w' Hmkdir].
  unfold BenchmarkRunner__init__. rewrite bind_eq. cbn [gets p_environ]. rewrite bind_eq.
  destruct (truthy_str working_dir).
  - cbn [ret]. unfold ret at 1. rewrite bind_eq. unfold in_process.
    cbn [p_world p_trace_files p_environ]. rewrite Hmkdir.
    eexists _, w'. split; [reflexivity|]. split; reflexivity.
  - unfold in_process at 1. cbn [p_world p_trace_files p_environ].
    destruct (getcwd_returns w) as [dir ->]. rewrite bind_eq. unfold in_process.
    cbn [p_world p_trace_files p_environ]. rewrite Hmkdir.
    eexists _, w'. split; [reflexivity|]. split; reflexivity.
Qed.

(** A registered, well-formed task gives a trace, whatever the agent
    does. *)
Lemma run_benchmark_known (task_name : string) (task : gmap string pyval)
    (task_id prompt : string) (api_key working_dir : option string) (p : Process W) :
  registry_get task_name BENCHMARK_TASKS = Some task →
  benchmark_entry task task_id prompt →
  ∃ (tr : AgentTrace.t) (p' : Process W) (path : string),
    run_benchmark BENCHMARK_TASKS query task_name api_key working_dir p = (inr tr, p')
    ∧ AgentTrace.task_id tr = task_id
    ∧ AgentTrace.task_prompt tr = prompt
    ∧ AgentTrace.model tr = default_model
    ∧ p_trace_files p' = <[path := PDict (AgentTrace.to_dict tr)]> (p_trace_files p).
Proof.
  intros Hget (Hid & Hprompt & timeout & Htimeout).
  unfold run_benchmark. rewrite Hget.
  destruct (BenchmarkRunner__init__eq api_key working_dir default_model p)
    as (r & w' & Hinit & Hmodel & Hdir).
  rewrite bind_eq, Hinit.
  unfold dict_getitem. rewrite Hid, Hprompt, Htimeout. cbn [rbind as_str as_int].
  rewrite bind_eq. unfold lift_res at 1. rewrite bind_eq. unfold lift_res at 1.
  rewrite bind_eq. unfold lift_res at 1. rewrite bind_eq. cbn [gets p_world].
  unfold with_runner. cbn [p_world p_trace_files p_environ].
  destruct (run_task_eq (query prompt w') task_id prompt timeout 50
              (BenchmarkRunner.mkState r w' (p_trace_files p) (p_environ p)))
    as (calls & stamp & timestamp & now & d & st' & _ & Hrun & _ & Hfiles).
  cbn zeta in Hrun, Hfiles. cbn [BenchmarkRunner.self] in Hrun, Hfiles.
  rewrite Hmodel in Hrun, Hfiles. rewrite Hrun.
  eexists _, _, _. split; [reflexivity|].
  cbn [p_trace_files]. rewrite Hfiles.
  unfold final_trace_of.
  destruct (raises (query prompt w')); (split; [reflexivity|]);
    (split; [reflexivity|]); (split; reflexivity).
Qed.

Lemma run_each_spec (items : list (string * gmap string pyval))
    (api_key working_dir : option string) :
  Forall (λ item, registry_get item.1 BENCHMARK_TASKS = Some item.2
                  ∧ ∃ task_id prompt, benchmark_entry item.2 task_id prompt) items →
  ∀ (results : list AgentTrace.t) (p : Process W),
    ∃ (traces : list AgentTrace.t) (p' : Process W),
      run_each BENCHMARK_TASKS query (map fst items) api_key working_dir results p =
        (inr (results ++ traces), p')
      ∧ Forall2 (λ tr item,
                   benchmark_entry item.2 (AgentTrace.task_id tr) (AgentTrace.task_prompt tr)
                   ∧ AgentTrace.model tr = default_model)
          traces items.
Proof.
  induction 1 as [|[name task] rest (Hget & task_id & prompt & Hentry) _ IH];
    intros results p.
  - exists [], p. rewrite app_nil_r. split; [reflexivity | constructor].
  - cbn [map fst run_each]. cbn [fst snd] in Hget, Hentry.
    destruct (run_benchmark_known name task task_id prompt api_key working_dir p
                Hget Hentry) as (tr & p1 & path & Hrun & Hid & Hprompt & Hmodel & _).
    rewrite bind_eq, Hrun.
    destruct (IH (results ++ [tr]) p1) as (traces & p' & Hrest & Hall).
    exists (tr :: traces), p'. rewrite Hrest, <- app_assoc. split; [reflexivity|].
    constructor; [|exact Hall]. cbn [snd]. rewrite Hid, Hprompt. by split.
Qed.
End benchmarks_spec.





(** ** runner.py: the grouping of [print_task_summary] *)

Lemma dict_append_keys {A : Type} (cat : string) (task : A) (d : list (string * list A)) :
  map fst (dict_append cat task d) =
  if bool_decide (cat ∈ map fst d) then map fst d else map fst d ++ [cat].
Proof.
  induction d as [|[key tasks] rest IH]; [reflexivity|].
  cbn [dict_append map fst]. destruct (bool_decide_reflect (key = cat)) as [->|Hne].
  - cbn [map fst]. rewrite bool_decide_eq_true_2; [reflexivity | apply list_elem_of_here].
  - cbn [map fst]. rewrite IH.
    destruct (bool_decide_reflect (cat ∈ map fst rest)) as [Hin|Hnin].
    + rewrite bool_decide_eq_true_2; [reflexivity | by apply list_elem_of_further].
    + rewrite bool_decide_eq_false_2; [reflexivity|].
      intros [?|?]%elem_of_cons; [congruence | contradiction].
Qed.

Lemma dict_append_NoDup {A : Type} (cat : string) (task : A) (d : list (string * list A)) :
  NoDup (map fst d) → NoDup (map fst (dict_append cat task d)).
Proof.
  intros Hd. rewrite dict_append_keys.
  destruct (bool_decide_reflect (cat ∈ map fst d)) as [Hin|Hnin]; [exact Hd|].
  apply NoDup_app. split; [exact Hd|]. split; [|apply NoDup_singleton].
  intros key Hkey ->%list_elem_of_singleton. contradiction.
Qed.

Lemma dict_append_concat {A : Type} (cat : string) (task : A) (d : list (string * list A)) :
  concat (map snd (dict_append cat task d)) ≡ₚ concat (map snd d) ++ [task].
Proof.
  induction d as [|[key tasks] rest IH]; [reflexivity|].
  cbn [dict_append]. destruct (bool_decide (key = cat)); cbn [map snd concat].
  - rewrite <- !app_assoc. apply Permutation_app_head, Permutation_app_comm.
  - rewrite IH. by rewrite app_assoc.
Qed.

(** The items of [dict_append cat task d], when those of [d] are the
    classes of [seen]. *)
Lemma dict_append_items {A : Type} (cat : string) (task : A) (d : list (string * list A))
    (P : string → A → Prop) (seen : list A) `{!∀ key x, Decision (P key x)} :
  P cat task →
  (∀ key, key ≠ cat → ¬ P key task) →
  NoDup (map fst d) →
  Forall (λ item, item.2 = filter (P item.1) seen) d →
  (cat ∉ map fst d → filter (P cat) seen = []) →
  Forall (λ item, item.2 = filter (P item.1) (seen ++ [task])) (dict_append cat task d).
Proof.
  intros Hcat Hother. induction d as [|[key tasks] rest IH]; intros Hnodup Hd Hfresh.
  - cbn [dict_append]. constructor; [|constructor]. cbn [fst snd].
    rewrite filter_app, Hfresh by apply not_elem_of_nil.
    rewrite filter_cons_True by exact Hcat. by rewrite filter_nil.
  - apply Forall_cons in Hd as [Hhead Hrest]. cbn [fst snd] in Hhead.
    cbn [map fst] in Hnodup. apply NoDup_cons in Hnodup as [Hkey Hnodup].
    cbn [dict_append]. destruct (bool_decide_reflect (key = cat)) as [->|Hne].
    + constructor.
      * cbn [fst snd]. rewrite filter_app, <- Hhead.
        rewrite filter_cons_True by exact Hcat. by rewrite filter_nil.
      * apply Forall_forall. intros [key' tasks'] Hin.
        rewrite Forall_forall in Hrest. specialize (Hrest _ Hin).
        cbn [fst snd] in *. rewrite filter_app, <- Hrest.
        assert (key' ≠ cat).
        { intros ->. apply Hkey. apply list_elem_of_fmap. by exists (cat, tasks'). }
        rewrite filter_cons_False by (by apply Hother). by rewrite filter_nil, app_nil_r.
    + constructor.
      * cbn [fst snd]. rewrite filter_app, <- Hhead.
        rewrite filter_cons_False by (by apply Hother). by rewrite filter_nil, app_nil_r.
      * apply IH; [exact Hnodup | exact Hrest |]. intros Hnin. apply Hfresh. cbn [map fst].
        intros [?|?]%elem_of_cons; [congruence | contradiction].
Qed.

Lemma filter_none {A : Type} (P : A → Prop) `{!∀ x, Decision (P x)} (l : list A) :
  (∀ x, x ∈ l → ¬ P x) → filter P l = [].
Proof.
  induction l as [|x l IH]; intros Hnone; [reflexivity|].
  rewrite filter_cons_False by (apply Hnone, list_elem_of_here).
  apply IH. intros y Hy. apply Hnone. by apply list_elem_of_further.
Qed.

Lemma by_category_snoc (tasks : list Task.t) (task : Task.t) :
  by_category (tasks ++ [task]) =
  dict_append (Category_.value (Task.category task)) task (by_category tasks).
Proof. unfold by_category. by rewrite foldl_app. Qed.

Lemma by_category_keys (tasks : list Task.t) (cat : string) :
  cat ∈ map fst (by_category tasks) ↔ Exists (in_category cat) tasks.
Proof.
  induction tasks as [|task tasks IH] using rev_ind.
  - cbn. rewrite Exists_nil. split; [by intros ?%elem_of_nil | done].
  - rewrite by_category_snoc, dict_append_keys, Exists_app, Exists_cons, Exists_nil.
    destruct (bool_decide_reflect
                (Category_.value (Task.category task) ∈ map fst (by_category tasks)))
      as [Hin|Hnin].
    + rewrite IH. split; [by left|]. intros [Hold|[Hnew|[]]]; [exact Hold|].
      unfold in_category in Hnew. subst cat. by apply IH.
    + rewrite elem_of_app, list_elem_of_singleton, IH. unfold in_category at 2.
      split; [intros [?| ->]; [by left | by right; left] | intros [?|[?|[]]]; [by left | by right]].
Qed.

(** X29.  The dict [by_category] that [print_task_summary] prints from has
    one item per category that occurs among the tasks; the item of a
    category holds exactly the tasks of that category, in the order of the
    registry, and is never empty; so the summary lists every task exactly
    once, and the total it prints is the number of tasks listed. *)
Theorem by_category_partitions (tasks : list Task.t) :
  NoDup (map fst (by_category tasks))
  ∧ Forall (λ item, item.2 = filter (in_category item.1) tasks ∧ item.2 ≠ [])
      (by_category tasks)
  ∧ listed tasks ≡ₚ tasks
  ∧ length (listed tasks) = length tasks.
Proof.
  assert (Hgroups : NoDup (map fst (by_category tasks))
                    ∧ Forall (λ item, item.2 = filter (in_category item.1) tasks)
                        (by_category tasks)
                    ∧ listed tasks ≡ₚ tasks).
  { unfold listed. induction tasks as [|task tasks (Hnodup & Hitems & Hperm)] using rev_ind.
    - split; [constructor|]. split; [constructor | reflexivity].
    - rewrite by_category_snoc. split; [by apply dict_append_NoDup|]. split.
      + apply dict_append_items; [reflexivity | | exact Hnodup | exact Hitems |].
        * intros key Hne Hin. by apply Hne.
        * intros Hfresh. apply filter_none.
          intros other Hother Hcat. apply Hfresh. apply by_category_keys.
          apply Exists_exists. by exists other.
      + by rewrite dict_append_concat, Hperm. }
  destruct Hgroups as (Hnodup & Hitems & Hperm).
  split; [exact Hnodup|]. split; [|split; [exact Hperm | by rewrite Hperm]].
  apply Forall_forall. intros [cat group] Hin.
  rewrite Forall_forall in Hitems. specialize (Hitems _ Hin). cbn [fst snd] in *.
  split; [exact Hitems|]. rewrite Hitems.
  assert (Hkey : cat ∈ map fst (by_category tasks)).
  { apply list_elem_of_fmap. by exists (cat, group). }
  apply by_category_keys, Exists_exists in Hkey as (task & Htask & Hcat).
  intros Hnil. exact (filter_nil_not_elem_of _ _ _ Hnil Hcat Htask).
Qed.
